(** * Emergency orchestrator: a shallow embedding of the per-session
    orchestration engine ([agents/orchestrator.py]) and of the four agents it
    drives ([agents/empathy_agent.py], [agents/triage_agent.py],
    [agents/guidance_agent.py], [agents/dispatch_agent.py]).

    Conventions of the embedding.
    - Python dictionaries whose key set varies (agent responses, metadata,
      the result of the safety check) are association lists from keys to
      dynamically typed values, in insertion order; [d[k]] raises [KeyError]
      when the key is missing and [d.get(k)] does not.
    - The session dictionary has the fixed key set written by
      [start_session] and is a record.
    - Exceptions are values; code that mutates the session before raising
      leaves the mutation in place, as Python does.
    - Python floats are modelled by the rationals their literals denote.
    - Text is a byte string; [lower] lowercases the ASCII letters, which is
      what [str.lower] does on ASCII text.
    - Clock readings, uuids, the sentiment analyser, [random.choice] and
      [hash] are inputs supplied by an environment record per call. *)

From stdpp Require Import base gmap strings pretty.
From Stdlib Require Import Ascii String ZArith QArith Qminmax Qabs Lia Lqa.

Set Warnings "-register-all".
Close Scope Q_scope.

Open Scope string_scope.
Open Scope list_scope.

(** ** Text *)

Module Text.

Definition lower_ascii (c : ascii) : ascii :=
  let n := N_of_ascii c in
  if (65 <=? n)%N && (n <=? 90)%N then ascii_of_N (n + 32) else c.

Fixpoint lower (s : string) : string :=
  match s with
  | EmptyString => EmptyString
  | String c r => String (lower_ascii c) (lower r)
  end.

(** [contains needle hay] is Python's [needle in hay] on strings. *)
Fixpoint contains (needle hay : string) : bool :=
  String.prefix needle hay ||
  match hay with
  | EmptyString => false
  | String _ r => contains needle r
  end.

(** The characters [str.split()] treats as separators in ASCII text. *)
Definition is_space (c : ascii) : bool :=
  let n := N_of_ascii c in
  ((9 <=? n)%N && (n <=? 13)%N) || ((28 <=? n)%N && (n <=? 32)%N).

(** [split_go cur s]: words of [s], [cur] being the word read so far. *)
Fixpoint split_go (cur : string) (s : string) : list string :=
  match s with
  | EmptyString => if String.eqb cur "" then [] else [cur]
  | String c r =>
      if is_space c
      then (if String.eqb cur "" then split_go "" r else cur :: split_go "" r)
      else split_go (cur +:+ String c "") r
  end.

Definition split (s : string) : list string := split_go "" s.

(** [chars s]: iterating over a string yields its one-character strings. *)
Fixpoint chars (s : string) : list string :=
  match s with
  | EmptyString => []
  | String c r => String c "" :: chars r
  end.

(** [any(kw in text for kw in kws)] *)
Definition any_in (kws : list string) (text : string) : bool :=
  existsb (fun kw => contains kw text) kws.

(** [x in l] for a list of strings. *)
Definition mem (x : string) (l : list string) : bool :=
  existsb (String.eqb x) l.

End Text.

(** ** Dynamically typed values and dictionaries *)

Inductive value : Type :=
| VNone
| VBool (b : bool)
| VInt (z : Z)
| VFloat (q : Q)
| VStr (s : string)
| VList (l : list value)
| VDict (d : list (string * value)).

Abbreviation dict := (list (string * value)).

(** [d.get(k)] *)
Fixpoint dict_get (k : string) (d : dict) : option value :=
  match d with
  | [] => None
  | (k', v) :: r => if String.eqb k k' then Some v else dict_get k r
  end.

(** [d[k] = v]: overwrite in place, or append a new key. *)
Fixpoint dict_set (k : string) (v : value) (d : dict) : dict :=
  match d with
  | [] => [(k, v)]
  | (k', v') :: r =>
      if String.eqb k k' then (k', v) :: r else (k', v') :: dict_set k v r
  end.

(** [k in d] *)
Definition dict_has (k : string) (d : dict) : bool :=
  match dict_get k d with Some _ => true | None => false end.

(** Truth value of a Python object. *)
Definition truthy (v : value) : bool :=
  match v with
  | VNone => false
  | VBool b => b
  | VInt z => negb (z =? 0)%Z
  | VFloat q => negb (Qeq_bool q 0)
  | VStr s => negb (String.eqb s "")
  | VList l => match l with [] => false | _ => true end
  | VDict d => match d with [] => false | _ => true end
  end.

(** [d.get(k)] used as a condition: a missing key reads as [None]. *)
Definition get_truthy (k : string) (d : dict) : bool :=
  match dict_get k d with Some v => truthy v | None => false end.

(** [v == s] for a string literal [s]. *)
Definition is_str (v : value) (s : string) : bool :=
  match v with VStr s' => String.eqb s' s | _ => false end.

(** The number a value compares equal to, if it is one ([True == 1 == 1.0]). *)
Definition as_number (v : value) : option Q :=
  match v with
  | VBool b => Some (if b then 1 else 0)%Q
  | VInt z => Some (inject_Z z)
  | VFloat q => Some q
  | _ => None
  end.

(** Values a [set] accepts. *)
Definition hashable (v : value) : bool :=
  match v with VList _ | VDict _ => false | _ => true end.

(** [a == b] on hashable values. *)
Definition hashable_eqb (a b : value) : bool :=
  match as_number a, as_number b with
  | Some x, Some y => Qeq_bool x y
  | None, None =>
      match a, b with
      | VNone, VNone => true
      | VStr s, VStr t => String.eqb s t
      | _, _ => false
      end
  | _, _ => false
  end.

(** [list(set(l))]: every element once.  Python fixes no order for a set;
    the model keeps the first occurrence of each element, in list order. *)
Fixpoint dedup_values (l : list value) : list value :=
  match l with
  | [] => []
  | v :: r =>
      v :: List.filter (fun w => negb (hashable_eqb v w)) (dedup_values r)
  end.

(** ** Exceptions *)

Inductive exn : Type :=
| KeyError (key : string)
| TypeError (msg : string)
| AttributeError (msg : string)
| ValueError (msg : string)
| OtherException (msg : string).

(** [str(e)]; a [KeyError] prints the repr of its key. *)
Definition exn_str (e : exn) : string :=
  match e with
  | KeyError k => "'" +:+ k +:+ "'"
  | TypeError m | AttributeError m | ValueError m | OtherException m => m
  end.

Inductive res (A : Type) : Type :=
| Ok (a : A)
| Raise (e : exn).
Arguments Ok {A} a.
Arguments Raise {A} e.

Definition res_bind {A B} (m : res A) (f : A -> res B) : res B :=
  match m with
  | Ok a => f a
  | Raise e => Raise e
  end.

(** [d[k]] *)
Definition subscript (d : dict) (k : string) : res value :=
  match dict_get k d with
  | Some v => Ok v
  | None => Raise (KeyError k)
  end.

(** The receiver of [.get] has to be a dict. *)
Definition receiver (v : value) : res dict :=
  match v with
  | VDict d => Ok d
  | _ => Raise (AttributeError "object has no attribute 'get'")
  end.

(** The object under [obj[key]] and [obj[key] = x] has to be a dict. *)
Definition container (v : value) : res dict :=
  match v with
  | VDict d => Ok d
  | _ => Raise (TypeError "object is not a dict")
  end.

(** The text an f-string inserts for a value.  For [str], [None], [bool] and
    [int] it is what Python prints; the printing of floats and containers is
    not modelled and reported by a [TypeError] of the model's own. *)
Definition format_value (v : value) : res string :=
  match v with
  | VStr s => Ok s
  | VNone => Ok "None"
  | VBool b => Ok (if b then "True" else "False")
  | VInt z => Ok (pretty z)
  | VFloat _ | VList _ | VDict _ => Raise (TypeError "format: value outside the model")
  end.

(** ** Configuration ([config/config.py], read through [config.get]) *)

Record config : Type := {
  safety_keywords : list string;        (* SAFETY_KEYWORDS, default [] *)
  max_conversation_turns : nat;         (* MAX_CONVERSATION_TURNS, default 50 *)
  real_dispatch_enabled : bool          (* REAL_DISPATCH_ENABLED, default False *)
}.

(** The values of class [Config]. *)
Definition Config : config :=
  {| safety_keywords := ["suicide"; "self-harm"; "overdose"];
     max_conversation_turns := 50;
     real_dispatch_enabled := false |}.

(** What the orchestrator reads from the dictionary [backend/main.py] and
    [test_system.py] hand it, [config['development'].__dict__]: the
    namespace of class [DevelopmentConfig] itself holds only [DEBUG] and
    [DATABASE_URL], so every [config.get] of the orchestrator and of the
    agents returns its default. *)
Definition development_dict : config :=
  {| safety_keywords := [];
     max_conversation_turns := 50;
     real_dispatch_enabled := false |}.

(** ** Session state ([start_session]) *)

(** One entry of [conversation_history]; the two response keys are added
    after the merge. *)
Record turn_record : Type := {
  turn : nat;
  user_message : string;
  timestamp : string;
  agent_response : option value;
  agent_type : option value
}.

Record session : Type := mk_session {
  session_id : string;
  start_time : Q;
  end_time : option Q;
  caller_phone : value;
  latitude : value;
  longitude : value;
  address : value;
  (* Conversation state *)
  turn_number : nat;
  conversation_history : list turn_record;
  questions_asked : list string;
  (* Emergency assessment *)
  urgency_level : value;
  emergency_type : value;
  critical_keywords : list value;
  triage_complete : bool;
  dispatch_attempted : bool;
  dispatch_successful : bool;
  (* Analytics *)
  empathy_score : value;
  sentiment_scores : list value;
  response_times : list Q;
  agent_activations : list (nat * list string);
  (* Safety flags *)
  safety_triggers : nat;
  profanity_detected : bool;
  loop_breaker_active : bool
}.

(** [session[key] = x], one setter per key the orchestrator assigns. *)

Definition set_end_time (x : option Q) (s : session) : session :=
  {| session_id := session_id s; start_time := start_time s; end_time := x;
     caller_phone := caller_phone s; latitude := latitude s; longitude := longitude s;
     address := address s; turn_number := turn_number s;
     conversation_history := conversation_history s; questions_asked := questions_asked s;
     urgency_level := urgency_level s; emergency_type := emergency_type s;
     critical_keywords := critical_keywords s; triage_complete := triage_complete s;
     dispatch_attempted := dispatch_attempted s;
     dispatch_successful := dispatch_successful s; empathy_score := empathy_score s;
     sentiment_scores := sentiment_scores s; response_times := response_times s;
     agent_activations := agent_activations s; safety_triggers := safety_triggers s;
     profanity_detected := profanity_detected s;
     loop_breaker_active := loop_breaker_active s |}.

Definition set_turn_number (x : nat) (s : session) : session :=
  {| session_id := session_id s; start_time := start_time s; end_time := end_time s;
     caller_phone := caller_phone s; latitude := latitude s; longitude := longitude s;
     address := address s; turn_number := x; conversation_history := conversation_history s;
     questions_asked := questions_asked s; urgency_level := urgency_level s;
     emergency_type := emergency_type s; critical_keywords := critical_keywords s;
     triage_complete := triage_complete s; dispatch_attempted := dispatch_attempted s;
     dispatch_successful := dispatch_successful s; empathy_score := empathy_score s;
     sentiment_scores := sentiment_scores s; response_times := response_times s;
     agent_activations := agent_activations s; safety_triggers := safety_triggers s;
     profanity_detected := profanity_detected s;
     loop_breaker_active := loop_breaker_active s |}.

Definition set_conversation_history (x : list turn_record) (s : session) : session :=
  {| session_id := session_id s; start_time := start_time s; end_time := end_time s;
     caller_phone := caller_phone s; latitude := latitude s; longitude := longitude s;
     address := address s; turn_number := turn_number s; conversation_history := x;
     questions_asked := questions_asked s; urgency_level := urgency_level s;
     emergency_type := emergency_type s; critical_keywords := critical_keywords s;
     triage_complete := triage_complete s; dispatch_attempted := dispatch_attempted s;
     dispatch_successful := dispatch_successful s; empathy_score := empathy_score s;
     sentiment_scores := sentiment_scores s; response_times := response_times s;
     agent_activations := agent_activations s; safety_triggers := safety_triggers s;
     profanity_detected := profanity_detected s;
     loop_breaker_active := loop_breaker_active s |}.

Definition set_urgency_level (x : value) (s : session) : session :=
  {| session_id := session_id s; start_time := start_time s; end_time := end_time s;
     caller_phone := caller_phone s; latitude := latitude s; longitude := longitude s;
     address := address s; turn_number := turn_number s;
     conversation_history := conversation_history s; questions_asked := questions_asked s;
     urgency_level := x; emergency_type := emergency_type s;
     critical_keywords := critical_keywords s; triage_complete := triage_complete s;
     dispatch_attempted := dispatch_attempted s;
     dispatch_successful := dispatch_successful s; empathy_score := empathy_score s;
     sentiment_scores := sentiment_scores s; response_times := response_times s;
     agent_activations := agent_activations s; safety_triggers := safety_triggers s;
     profanity_detected := profanity_detected s;
     loop_breaker_active := loop_breaker_active s |}.

Definition set_emergency_type (x : value) (s : session) : session :=
  {| session_id := session_id s; start_time := start_time s; end_time := end_time s;
     caller_phone := caller_phone s; latitude := latitude s; longitude := longitude s;
     address := address s; turn_number := turn_number s;
     conversation_history := conversation_history s; questions_asked := questions_asked s;
     urgency_level := urgency_level s; emergency_type := x;
     critical_keywords := critical_keywords s; triage_complete := triage_complete s;
     dispatch_attempted := dispatch_attempted s;
     dispatch_successful := dispatch_successful s; empathy_score := empathy_score s;
     sentiment_scores := sentiment_scores s; response_times := response_times s;
     agent_activations := agent_activations s; safety_triggers := safety_triggers s;
     profanity_detected := profanity_detected s;
     loop_breaker_active := loop_breaker_active s |}.

Definition set_critical_keywords (x : list value) (s : session) : session :=
  {| session_id := session_id s; start_time := start_time s; end_time := end_time s;
     caller_phone := caller_phone s; latitude := latitude s; longitude := longitude s;
     address := address s; turn_number := turn_number s;
     conversation_history := conversation_history s; questions_asked := questions_asked s;
     urgency_level := urgency_level s; emergency_type := emergency_type s;
     critical_keywords := x; triage_complete := triage_complete s;
     dispatch_attempted := dispatch_attempted s;
     dispatch_successful := dispatch_successful s; empathy_score := empathy_score s;
     sentiment_scores := sentiment_scores s; response_times := response_times s;
     agent_activations := agent_activations s; safety_triggers := safety_triggers s;
     profanity_detected := profanity_detected s;
     loop_breaker_active := loop_breaker_active s |}.

Definition set_triage_complete (x : bool) (s : session) : session :=
  {| session_id := session_id s; start_time := start_time s; end_time := end_time s;
     caller_phone := caller_phone s; latitude := latitude s; longitude := longitude s;
     address := address s; turn_number := turn_number s;
     conversation_history := conversation_history s; questions_asked := questions_asked s;
     urgency_level := urgency_level s; emergency_type := emergency_type s;
     critical_keywords := critical_keywords s; triage_complete := x;
     dispatch_attempted := dispatch_attempted s;
     dispatch_successful := dispatch_successful s; empathy_score := empathy_score s;
     sentiment_scores := sentiment_scores s; response_times := response_times s;
     agent_activations := agent_activations s; safety_triggers := safety_triggers s;
     profanity_detected := profanity_detected s;
     loop_breaker_active := loop_breaker_active s |}.

Definition set_dispatch_attempted (x : bool) (s : session) : session :=
  {| session_id := session_id s; start_time := start_time s; end_time := end_time s;
     caller_phone := caller_phone s; latitude := latitude s; longitude := longitude s;
     address := address s; turn_number := turn_number s;
     conversation_history := conversation_history s; questions_asked := questions_asked s;
     urgency_level := urgency_level s; emergency_type := emergency_type s;
     critical_keywords := critical_keywords s; triage_complete := triage_complete s;
     dispatch_attempted := x; dispatch_successful := dispatch_successful s;
     empathy_score := empathy_score s; sentiment_scores := sentiment_scores s;
     response_times := response_times s; agent_activations := agent_activations s;
     safety_triggers := safety_triggers s; profanity_detected := profanity_detected s;
     loop_breaker_active := loop_breaker_active s |}.

Definition set_dispatch_successful (x : bool) (s : session) : session :=
  {| session_id := session_id s; start_time := start_time s; end_time := end_time s;
     caller_phone := caller_phone s; latitude := latitude s; longitude := longitude s;
     address := address s; turn_number := turn_number s;
     conversation_history := conversation_history s; questions_asked := questions_asked s;
     urgency_level := urgency_level s; emergency_type := emergency_type s;
     critical_keywords := critical_keywords s; triage_complete := triage_complete s;
     dispatch_attempted := dispatch_attempted s; dispatch_successful := x;
     empathy_score := empathy_score s; sentiment_scores := sentiment_scores s;
     response_times := response_times s; agent_activations := agent_activations s;
     safety_triggers := safety_triggers s; profanity_detected := profanity_detected s;
     loop_breaker_active := loop_breaker_active s |}.

Definition set_empathy_score (x : value) (s : session) : session :=
  {| session_id := session_id s; start_time := start_time s; end_time := end_time s;
     caller_phone := caller_phone s; latitude := latitude s; longitude := longitude s;
     address := address s; turn_number := turn_number s;
     conversation_history := conversation_history s; questions_asked := questions_asked s;
     urgency_level := urgency_level s; emergency_type := emergency_type s;
     critical_keywords := critical_keywords s; triage_complete := triage_complete s;
     dispatch_attempted := dispatch_attempted s;
     dispatch_successful := dispatch_successful s; empathy_score := x;
     sentiment_scores := sentiment_scores s; response_times := response_times s;
     agent_activations := agent_activations s; safety_triggers := safety_triggers s;
     profanity_detected := profanity_detected s;
     loop_breaker_active := loop_breaker_active s |}.

Definition set_response_times (x : list Q) (s : session) : session :=
  {| session_id := session_id s; start_time := start_time s; end_time := end_time s;
     caller_phone := caller_phone s; latitude := latitude s; longitude := longitude s;
     address := address s; turn_number := turn_number s;
     conversation_history := conversation_history s; questions_asked := questions_asked s;
     urgency_level := urgency_level s; emergency_type := emergency_type s;
     critical_keywords := critical_keywords s; triage_complete := triage_complete s;
     dispatch_attempted := dispatch_attempted s;
     dispatch_successful := dispatch_successful s; empathy_score := empathy_score s;
     sentiment_scores := sentiment_scores s; response_times := x;
     agent_activations := agent_activations s; safety_triggers := safety_triggers s;
     profanity_detected := profanity_detected s;
     loop_breaker_active := loop_breaker_active s |}.

Definition set_agent_activations (x : list (nat * list string)) (s : session) : session :=
  {| session_id := session_id s; start_time := start_time s; end_time := end_time s;
     caller_phone := caller_phone s; latitude := latitude s; longitude := longitude s;
     address := address s; turn_number := turn_number s;
     conversation_history := conversation_history s; questions_asked := questions_asked s;
     urgency_level := urgency_level s; emergency_type := emergency_type s;
     critical_keywords := critical_keywords s; triage_complete := triage_complete s;
     dispatch_attempted := dispatch_attempted s;
     dispatch_successful := dispatch_successful s; empathy_score := empathy_score s;
     sentiment_scores := sentiment_scores s; response_times := response_times s;
     agent_activations := x; safety_triggers := safety_triggers s;
     profanity_detected := profanity_detected s;
     loop_breaker_active := loop_breaker_active s |}.

Definition set_safety_triggers (x : nat) (s : session) : session :=
  {| session_id := session_id s; start_time := start_time s; end_time := end_time s;
     caller_phone := caller_phone s; latitude := latitude s; longitude := longitude s;
     address := address s; turn_number := turn_number s;
     conversation_history := conversation_history s; questions_asked := questions_asked s;
     urgency_level := urgency_level s; emergency_type := emergency_type s;
     critical_keywords := critical_keywords s; triage_complete := triage_complete s;
     dispatch_attempted := dispatch_attempted s;
     dispatch_successful := dispatch_successful s; empathy_score := empathy_score s;
     sentiment_scores := sentiment_scores s; response_times := response_times s;
     agent_activations := agent_activations s; safety_triggers := x;
     profanity_detected := profanity_detected s;
     loop_breaker_active := loop_breaker_active s |}.

Definition set_loop_breaker_active (x : bool) (s : session) : session :=
  {| session_id := session_id s; start_time := start_time s; end_time := end_time s;
     caller_phone := caller_phone s; latitude := latitude s; longitude := longitude s;
     address := address s; turn_number := turn_number s;
     conversation_history := conversation_history s; questions_asked := questions_asked s;
     urgency_level := urgency_level s; emergency_type := emergency_type s;
     critical_keywords := critical_keywords s; triage_complete := triage_complete s;
     dispatch_attempted := dispatch_attempted s;
     dispatch_successful := dispatch_successful s; empathy_score := empathy_score s;
     sentiment_scores := sentiment_scores s; response_times := response_times s;
     agent_activations := agent_activations s; safety_triggers := safety_triggers s;
     profanity_detected := profanity_detected s; loop_breaker_active := x |}.

(** [caller_info.get(k) if caller_info else None] *)
Definition caller_get (caller_info : option dict) (k : string) : value :=
  match caller_info with
  | Some d => match dict_get k d with Some v => v | None => VNone end
  | None => VNone
  end.

Definition new_session (sid : string) (now : Q) (caller_info : option dict) : session :=
  {| session_id := sid;
     start_time := now;
     end_time := None;
     caller_phone := caller_get caller_info "phone";
     latitude := caller_get caller_info "latitude";
     longitude := caller_get caller_info "longitude";
     address := caller_get caller_info "address";
     turn_number := 0;
     conversation_history := [];
     questions_asked := [];
     urgency_level := VStr "unknown";
     emergency_type := VStr "unknown";
     critical_keywords := [];
     triage_complete := false;
     dispatch_attempted := false;
     dispatch_successful := false;
     empathy_score := VFloat 0;
     sentiment_scores := [];
     response_times := [];
     agent_activations := [];
     safety_triggers := 0;
     profanity_detected := false;
     loop_breaker_active := false |}.

(** ** Context snapshot ([_build_context]) *)

(** The keys [_build_context] writes, and [sentiment_score], which
    [EmpathyAgent.should_activate] reads with a default and [_build_context]
    never writes ([None] = key absent).  The other keys the agents read with
    a default and nobody writes ([incident_description], [victim_age], ...)
    appear as their defaults where they are read. *)
Record context : Type := {
  ctx_session_id : string;
  ctx_turn_number : nat;
  ctx_message : string;
  ctx_conversation_history : list turn_record;
  ctx_questions_asked : list string;
  ctx_urgency_level : value;
  ctx_emergency_type : value;
  ctx_critical_keywords : list value;
  ctx_triage_complete : bool;
  ctx_empathy_score : value;
  ctx_address : value;
  ctx_latitude : value;
  ctx_longitude : value;
  ctx_caller_phone : value;
  ctx_sentiment_score : option Q
}.

Definition _build_context (s : session) (current_message : string) : context :=
  {| ctx_session_id := session_id s;
     ctx_turn_number := turn_number s;
     ctx_message := current_message;
     ctx_conversation_history := conversation_history s;
     ctx_questions_asked := questions_asked s;
     ctx_urgency_level := urgency_level s;
     ctx_emergency_type := emergency_type s;
     ctx_critical_keywords := critical_keywords s;
     ctx_triage_complete := triage_complete s;
     ctx_empathy_score := empathy_score s;
     ctx_address := address s;
     ctx_latitude := latitude s;
     ctx_longitude := longitude s;
     ctx_caller_phone := caller_phone s;
     ctx_sentiment_score := None |}.

(** ** Shared agent code ([agents/base_agent.py]) *)

Definition Qltb (x y : Q) : bool := negb (Qle_bool y x).

(** What the world outside the model contributes to one agent call.
    [escapes] feeds the handler [_process_through_agents] puts around each
    awaited call.  The four agents of this repository run their whole body
    under [try ... except Exception] and return a fallback from the handler,
    so for them [escapes] is [None] (see [agents_catch]); statements that
    hold for every environment hold in particular for these. *)
Record call_env : Type := {
  escapes : option exn;       (* an exception that leaves the agent's coroutine *)
  fails_inside : option exn;  (* an exception under the agent's own [try], raised
                                 by code outside the model (analyser, logging) *)
  response_time : Q;          (* difference of the two loop-clock readings *)
  created : string            (* [datetime.utcnow().isoformat()] of the response *)
}.

(** [BaseAgent.extract_keywords] *)
Definition extract_keywords (text : string) (keyword_list : list string) : list string :=
  let text_lower := Text.lower text in
  List.filter (fun keyword => Text.contains (Text.lower keyword) text_lower) keyword_list.

(** [BaseAgent.calculate_urgency_score] *)
Definition calculate_urgency_score (keywords : list string) (sentiment_score : Q) : Q :=
  let keyword_weight := (inject_Z (Z.of_nat (List.length keywords)) * 0.3)%Q in
  let sentiment_weight := (Qabs sentiment_score * 0.7)%Q in
  Qmin (keyword_weight + sentiment_weight) 1.0.

(** [AgentResponse(...).to_dict()] *)
Definition to_dict (message agent_type : string) (confidence : Q)
    (urgency_level : value) (metadata : dict) (timestamp : string) : dict :=
  [("message", VStr message);
   ("agent_type", VStr agent_type);
   ("confidence", VFloat confidence);
   ("urgency_level", urgency_level);
   ("metadata", VDict metadata);
   ("timestamp", VStr timestamp)].

(** [table.get(k, default)] for a table of strings. *)
Fixpoint lookup_or (default : string) (table : list (string * string)) (k : string) : string :=
  match table with
  | [] => default
  | (k', v) :: r => if String.eqb k k' then v else lookup_or default r k
  end.

(** The string behind a value, for tables keyed by strings: a value that is
    not a string matches no key. *)
Definition lookup_value_or (default : string) (table : list (string * string)) (v : value) : string :=
  match v with
  | VStr k => lookup_or default table k
  | _ => default
  end.

(** ** Empathy agent ([agents/empathy_agent.py]) *)

Module EmpathyAgent.

Definition calming_phrases : list string :=
  ["I understand this is scary; I'm here to help you.";
   "You're doing great by calling for help. I'm going to guide you through this.";
   "I know this is overwhelming, but help is on the way. Stay with me.";
   "Take a deep breath. You've done the right thing by calling.";
   "I can hear that you're frightened. That's completely normal. Let me help you.";
   "You're being very brave. I'm here to support you through this.";
   "I understand you're in a difficult situation. We're going to get through this together.";
   "Stay calm. You're not alone. Help is coming."].

Definition validation_phrases : list string :=
  ["That must be very frightening for you.";
   "I can understand why you're worried.";
   "Your feelings are completely valid.";
   "Anyone would feel scared in this situation.";
   "You're handling this as well as anyone could.";
   "It's natural to feel overwhelmed right now."].

Definition reassurance_phrases : list string :=
  ["Help is on the way.";
   "You're going to be okay.";
   "Medical professionals will be there soon.";
   "You've taken the right step by calling.";
   "Emergency responders are being dispatched now.";
   "Stay strong - help is coming."].

(** [polarity_scores(message)] of the sentiment analyser. *)
Record polarity : Type := { p_neg : Q; p_neu : Q; p_pos : Q; p_compound : Q }.

Record env : Type := {
  call : call_env;
  scores : polarity;     (* what the analyser returns for the message *)
  pick : nat             (* the index [random.choice] draws *)
}.

(** [random.choice(l)] with the drawn index supplied. *)
Definition choice (i : nat) (l : list string) : string :=
  nth (i mod List.length l) l "".

Definition _classify_emotional_state (sentiment_scores : polarity) : string :=
  let compound := p_compound sentiment_scores in
  let positive := p_pos sentiment_scores in
  let negative := p_neg sentiment_scores in
  if Qltb 0.6 negative then "highly_distressed"
  else if Qltb 0.3 negative then "distressed"
  else if Qltb compound (-0.3) then "anxious"
  else if Qltb 0.5 positive then "calm"
  else "neutral".

Definition _generate_empathic_response (i : nat) (message emotional_state : string)
    (sentiment_score : Q) (ctx : context) : string :=
  let is_first_contact := Nat.eqb (ctx_turn_number ctx) 0 in
  let base_response :=
    if is_first_contact then choice i calming_phrases
    else if Text.mem emotional_state ["highly_distressed"; "distressed"]
         then choice i calming_phrases
    else if String.eqb emotional_state "anxious" then choice i validation_phrases
    else choice i reassurance_phrases in
  let base_response :=
    if Text.contains "pain" (Text.lower message)
    then base_response +:+ " I know you're in pain right now."
    else if Text.contains "scared" (Text.lower message)
            || Text.contains "afraid" (Text.lower message)
    then base_response +:+ " It's okay to feel scared."
    else if Text.contains "help" (Text.lower message)
    then base_response +:+ " Help is definitely coming."
    else base_response in
  if String.eqb emotional_state "highly_distressed" && Qltb sentiment_score (-0.6)
  then base_response +:+ " Try to take slow, deep breaths with me."
  else base_response.

Definition _calculate_empathy_score (sentiment_scores : polarity) : Q :=
  let negative_score := p_neg sentiment_scores in
  if Qltb 0.5 negative_score then Qmin 0.9 (0.5 + negative_score * 0.4)
  else if Qltb 0.2 negative_score then Qmin 0.7 (0.3 + negative_score * 0.4)
  else 0.5%Q.

Definition fallback (e : exn) (created : string) : dict :=
  to_dict "I understand you're in an emergency. Help is on the way. Stay calm."
    "empathy" 0.5 (VStr "unknown") [("error", VStr (exn_str e))] created.

Definition process_message (ev : env) (message : string) (ctx : context) : res dict :=
  match escapes (call ev) with
  | Some e => Raise e
  | None =>
      match fails_inside (call ev) with
      | Some e => Ok (fallback e (created (call ev)))
      | None =>
          let sentiment_scores := scores ev in
          let sentiment_score := p_compound sentiment_scores in
          let emotional_state := _classify_emotional_state sentiment_scores in
          let response_message :=
            _generate_empathic_response (pick ev) message emotional_state sentiment_score ctx in
          let empathy_score := _calculate_empathy_score sentiment_scores in
          Ok (to_dict response_message "empathy" 0.9 (ctx_urgency_level ctx)
                [("sentiment_score", VFloat sentiment_score);
                 ("emotional_state", VStr emotional_state);
                 ("empathy_score", VFloat empathy_score);
                 ("response_time", VFloat (response_time (call ev)))]
                (created (call ev)))
      end
  end.

Definition support_keywords : list string :=
  ["scared"; "afraid"; "worried"; "nervous"; "panic"].

Definition should_activate (ctx : context) : bool :=
  if Nat.eqb (ctx_turn_number ctx) 0 then true
  else
    let sentiment_score :=
      match ctx_sentiment_score ctx with Some x => x | None => 0%Q end in
    if Qltb sentiment_score (-0.3) then true
    else
      let message := Text.lower (ctx_message ctx) in
      existsb (fun keyword => Text.contains keyword message) support_keywords.

End EmpathyAgent.

(** ** Triage agent ([agents/triage_agent.py]) *)

Module TriageAgent.

Definition critical_medical : list string :=
  ["unconscious"; "not breathing"; "no pulse"; "chest pain"; "heart attack";
   "stroke"; "seizure"; "severe bleeding"; "choking"; "overdose"].

Definition critical_safety : list string :=
  ["fire"; "smoke"; "explosion"; "gun"; "weapon"; "assault"; "violence";
   "robbery"; "break in"; "intruder"; "domestic violence"].

Definition high_priority : list string :=
  ["difficulty breathing"; "severe pain"; "heavy bleeding"; "broken bone";
   "car accident"; "fall"; "burn"; "allergic reaction"; "pregnancy"].

Definition medium_priority : list string :=
  ["moderate pain"; "minor bleeding"; "nausea"; "fever"; "rash";
   "anxiety"; "panic attack"; "minor injury"].

Definition triage_questions : list (string * string) :=
  [("consciousness", "Is the person conscious and able to respond?");
   ("breathing", "Is the person breathing normally?");
   ("bleeding", "Is there any severe bleeding?");
   ("pain_level", "On a scale of 1-10, how severe is the pain?");
   ("location", "What is your exact location?");
   ("age", "What is the person's approximate age?");
   ("medical_history", "Any known medical conditions or allergies?");
   ("what_happened", "Can you briefly describe what happened?")].

Definition protocol_responses : list (string * string) :=
  [("critical", "This is a critical emergency. Emergency responders are being dispatched immediately.");
   ("high", "This requires urgent medical attention. Help is on the way.");
   ("medium", "Medical assistance is needed. Emergency services will respond promptly.");
   ("low", "We'll send appropriate help. Please stay on the line.")].

(** [[kw for kw in kws if kw in message_lower]] *)
Definition found_in (kws : list string) (message_lower : string) : list string :=
  List.filter (fun kw => Text.contains kw message_lower) kws.

Definition nonempty {A} (l : list A) : bool :=
  match l with [] => false | _ => true end.

Definition _assess_urgency (message : string) : string * string :=
  let message_lower := Text.lower message in
  let critical_medical_found := found_in critical_medical message_lower in
  if nonempty critical_medical_found then ("critical", "medical")
  else
    let critical_safety_found := found_in critical_safety message_lower in
    if nonempty critical_safety_found then ("critical", "safety")
    else
      let high_priority_found := found_in high_priority message_lower in
      if nonempty high_priority_found then
        let emergency_type :=
          if existsb (fun kw => Text.mem kw ["breathing"; "pain"; "bleeding"; "accident"])
               high_priority_found
          then "medical" else "safety" in
        ("high", emergency_type)
      else
        let medium_priority_found := found_in medium_priority message_lower in
        if nonempty medium_priority_found then ("medium", "medical")
        else if Text.any_in ["police"; "crime"; "theft"] message_lower
        then ("medium", "police")
        else if Text.any_in ["fire"; "smoke"] message_lower
        then ("high", "fire")
        else ("unknown", "unknown").

Definition _extract_critical_keywords (message : string) : list string :=
  let all_critical := critical_medical ++ critical_safety ++ high_priority in
  extract_keywords message all_critical.

(** [self.triage_questions[k]] for the keys the code uses, all present. *)
Definition question (k : string) : string := lookup_or "" triage_questions k.

Definition _get_next_critical_question (urgency_level emergency_type : string)
    (questions_asked : list string) (message : string) : string :=
  let message_lower := Text.lower message in
  let critical_part : option string :=
    if String.eqb urgency_level "critical" then
      if negb (Text.mem "consciousness" questions_asked)
         && negb (Text.any_in ["conscious"; "awake"; "responding"] message_lower)
      then Some (question "consciousness")
      else if negb (Text.mem "breathing" questions_asked)
              && negb (Text.any_in ["breathing"; "breath"; "air"] message_lower)
      then Some (question "breathing")
      else if negb (Text.mem "bleeding" questions_asked)
              && negb (Text.any_in ["bleeding"; "blood"] message_lower)
      then Some (question "bleeding")
      else None
    else None in
  match critical_part with
  | Some q => q
  | None =>
      if negb (Text.mem "location" questions_asked)
         && negb (Text.any_in ["address"; "street"; "location"; "where"] message_lower)
      then question "location"
      else if negb (Text.mem "what_happened" questions_asked)
              && (List.length (Text.split message) <? 5)%nat
      then question "what_happened"
      else if String.eqb emergency_type "medical"
              && negb (Text.mem "age" questions_asked)
              && negb (Text.any_in ["old"; "age"; "year"] message_lower)
      then question "age"
      else if Text.contains "pain" message_lower
              && negb (Text.mem "pain_level" questions_asked)
      then question "pain_level"
      else ""
  end.

Definition _generate_triage_response (message urgency_level emergency_type : string)
    (ctx : context) : string :=
  let questions_asked := ctx_questions_asked ctx in
  let protocol_message := lookup_or "" protocol_responses urgency_level in
  let next_question :=
    _get_next_critical_question urgency_level emergency_type questions_asked message in
  if negb (String.eqb next_question "") then
    if negb (String.eqb protocol_message "")
    then protocol_message +:+ " " +:+ next_question
    else next_question
  else protocol_message +:+ " I have enough information to dispatch appropriate help.".

Definition _is_triage_complete (ctx : context) : bool :=
  let questions_asked := ctx_questions_asked ctx in
  let urgency_level := ctx_urgency_level ctx in
  let required_questions := ["location"; "what_happened"] in
  let required_questions :=
    if is_str urgency_level "critical"
    then required_questions ++ ["consciousness"; "breathing"]
    else required_questions in
  forallb (fun q => Text.mem q questions_asked) required_questions.

Definition _calculate_confidence (ctx : context) : Q :=
  let questions_asked := List.length (ctx_questions_asked ctx) in
  let urgency_level := ctx_urgency_level ctx in
  let base_confidence := 0.3%Q in
  let question_bonus := Qmin (inject_Z (Z.of_nat questions_asked) * 0.15) 0.6 in
  let urgency_bonus := (if negb (is_str urgency_level "unknown") then 0.2 else 0.0)%Q in
  Qmin (base_confidence + question_bonus + urgency_bonus) 1.0.

Definition fallback (e : exn) (created : string) : dict :=
  to_dict "I need to gather some important information. Are you or someone else injured?"
    "triage" 0.5 (VStr "unknown") [("error", VStr (exn_str e))] created.

Definition process_message (ev : call_env) (message : string) (ctx : context) : res dict :=
  match escapes ev with
  | Some e => Raise e
  | None =>
      match fails_inside ev with
      | Some e => Ok (fallback e (created ev))
      | None =>
          let '(urgency_level, emergency_type) := _assess_urgency message in
          let critical_keywords := _extract_critical_keywords message in
          let response_message :=
            _generate_triage_response message urgency_level emergency_type ctx in
          let confidence := _calculate_confidence ctx in
          Ok (to_dict response_message "triage" confidence (VStr urgency_level)
                [("emergency_type", VStr emergency_type);
                 ("critical_keywords", VList (map VStr critical_keywords));
                 ("triage_complete", VBool (_is_triage_complete ctx));
                 ("response_time", VFloat (response_time ev));
                 ("questions_asked", VList (map VStr (ctx_questions_asked ctx)))]
                (created ev))
      end
  end.

Definition should_activate (ctx : context) : bool :=
  if negb (_is_triage_complete ctx) then true
  else if is_str (ctx_urgency_level ctx) "unknown" then true
  else false.

End TriageAgent.

(** ** Guidance agent ([agents/guidance_agent.py]) *)

Module GuidanceAgent.

Definition guidance_protocols : list (string * string) :=
  [("unconscious_not_breathing", "Place the person on their back on a firm surface. Place the heel of one hand on the center of their chest, and your other hand on top of the first. Keep your elbows straight and position your shoulders directly above your hands. Use your body weight to help you administer compressions at least 2 inches deep and delivered at a rate of at least 100 compressions per minute.");
   ("choking", "Stand behind the person and slightly to one side. Support their chest with one hand. Give up to five sharp blows between the person’s shoulder blades with the heel of your hand.");
   ("bleeding", "If bleeding won’t stop after 10 minutes of firm and steady pressure: apply more bandages and dressing without lifting the first one. Keep applying pressure until help arrives.");
   ("chest_pain", "Have the person sit down and rest. If they have prescribed nitroglycerin, help them take it. Loosen any tight clothing. Stay with them until help arrives.");
   ("stroke", "Note the time symptoms started. Have the person lie down with head and shoulders slightly raised. Do not give food or water. Monitor breathing.");
   ("seizure", "Do not restrain the person. Clear the area of hard objects. Place something soft under their head. Time the seizure. Do not put anything in their mouth.");
   ("burn", "Cool the burn with cool (not cold) running water for 10-20 minutes. Remove any jewelry or tight items before swelling begins. Cover with a clean, dry cloth.");
   ("fracture", "Do not move the injured area. Immobilize the area above and below the fracture. Apply ice wrapped in a cloth to reduce swelling.");
   ("allergic_reaction", "If the person has an epinephrine auto-injector (EpiPen), help them use it. Have them lie down with legs elevated. Monitor breathing closely.")].

Definition keyword_mapping : list (string * string) :=
  [("unconscious", "unconscious_not_breathing");
   ("not breathing", "unconscious_not_breathing");
   ("choking", "choking");
   ("bleeding", "bleeding");
   ("severe bleeding", "bleeding");
   ("chest pain", "chest_pain");
   ("heart attack", "chest_pain");
   ("stroke", "stroke");
   ("seizure", "seizure");
   ("burn", "burn");
   ("broken bone", "fracture");
   ("allergic reaction", "allergic_reaction")].

(** [table.get(k)] *)
Fixpoint table_get (table : list (string * string)) (k : string) : option string :=
  match table with
  | [] => None
  | (k', v) :: r => if String.eqb k k' then Some v else table_get r k
  end.

(** The loop over [critical_keywords]: the first keyword with a protocol;
    [keyword.lower()] needs a string. *)
Fixpoint first_mapped (critical_keywords : list value) : res (option string) :=
  match critical_keywords with
  | [] => Ok None
  | VStr keyword :: r =>
      match table_get keyword_mapping (Text.lower keyword) with
      | Some protocol => Ok (Some protocol)
      | None => first_mapped r
      end
  | _ :: _ => Raise (AttributeError "object has no attribute 'lower'")
  end.

Definition _determine_guidance_needed (ctx : context) : res string :=
  let urgency_level := ctx_urgency_level ctx in
  let emergency_type := ctx_emergency_type ctx in
  let critical_keywords := ctx_critical_keywords ctx in
  res_bind (first_mapped critical_keywords) (fun found =>
  match found with
  | Some protocol => Ok protocol
  | None =>
      if is_str urgency_level "critical" && is_str emergency_type "medical"
      then Ok "unconscious_not_breathing"
      else Ok "unknown"
  end).

Definition _generate_guidance_response (guidance_needed : string) (ctx : context) : string :=
  let urgency_level := ctx_urgency_level ctx in
  match table_get guidance_protocols guidance_needed with
  | Some protocol_text =>
      "Here's what you need to do right now: " +:+ protocol_text
        +:+ " Continue until emergency responders arrive."
  | None =>
      if is_str urgency_level "critical" then
        "Keep the person as comfortable as possible. Monitor their breathing and consciousness. Do not move them unless they are in immediate danger. Emergency responders are on their way."
      else if is_str urgency_level "high" then
        "Try to keep the person calm and comfortable. Apply basic first aid if you know how. Help is coming soon."
      else
        "Stay with the person and keep them comfortable until help arrives. Monitor their condition and be ready to provide updates to emergency responders."
  end.

Definition fallback (e : exn) (created : string) : dict :=
  to_dict "Let me provide some guidance until help arrives. Ensure that everyone stays safe."
    "guidance" 0.5 (VStr "unknown") [("error", VStr (exn_str e))] created.

Definition process_message (ev : call_env) (message : string) (ctx : context) : res dict :=
  match escapes ev with
  | Some e => Raise e
  | None =>
      match fails_inside ev with
      | Some e => Ok (fallback e (created ev))
      | None =>
          match _determine_guidance_needed ctx with
          | Raise e => Ok (fallback e (created ev))
          | Ok guidance_needed =>
              let response_message := _generate_guidance_response guidance_needed ctx in
              Ok (to_dict response_message "guidance" 0.95 (ctx_urgency_level ctx)
                    [("guidance_needed", VStr guidance_needed);
                     ("guidance_provided",
                      VBool (Text.contains guidance_needed response_message));
                     ("response_time", VFloat (response_time ev))]
                    (created ev))
          end
      end
  end.

Definition guidance_keywords : list string :=
  ["bleeding"; "choking"; "unconscious"; "chest pain"; "seizure"].

Definition should_activate (ctx : context) : bool :=
  let urgency_level := ctx_urgency_level ctx in
  let critical_keywords := ctx_critical_keywords ctx in
  if is_str urgency_level "critical" || is_str urgency_level "high" then true
  else
    existsb (fun keyword => existsb (fun v => is_str v keyword) critical_keywords)
      guidance_keywords.

End GuidanceAgent.

(** ** Dispatch agent ([agents/dispatch_agent.py]) *)

Module DispatchAgent.

Definition service_mapping : list (string * string) :=
  [("medical", "EMS");
   ("fire", "Fire Department");
   ("police", "Police");
   ("safety", "Police");
   ("unknown", "EMS")].

Definition priority_mapping : list (string * string) :=
  [("critical", "Priority 1");
   ("high", "Priority 2");
   ("medium", "Priority 3");
   ("low", "Priority 4");
   ("unknown", "Priority 3")].

Record env : Type := {
  call : call_env;
  today : string;             (* [datetime.now().strftime('%Y%m%d')] *)
  id_hash : Z;                (* [hash(emergency_id)] *)
  mock_fails : option exn     (* an exception under the [try] of [_mock_dispatch] *)
}.

Definition _ready_to_dispatch (ctx : context) : bool :=
  let has_basic_info :=
    negb (is_str (ctx_urgency_level ctx) "unknown")
    && negb (is_str (ctx_emergency_type ctx) "unknown") in
  let has_location :=
    truthy (ctx_address ctx)
    || (truthy (ctx_latitude ctx) && truthy (ctx_longitude ctx))
    || Text.mem "location" (ctx_questions_asked ctx) in
  let triage_complete := ctx_triage_complete ctx in
  has_basic_info && has_location && triage_complete.

(** The part of [dispatch_data] that [_mock_dispatch] reads back. *)
Record dispatch_data : Type := {
  emergency_id : string;
  dd_emergency_type : value;
  dd_urgency_level : value;
  priority : string;
  service_needed : string;
  dd_address : value;
  description : string
}.

(** [dict.get] hashes its key. *)
Definition mapping_get (table : list (string * string)) (k : value) (default : string)
  : res string :=
  if hashable k then Ok (lookup_value_or default table k)
  else Raise (TypeError "unhashable type").

Definition _prepare_dispatch_data (ctx : context) : res dispatch_data :=
  let urgency_level := ctx_urgency_level ctx in
  let emergency_type := ctx_emergency_type ctx in
  res_bind (mapping_get priority_mapping urgency_level "Priority 3") (fun prio =>
  res_bind (mapping_get service_mapping emergency_type "EMS") (fun service =>
  Ok {| emergency_id := ctx_session_id ctx;
        dd_emergency_type := emergency_type;
        dd_urgency_level := urgency_level;
        priority := prio;
        service_needed := service;
        dd_address := ctx_address ctx;
        description := "" |})).

Inductive dispatch_result : Type :=
| Dispatched (service prio reference_id : string)    (* "success": True *)
| NotDispatched (reason : string).                   (* "success": False *)

(** [f"{n:04d}"] for a number [0 <= n]. *)
Definition pad4 (n : Z) : string :=
  (if (n <? 10)%Z then "000" else if (n <? 100)%Z then "00"
   else if (n <? 1000)%Z then "0" else "") +:+ pretty n.

Definition _mock_dispatch (ev : env) (data : dispatch_data) : dispatch_result :=
  match mock_fails ev with
  | Some e => NotDispatched ("Mock dispatch error: " +:+ exn_str e)
  | None =>
      let service_type := service_needed data in
      let reference_id :=
        "EMG-" +:+ today ev +:+ "-" +:+ pad4 (id_hash ev mod 10000)%Z in
      Dispatched service_type (priority data) reference_id
  end.

Definition _send_to_dispatch (cfg : config) (ev : env) (data : dispatch_data)
  : dispatch_result :=
  if real_dispatch_enabled cfg
  then NotDispatched "Real dispatch not configured"
  else _mock_dispatch ev data.

Definition fallback (e : exn) (created : string) : dict :=
  to_dict "Unable to automatically dispatch. Please call 911 directly."
    "dispatch" 0.1 (VStr "unknown") [("error", VStr (exn_str e))] created.

Definition process_message (cfg : config) (ev : env) (message : string) (ctx : context)
  : res dict :=
  match escapes (call ev) with
  | Some e => Raise e
  | None =>
      match fails_inside (call ev) with
      | Some e => Ok (fallback e (created (call ev)))
      | None =>
          if negb (_ready_to_dispatch ctx) then
            Ok (to_dict
                  "Still gathering information before dispatch. Please continue providing details."
                  "dispatch" 0.3 (ctx_urgency_level ctx)
                  [("dispatch_attempted", VBool false);
                   ("reason", VStr "Insufficient information")]
                  (created (call ev)))
          else
            match _prepare_dispatch_data ctx with
            | Raise e => Ok (fallback e (created (call ev)))
            | Ok data =>
                match _send_to_dispatch cfg ev data with
                | Dispatched service _ reference_id =>
                    Ok (to_dict
                          ("Emergency services have been notified. " +:+ service
                             +:+ " is being dispatched to your location. Reference number: "
                             +:+ reference_id)
                          "dispatch" 0.95 (ctx_urgency_level ctx)
                          [("dispatch_attempted", VBool true);
                           ("dispatch_successful", VBool true);
                           ("reference_id", VStr reference_id);
                           ("service_type", VStr service);
                           ("response_time", VFloat (response_time (call ev)))]
                          (created (call ev)))
                | NotDispatched _ =>
                    Ok (to_dict
                          "There was an issue contacting emergency services. Please call 911 directly if possible."
                          "dispatch" 0.2 (ctx_urgency_level ctx)
                          [("dispatch_attempted", VBool true);
                           ("dispatch_successful", VBool false);
                           ("reference_id", VNone);
                           ("service_type", VNone);
                           ("response_time", VFloat (response_time (call ev)))]
                          (created (call ev)))
                end
            end
      end
  end.

Definition should_activate (ctx : context) : bool :=
  if _ready_to_dispatch ctx then true
  else if is_str (ctx_urgency_level ctx) "critical" then true
  else false.

End DispatchAgent.

(** ** Orchestrator ([agents/orchestrator.py]) *)

(** Computations over the session dictionary: a result or an exception,
    and the session as the computation left it. *)
Definition M (A : Type) : Type := session -> res A * session.

Definition ret {A} (a : A) : M A := fun s => (Ok a, s).

Definition bind {A B} (m : M A) (f : A -> M B) : M B :=
  fun s =>
    match m s with
    | (Ok a, s') => f a s'
    | (Raise e, s') => (Raise e, s')
    end.

Definition lift {A} (r : res A) : M A := fun s => (r, s).

Definition gets {A} (f : session -> A) : M A := fun s => (Ok (f s), s).

Definition modify (f : session -> session) : M unit := fun s => (Ok tt, f s).

Declare Scope orch_scope.
Delimit Scope orch_scope with orch.
Notation "x <- m ;; k" := (bind m (fun x => k))
  (at level 100, m at next level, right associativity) : orch_scope.
Notation "m ;;; k" := (bind m (fun _ => k))
  (at level 100, right associativity) : orch_scope.

(** What the world outside the model contributes to one [process_message]. *)
Record turn_env : Type := {
  utcnow : string;                  (* timestamp of the turn record *)
  processing_time : Q;              (* difference of the two loop-clock readings *)
  empathy_env : EmpathyAgent.env;
  triage_env : call_env;
  guidance_env : call_env;
  dispatch_env : DispatchAgent.env
}.

Definition crisis_response (triggered : list string) : dict :=
  [("message", VStr "I'm very concerned about what you've shared. Please call the National Suicide Prevention Lifeline at 988 or stay on the line while I connect you to emergency services immediately.");
   ("agent_type", VStr "safety");
   ("confidence", VFloat 1.0);
   ("urgency_level", VStr "critical");
   ("metadata", VDict [("blocked", VBool true);
                       ("safety_trigger", VBool true);
                       ("trigger_keywords", VList (map VStr triggered))])].

Definition loop_breaker_response : dict :=
  [("message", VStr "We've been talking for a while. Let me connect you directly with emergency services to ensure you get immediate help.");
   ("agent_type", VStr "safety");
   ("confidence", VFloat 1.0);
   ("urgency_level", VStr "high");
   ("metadata", VDict [("blocked", VBool true);
                       ("loop_breaker", VBool true)])].

(** The list the source calls [safety_triggers] (a local, not the session
    key of that name). *)
Definition triggered_keywords (cfg : config) (message : string) : list string :=
  let message_lower := Text.lower message in
  List.filter (fun keyword => Text.contains (Text.lower keyword) message_lower)
    (safety_keywords cfg).

Definition _perform_safety_checks (cfg : config) (message : string) : M dict :=
  (let triggered := triggered_keywords cfg message in
   early <-
     (if TriageAgent.nonempty triggered then
        modify (fun s => set_safety_triggers (safety_triggers s + 1) s) ;;;
        if Text.mem "suicide" triggered || Text.mem "self-harm" triggered
        then ret (Some (crisis_response triggered))
        else ret None
      else ret None) ;;
   match early with
   | Some outcome => ret outcome
   | None =>
       n <- gets turn_number ;;
       if (max_conversation_turns cfg <=? n)%nat then
         modify (set_loop_breaker_active true) ;;;
         ret loop_breaker_response
       else ret [("blocked", VBool false)]
   end)%orch.

(** The agents [_determine_active_agents] selects, default rule included. *)
Definition select_agents (s : session) (message : string) : list string :=
  let ctx := _build_context s message in
  let active_agents :=
    (if EmpathyAgent.should_activate ctx then ["empathy"] else [])
    ++ (if TriageAgent.should_activate ctx then ["triage"] else [])
    ++ (if GuidanceAgent.should_activate ctx then ["guidance"] else [])
    ++ (if DispatchAgent.should_activate ctx then ["dispatch"] else []) in
  match active_agents with
  | [] => if Nat.eqb (turn_number s) 1 then ["empathy"; "triage"] else ["triage"]
  | _ => active_agents
  end.

Definition _determine_active_agents (message : string) : M (list string) :=
  (active_agents <- gets (fun s => select_agents s message) ;;
   modify (fun s => set_agent_activations
                      (agent_activations s ++ [(turn_number s, active_agents)]) s) ;;;
   ret active_agents)%orch.

(** The dictionary put in the slot of an agent whose call raised. *)
Definition error_response (agent_name : string) (e : exn) : dict :=
  [("message", VStr ("Error in " +:+ agent_name +:+ " processing"));
   ("agent_type", VStr agent_name);
   ("confidence", VFloat 0.1);
   ("metadata", VDict [("error", VStr (exn_str e))])].

(** One round of the loop over [tasks]: await the task, store its response
    or the error dictionary. *)
Definition run_task (agent_responses : dict) (named_task : string * res dict) : dict :=
  let '(agent_name, task) := named_task in
  match task with
  | Ok response => dict_set agent_name (VDict response) agent_responses
  | Raise e => dict_set agent_name (VDict (error_response agent_name e)) agent_responses
  end.

Definition agent_tasks (cfg : config) (ev : turn_env) (message : string) (ctx : context)
    (active_agents : list string) : list (string * res dict) :=
  (if Text.mem "empathy" active_agents
   then [("empathy", EmpathyAgent.process_message (empathy_env ev) message ctx)] else [])
  ++ (if Text.mem "triage" active_agents
      then [("triage", TriageAgent.process_message (triage_env ev) message ctx)] else [])
  ++ (if Text.mem "guidance" active_agents
      then [("guidance", GuidanceAgent.process_message (guidance_env ev) message ctx)] else [])
  ++ (if Text.mem "dispatch" active_agents
      then [("dispatch", DispatchAgent.process_message cfg (dispatch_env ev) message ctx)]
      else []).

Definition _process_through_agents (cfg : config) (ev : turn_env) (message : string)
    (s : session) (active_agents : list string) : dict :=
  let ctx := _build_context s message in
  fold_left run_task (agent_tasks cfg ev message ctx active_agents) [].

Definition priority_order : list string := ["dispatch"; "guidance"; "triage"; "empathy"].

Definition generic_prompt : dict :=
  [("message", VStr "I'm here to help. Can you tell me about the emergency?");
   ("agent_type", VStr "system");
   ("confidence", VFloat 0.5);
   ("urgency_level", VStr "unknown")].

(** The agent whose response becomes the reply. *)
Definition primary_of (agent_responses : dict) (first_key : string) : string :=
  match find (fun agent_type => dict_has agent_type agent_responses) priority_order with
  | Some agent_type => agent_type
  | None => first_key
  end.

(** [response.get("metadata", {})] *)
Definition metadata_of (response : dict) : value :=
  match dict_get "metadata" response with Some v => v | None => VDict [] end.

(** One round of the loop that fills [combined_metadata]. *)
Definition add_metadata (acc : res dict) (item : string * value) : res dict :=
  let '(agent_type, response) := item in
  res_bind acc (fun combined =>
  res_bind (receiver response) (fun response =>
  Ok (dict_set (agent_type +:+ "_metadata") (metadata_of response) combined))).

Definition combined_metadata (agent_responses : dict) : res dict :=
  fold_left add_metadata agent_responses (Ok []).

(** [_combine_agent_responses] on a mapping that is not empty, whose first
    key is [first_key].  The primary response is changed in place, so the
    function also returns [agent_responses] with that entry changed:
    [_update_session_state] reads it afterwards.  In Python the entry of the
    primary agent inside ["all_agents"] is the very metadata dictionary that
    receives ["all_agents"]; the model stores it as it is before that
    assignment. *)
Definition combine_nonempty (agent_responses : dict) (first_key : string)
  : res (dict * dict) :=
  let primary_agent := primary_of agent_responses first_key in
  res_bind (subscript agent_responses primary_agent) (fun primary_value =>
  res_bind
    (if negb (String.eqb primary_agent "empathy") && dict_has "empathy" agent_responses
     then
       res_bind (subscript agent_responses "empathy") (fun empathy_value =>
       res_bind (container empathy_value) (fun empathy_response =>
       res_bind (subscript empathy_response "message") (fun em =>
       res_bind (format_value em) (fun empathy_text =>
       res_bind (container primary_value) (fun primary_response =>
       res_bind (subscript primary_response "message") (fun pm =>
       res_bind (format_value pm) (fun primary_text =>
       Ok (VDict (dict_set "message" (VStr (empathy_text +:+ " " +:+ primary_text))
                    primary_response)))))))))
     else Ok primary_value) (fun primary_value =>
  let agent_responses := dict_set primary_agent primary_value agent_responses in
  res_bind (combined_metadata agent_responses) (fun all_agents =>
  res_bind (container primary_value) (fun primary_response =>
  res_bind (subscript primary_response "metadata") (fun metadata_value =>
  res_bind (container metadata_value) (fun metadata =>
  let primary_response :=
    dict_set "metadata" (VDict (dict_set "all_agents" (VDict all_agents) metadata))
      primary_response in
  Ok (primary_response,
      dict_set primary_agent (VDict primary_response) agent_responses))))))).

Definition _combine_agent_responses (agent_responses : dict) : res (dict * dict) :=
  match agent_responses with
  | [] => Ok (generic_prompt, agent_responses)
  | (first_key, _) :: _ => combine_nonempty agent_responses first_key
  end.

(** What [list.extend] appends for an argument: the elements of a list, the
    characters of a string, the keys of a dict; other values do not iterate. *)
Definition iterate (v : value) : res (list value) :=
  match v with
  | VList l => Ok l
  | VStr s => Ok (map VStr (Text.chars s))
  | VDict d => Ok (map (fun kv => VStr (fst kv)) d)
  | _ => Raise (TypeError "object is not iterable")
  end.

(** [x != "unknown"] where [x] is [d.get(k)]; a missing key reads [None]. *)
Definition differs_from (x : option value) (s : string) : bool :=
  match x with
  | Some v => negb (is_str v s)
  | None => true
  end.

Definition update_from_triage (agent_responses : dict) : M unit :=
  (triage_value <- lift (subscript agent_responses "triage") ;;
   triage_response <- lift (receiver triage_value) ;;
   let metadata_value := metadata_of triage_response in
   (if differs_from (dict_get "urgency_level" triage_response) "unknown" then
      v <- lift (subscript triage_response "urgency_level") ;;
      modify (set_urgency_level v)
    else ret tt) ;;;
   metadata <- lift (receiver metadata_value) ;;
   (if get_truthy "emergency_type" metadata then
      v <- lift (subscript metadata "emergency_type") ;;
      modify (set_emergency_type v)
    else ret tt) ;;;
   (if get_truthy "critical_keywords" metadata then
      v <- lift (subscript metadata "critical_keywords") ;;
      more <- lift (iterate v) ;;
      modify (fun s => set_critical_keywords (critical_keywords s ++ more) s) ;;;
      all_keywords <- gets critical_keywords ;;
      if forallb hashable all_keywords
      then modify (set_critical_keywords (dedup_values all_keywords))
      else lift (Raise (TypeError "unhashable type"))
    else ret tt) ;;;
   if get_truthy "triage_complete" metadata
   then modify (set_triage_complete true)
   else ret tt)%orch.

Definition update_from_dispatch (agent_responses : dict) : M unit :=
  (dispatch_value <- lift (subscript agent_responses "dispatch") ;;
   dispatch_response <- lift (receiver dispatch_value) ;;
   metadata <- lift (receiver (metadata_of dispatch_response)) ;;
   (if get_truthy "dispatch_attempted" metadata
    then modify (set_dispatch_attempted true) else ret tt) ;;;
   if get_truthy "dispatch_successful" metadata
   then modify (set_dispatch_successful true) else ret tt)%orch.

Definition update_from_empathy (agent_responses : dict) : M unit :=
  (empathy_value <- lift (subscript agent_responses "empathy") ;;
   empathy_response <- lift (receiver empathy_value) ;;
   empathy_metadata <- lift (receiver (metadata_of empathy_response)) ;;
   if get_truthy "empathy_score" empathy_metadata then
     v <- lift (subscript empathy_metadata "empathy_score") ;;
     modify (set_empathy_score v)
   else ret tt)%orch.

Definition _update_session_state (agent_responses : dict) : M unit :=
  ((if dict_has "triage" agent_responses
    then update_from_triage agent_responses else ret tt) ;;;
   (if dict_has "dispatch" agent_responses
    then update_from_dispatch agent_responses else ret tt) ;;;
   if dict_has "empathy" agent_responses
   then update_from_empathy agent_responses else ret tt)%orch.

(** [history[-1][key] = x] through [f]; an empty history has no last entry. *)
Definition update_last (f : turn_record -> turn_record) : M unit :=
  fun s =>
    match rev (conversation_history s) with
    | [] => (Raise (OtherException "list index out of range"), s)
    | last :: before =>
        (Ok tt, set_conversation_history (rev before ++ [f last]) s)
    end.

Definition set_agent_response (x : value) (r : turn_record) : turn_record :=
  {| turn := turn r; user_message := user_message r; timestamp := timestamp r;
     agent_response := Some x; agent_type := agent_type r |}.

Definition set_agent_type (x : value) (r : turn_record) : turn_record :=
  {| turn := turn r; user_message := user_message r; timestamp := timestamp r;
     agent_response := agent_response r; agent_type := Some x |}.

(** The turn record [process_message] appends. *)
Definition new_turn_record (s : session) (ev : turn_env) (user_message : string)
  : turn_record :=
  {| turn := turn_number s;
     user_message := user_message;
     timestamp := utcnow ev;
     agent_response := None;
     agent_type := None |}.

(** [process_message] after the safety check let the message through. *)
Definition run_turn (cfg : config) (ev : turn_env) (user_message : string) : M dict :=
  (modify (fun s => set_turn_number (turn_number s + 1) s) ;;;
   modify (fun s => set_conversation_history
                      (conversation_history s ++ [new_turn_record s ev user_message]) s) ;;;
   active_agents <- _determine_active_agents user_message ;;
   s <- gets id ;;
   let agent_responses := _process_through_agents cfg ev user_message s active_agents in
   merged <- lift (_combine_agent_responses agent_responses) ;;
   let '(final_response, agent_responses) := merged in
   m <- lift (subscript final_response "message") ;;
   update_last (set_agent_response m) ;;;
   t <- lift (subscript final_response "agent_type") ;;
   update_last (set_agent_type t) ;;;
   modify (fun s => set_response_times (response_times s ++ [processing_time ev]) s) ;;;
   _update_session_state agent_responses ;;;
   ret final_response)%orch.

(** The body of the [try] in [process_message]. *)
Definition process_message_body (cfg : config) (ev : turn_env) (user_message : string)
  : M dict :=
  (safety_check <- _perform_safety_checks cfg user_message ;;
   blocked <- lift (subscript safety_check "blocked") ;;
   if truthy blocked then ret safety_check
   else run_turn cfg ev user_message)%orch.

(** The reply of the [except] clause of [process_message]. *)
Definition technical_difficulties (e : exn) : dict :=
  [("message", VStr "I'm experiencing technical difficulties. Please call 911 directly if this is an emergency.");
   ("agent_type", VStr "system");
   ("confidence", VFloat 0.1);
   ("urgency_level", VStr "unknown");
   ("metadata", VDict [("error", VStr (exn_str e))])].

(** The orchestrator's own state is [active_sessions]. *)
Abbreviation sessions := (gmap string session).

Definition not_found (sid : string) : exn :=
  ValueError ("Session " +:+ sid +:+ " not found").

Definition start_session (sid : string) (now : Q) (caller_info : option dict)
    (active_sessions : sessions) : string * sessions :=
  (sid, <[sid := new_session sid now caller_info]> active_sessions).

(** [process_message]: the session dictionary is changed in place, so
    whatever the body did to it before returning or raising stays in the
    store. *)
Definition process_message (cfg : config) (ev : turn_env) (sid : string)
    (user_message : string) (active_sessions : sessions) : res dict * sessions :=
  match active_sessions !! sid with
  | None => (Raise (not_found sid), active_sessions)
  | Some s =>
      match process_message_body cfg ev user_message s with
      | (Ok response, s') => (Ok response, <[sid := s']> active_sessions)
      | (Raise e, s') => (Ok (technical_difficulties e), <[sid := s']> active_sessions)
      end
  end.

Record status : Type := {
  st_session_id : string;
  st_start_time : Q;
  st_duration : Q;
  st_turn_number : nat;
  st_urgency_level : value;
  st_emergency_type : value;
  st_triage_complete : bool;
  st_dispatch_attempted : bool;
  st_dispatch_successful : bool;
  st_empathy_score : value;
  st_avg_response_time : Q;
  st_total_duration : option Q;    (* added by [end_session] *)
  st_total_turns : option nat      (* added by [end_session] *)
}.

Definition Qsum (l : list Q) : Q := fold_left Qplus l 0%Q.

Definition status_of (sid : string) (now : Q) (s : session) : status :=
  {| st_session_id := sid;
     st_start_time := start_time s;
     st_duration := (now - start_time s)%Q;
     st_turn_number := turn_number s;
     st_urgency_level := urgency_level s;
     st_emergency_type := emergency_type s;
     st_triage_complete := triage_complete s;
     st_dispatch_attempted := dispatch_attempted s;
     st_dispatch_successful := dispatch_successful s;
     st_empathy_score := empathy_score s;
     st_avg_response_time :=
       match response_times s with
       | [] => 0%Q
       | _ => (Qsum (response_times s)
                / inject_Z (Z.of_nat (List.length (response_times s))))%Q
       end;
     st_total_duration := None;
     st_total_turns := None |}.

Definition get_session_status (sid : string) (now : Q) (active_sessions : sessions)
  : res status :=
  match active_sessions !! sid with
  | None => Raise (not_found sid)
  | Some s => Ok (status_of sid now s)
  end.

(** [ended] is the clock reading stored as [end_time], [now] the later one
    [get_session_status] takes. *)
Definition end_session (sid : string) (ended now : Q) (active_sessions : sessions)
  : res status * sessions :=
  match active_sessions !! sid with
  | None => (Raise (not_found sid), active_sessions)
  | Some s =>
      let s := set_end_time (Some ended) s in
      let summary := status_of sid now s in
      let summary :=
        {| st_session_id := st_session_id summary;
           st_start_time := st_start_time summary;
           st_duration := st_duration summary;
           st_turn_number := st_turn_number summary;
           st_urgency_level := st_urgency_level summary;
           st_emergency_type := st_emergency_type summary;
           st_triage_complete := st_triage_complete summary;
           st_dispatch_attempted := st_dispatch_attempted summary;
           st_dispatch_successful := st_dispatch_successful summary;
           st_empathy_score := st_empathy_score summary;
           st_avg_response_time := st_avg_response_time summary;
           st_total_duration := Some (ended - start_time s)%Q;
           st_total_turns := Some (turn_number s) |} in
      (Ok summary, delete sid active_sessions)
  end.

(** ** The public operations as a machine over [active_sessions] *)

Inductive operation : Type :=
| StartSession (sid : string) (now : Q) (caller_info : option dict)
| ProcessTurn (ev : turn_env) (sid : string) (user_message : string)
| GetStatus (sid : string) (now : Q)
| EndSession (sid : string) (ended now : Q).

Definition step (cfg : config) (active_sessions : sessions) (o : operation) : sessions :=
  match o with
  | StartSession sid now caller_info => snd (start_session sid now caller_info active_sessions)
  | ProcessTurn ev sid user_message => snd (process_message cfg ev sid user_message active_sessions)
  | GetStatus _ _ => active_sessions
  | EndSession sid ended now => snd (end_session sid ended now active_sessions)
  end.

(** The store after a sequence of calls on a fresh orchestrator. *)
Definition run (cfg : config) (ops : list operation) : sessions :=
  fold_left (step cfg) ops ∅.

(** ** Notions used in the statements *)

(** The session after the keyword part of the safety check. *)
Definition count_trigger (cfg : config) (message : string) (s : session) : session :=
  if TriageAgent.nonempty (triggered_keywords cfg message)
  then set_safety_triggers (safety_triggers s + 1) s
  else s.

(** The message names a self-harm keyword of the configuration. *)
Definition is_crisis (cfg : config) (message : string) : bool :=
  Text.mem "suicide" (triggered_keywords cfg message)
  || Text.mem "self-harm" (triggered_keywords cfg message).

(** An uneventful environment: no agent fails, neutral sentiment. *)
Definition quiet_call : call_env :=
  {| escapes := None; fails_inside := None; response_time := 0%Q; created := "" |}.

Definition quiet_env : turn_env :=
  {| utcnow := "";
     processing_time := 0%Q;
     empathy_env :=
       {| EmpathyAgent.call := quiet_call;
          EmpathyAgent.scores :=
            {| EmpathyAgent.p_neg := 0%Q; EmpathyAgent.p_neu := 1%Q;
               EmpathyAgent.p_pos := 0%Q; EmpathyAgent.p_compound := 0%Q |};
          EmpathyAgent.pick := 0 |};
     triage_env := quiet_call;
     guidance_env := quiet_call;
     dispatch_env :=
       {| DispatchAgent.call := quiet_call;
          DispatchAgent.today := "20240101";
          DispatchAgent.id_hash := 0%Z;
          DispatchAgent.mock_fails := None |} |}.

(** The same environment, except that the triage agent's call raises. *)
Definition triage_raises (e : exn) : turn_env :=
  {| utcnow := utcnow quiet_env;
     processing_time := processing_time quiet_env;
     empathy_env := empathy_env quiet_env;
     triage_env :=
       {| escapes := Some e; fails_inside := None; response_time := 0%Q; created := "" |};
     guidance_env := guidance_env quiet_env;
     dispatch_env := dispatch_env quiet_env |}.

(** [turns n message s]: the session after [n] calls of the [try] body of
    [process_message] with the same message, in the quiet environment. *)
Fixpoint turns (cfg : config) (n : nat) (message : string) (s : session) : session :=
  match n with
  | O => s
  | S n' => turns cfg n' message (snd (process_message_body cfg quiet_env message s))
  end.

(** The dictionary left in an agent's slot by the loop over the tasks. *)
Definition slot (agent_name : string) (task : res dict) : value :=
  VDict (match task with
         | Ok response => response
         | Raise e => error_response agent_name e
         end).

(** A slot [_combine_agent_responses] and [process_message] can read: a
    dictionary with a text message, an agent type and a metadata dictionary. *)
Definition wf_slot (v : value) : Prop :=
  exists d m t md,
    v = VDict d
    /\ dict_get "message" d = Some (VStr m)
    /\ dict_get "agent_type" d = Some t
    /\ dict_get "metadata" d = Some (VDict md).

(** The text of the message of a slot. *)
Definition message_of (v : value) : string :=
  match v with
  | VDict d => match dict_get "message" d with Some (VStr m) => m | _ => "" end
  | _ => ""
  end.

(** The session when [_update_session_state] starts: turn counted and
    recorded, selection logged, reply and processing time recorded. *)
Definition before_update (ev : turn_env) (user_message : string) (m t : value)
    (s : session) : session :=
  let s1 := set_turn_number (turn_number s + 1) s in
  let record := new_turn_record s1 ev user_message in
  let s2 := set_conversation_history (conversation_history s ++ [record]) s1 in
  let s3 := set_agent_activations
              (agent_activations s ++ [(turn_number s2, select_agents s2 user_message)]) s2 in
  set_response_times (response_times s ++ [processing_time ev])
    (set_conversation_history
       (conversation_history s ++ [set_agent_type t (set_agent_response m record)]) s3).

(** The session the agents of a turn see. *)
Definition turn_opened (ev : turn_env) (user_message : string) (s : session) : session :=
  let s1 := set_turn_number (turn_number s + 1) s in
  set_conversation_history
    (conversation_history s ++ [new_turn_record s1 ev user_message]) s1.

(** The responses of the agents selected for a turn started in [s]. *)
Definition turn_responses (cfg : config) (ev : turn_env) (user_message : string)
    (s : session) : dict :=
  let s2 := turn_opened ev user_message s in
  _process_through_agents cfg ev user_message s2 (select_agents s2 user_message).

(** The agent [_combine_agent_responses] makes primary. *)
Definition primary_agent (agent_responses : dict) : string :=
  match agent_responses with
  | [] => ""
  | (first_key, _) :: _ => primary_of agent_responses first_key
  end.

(** The message text in the slot of an agent. *)
Definition slot_message (agent_responses : dict) (agent_name : string) : string :=
  match dict_get agent_name agent_responses with
  | Some v => message_of v
  | None => ""
  end.

(** The support-prepend rule. *)
Definition prepends (agent_responses : dict) : bool :=
  negb (String.eqb (primary_agent agent_responses) "empathy")
  && dict_has "empathy" agent_responses.

Definition merged_message (agent_responses : dict) : string :=
  if prepends agent_responses
  then slot_message agent_responses "empathy" +:+ " "
         +:+ slot_message agent_responses (primary_agent agent_responses)
  else slot_message agent_responses (primary_agent agent_responses).

(** What the merge changes in the primary slot, as far as
    [_update_session_state] is concerned: nothing it reads. *)
Definition merge_changed (pd final : dict) : Prop :=
  dict_get "urgency_level" final = dict_get "urgency_level" pd
  /\ exists md all_agents,
       dict_get "metadata" pd = Some (VDict md)
       /\ dict_get "metadata" final =
            Some (VDict (dict_set "all_agents" all_agents md)).

(** The reply the merge produces for a mapping. *)
Definition final_response (agent_responses : dict) : dict :=
  match _combine_agent_responses agent_responses with
  | Ok (final, _) => final
  | Raise _ => []
  end.

(** [d.get(k)] with [None] for a missing key. *)
Definition field (k : string) (d : dict) : value :=
  match dict_get k d with Some v => v | None => VNone end.

(** The end of [process_message]'s [try] body: the reply if the state
    update returned, its exception otherwise. *)
Definition conclude (final : dict) (updated : res unit * session) : res dict * session :=
  match updated with
  | (Ok _, s) => (Ok final, s)
  | (Raise e, s) => (Raise e, s)
  end.

(** Keywords as the triage agent produces them. *)
Definition textual (v : value) : Prop := exists k, v = VStr k.

(** How [_update_session_state] may change a session in a turn with the
    given message; [tc] and [rd] say whether the triage agent found triage
    complete and the dispatch agent found the session ready to dispatch. *)
Record updated_from (message : string) (tc rd : bool) (s s' : session) : Prop := {
  upd_id : session_id s' = session_id s;
  upd_start : start_time s' = start_time s;
  upd_end : end_time s' = end_time s;
  upd_caller :
    (caller_phone s', latitude s', longitude s', address s') =
    (caller_phone s, latitude s, longitude s, address s);
  upd_turn : turn_number s' = turn_number s;
  upd_history : conversation_history s' = conversation_history s;
  upd_questions : questions_asked s' = questions_asked s;
  upd_times : response_times s' = response_times s;
  upd_activations : agent_activations s' = agent_activations s;
  upd_safety : safety_triggers s' = safety_triggers s;
  upd_loop : loop_breaker_active s' = loop_breaker_active s;
  upd_urgency :
    urgency_level s' = urgency_level s
    \/ (urgency_level s' = VStr (fst (TriageAgent._assess_urgency message))
        /\ fst (TriageAgent._assess_urgency message) <> "unknown");
  upd_triage_complete :
    triage_complete s' = true -> triage_complete s = true \/ tc = true;
  upd_dispatch_attempted :
    dispatch_attempted s' = true -> dispatch_attempted s = true \/ rd = true;
  upd_dispatch_successful :
    dispatch_successful s' = true -> dispatch_successful s = true \/ rd = true;
  upd_flags_kept :
    (triage_complete s = true -> triage_complete s' = true)
    /\ (dispatch_attempted s = true -> dispatch_attempted s' = true)
    /\ (dispatch_successful s = true -> dispatch_successful s' = true);
  upd_keywords :
    Forall textual (critical_keywords s) -> Forall textual (critical_keywords s')
}.

(** The agents selected for a turn started in [s]. *)
Definition selected (ev : turn_env) (user_message : string) (s : session) : list string :=
  select_agents (turn_opened ev user_message s) user_message.

(** The context the agents of a turn started in [s] receive. *)
Definition turn_context (ev : turn_env) (user_message : string) (s : session) : context :=
  _build_context (turn_opened ev user_message s) user_message.

(** The triage agent is selected and its call raises. *)
Definition triage_fails (ev : turn_env) (user_message : string) (s : session) : bool :=
  Text.mem "triage" (selected ev user_message s)
  && match escapes (triage_env ev) with Some _ => true | None => false end.

(** The session never went through triage or dispatch. *)
Definition untriaged (s : session) : Prop :=
  questions_asked s = []
  /\ triage_complete s = false
  /\ dispatch_attempted s = false
  /\ dispatch_successful s = false.

(** A sequence of [process_message] calls on one session id. *)
Definition process_turns (cfg : config) (calls : list (turn_env * string)) (sid : string)
    (store : sessions) : sessions :=
  fold_left (fun st call => snd (process_message cfg (fst call) sid (snd call) st))
    calls store.

(** The session when the state update of a turn starts. *)
Definition updating (cfg : config) (ev : turn_env) (user_message : string) (s : session)
  : session :=
  let final := final_response (turn_responses cfg ev user_message s) in
  before_update ev user_message (field "message" final) (field "agent_type" final) s.

(** Urgency levels a triage assessment can put into a session. *)
Definition serious (v : value) : Prop :=
  v = VStr "critical" \/ v = VStr "high" \/ v = VStr "medium".

(** The first key of a mapping, [list(d.keys())[0]]. *)
Definition first_key (d : dict) : string :=
  match d with
  | [] => ""
  | (k, _) :: _ => k
  end.

(** The first agent of the priority order that has a response. *)
Definition by_priority (agent_responses : dict) : string :=
  if dict_has "dispatch" agent_responses then "dispatch"
  else if dict_has "guidance" agent_responses then "guidance"
  else if dict_has "triage" agent_responses then "triage"
  else if dict_has "empathy" agent_responses then "empathy"
  else first_key agent_responses.

(** An agent either lets an exception escape, exactly when the environment
    says so, or returns a dictionary made by [to_dict]. *)
Definition agent_result (name : string) (escaping : option exn) (r : res dict) : Prop :=
  match r with
  | Raise e => escaping = Some e
  | Ok d => escaping = None /\ exists m c u md ts, d = to_dict m name c u md ts
  end.

(** ** Further notions: the ledger of a session *)

(** The turn counter, the history, the activation log and the response
    times tell the same story: [n] turns, numbered from 1. *)
Definition ledger_agrees (s : session) : Prop :=
  map turn (conversation_history s) = seq 1 (turn_number s)
  /\ map fst (agent_activations s) = seq 1 (turn_number s)
  /\ List.length (response_times s) = turn_number s.

(** A turn record whose two response keys have been filled in. *)
Definition answered (r : turn_record) : Prop :=
  (exists m, agent_response r = Some m) /\ (exists t, agent_type r = Some t).

(** The replies of a sequence of [process_message] calls on one session id. *)
Fixpoint replies (cfg : config) (calls : list (turn_env * string)) (sid : string)
    (store : sessions) : list (res dict) :=
  match calls with
  | [] => []
  | call :: rest =>
      fst (process_message cfg (fst call) sid (snd call) store)
      :: replies cfg rest sid (snd (process_message cfg (fst call) sid (snd call) store))
  end.

(** The session id an operation works on. *)
Definition target (o : operation) : string :=
  match o with
  | StartSession sid _ _ => sid
  | ProcessTurn _ sid _ => sid
  | GetStatus sid _ => sid
  | EndSession sid _ _ => sid
  end.


(** A short call used as a concrete run: two messages, a status request
    in between. *)
Definition sample_ops : list operation :=
  [StartSession "s" 0 (Some [("phone", VStr "123-456-7890")]);
   ProcessTurn quiet_env "s" "Someone is unconscious and not breathing!";
   GetStatus "s" 1;
   ProcessTurn quiet_env "s" "I am scared, he took an overdose"].

(** [turn_number] stays within the configured limit. *)
Definition within_limit (cfg : config) (s : session) : Prop :=
  turn_number s <= max_conversation_turns cfg.


(** A configuration that allows one turn per session. *)
Definition one_turn_config : config :=
  {| safety_keywords := safety_keywords Config;
     max_conversation_turns := 1;
     real_dispatch_enabled := false |}.

(** ** Further notions: formats *)

(** The string consists of decimal digits. *)
Definition decimal (s : string) : bool :=
  forallb (fun c => (48 <=? N_of_ascii c)%N && (N_of_ascii c <=? 57)%N)
    (list_ascii_of_string s).

(** ** Further notions: the assessment of a session *)

(** The part of a session the triage agent's answers are taken over into. *)
Definition assessment (s : session) : value * value * list value :=
  (urgency_level s, emergency_type s, critical_keywords s).

(** The triage agent's call in a turn neither raises nor falls back. *)
Definition triage_assesses (ev : turn_env) : bool :=
  match escapes (triage_env ev), fails_inside (triage_env ev) with
  | None, None => true
  | _, _ => false
  end.

(** The assessment of [s] after the triage agent's answer to [message] has
    been taken over. *)
Definition reassessed (message : string) (s : session) : value * value * list value :=
  ((if String.eqb (fst (TriageAgent._assess_urgency message)) "unknown"
    then urgency_level s
    else VStr (fst (TriageAgent._assess_urgency message))),
   VStr (snd (TriageAgent._assess_urgency message)),
   match TriageAgent._extract_critical_keywords message with
   | [] => critical_keywords s
   | kws => dedup_values (critical_keywords s ++ map VStr kws)
   end).

(** The keywords the triage agent can report. *)
Definition triage_keyword (v : value) : Prop :=
  exists k, v = VStr k
            /\ In k (TriageAgent.critical_medical ++ TriageAgent.critical_safety
                       ++ TriageAgent.high_priority).

(** The urgency levels and emergency types a session can hold. *)
Definition known_levels (s : session) : Prop :=
  In (urgency_level s) (map VStr ["unknown"; "critical"; "high"; "medium"])
  /\ In (emergency_type s) (map VStr ["unknown"; "medical"; "safety"; "police"]).

(** A call in which a caller first reports an unconscious person and then
    only says thanks. *)
Definition thanks_ops : list operation :=
  [StartSession "s" 0 None;
   ProcessTurn quiet_env "s" "My father is unconscious on the kitchen floor"].

(** ** Further notions: replies *)

(** A reply a client can show: a text, the name of the part of the system
    that speaks, and a confidence between 0 and 1. *)
Definition sound_reply (d : dict) : Prop :=
  (exists m, dict_get "message" d = Some (VStr m))
  /\ (exists a, dict_get "agent_type" d = Some (VStr a)
                /\ In a ["system"; "dispatch"; "guidance"; "triage"; "empathy"])
  /\ (exists c, dict_get "confidence" d = Some (VFloat c) /\ (0 <= c <= 1)%Q).

(** A slot filled by the agent [name]: it names the agent and carries a
    confidence between 0 and 1. *)
Definition sound_slot (name : string) (v : value) : Prop :=
  exists d c,
    v = VDict d
    /\ dict_get "agent_type" d = Some (VStr name)
    /\ dict_get "confidence" d = Some (VFloat c)
    /\ (0 <= c <= 1)%Q.

(** A session in which all three one-way flags are up, as a dispatch that
    went through would leave it. *)
Definition dispatched_session : session :=
  set_dispatch_successful true
    (set_dispatch_attempted true
       (set_triage_complete true
          (new_session "s" 0 (Some [("phone", VStr "123-456-7890");
                                    ("address", VStr "12 Main Street")])))).

(** The outcomes of a support agent and a triage agent, as a mapping. *)
Definition sample_outcomes : dict :=
  [("empathy", VDict (to_dict "I understand this is scary; I'm here to help you." "empathy"
                        0.9 (VStr "unknown") [("empathy_score", VFloat 0.5)] ""));
   ("triage", VDict (to_dict "What is your exact location?" "triage"
                       0.3 (VStr "unknown") [("emergency_type", VStr "unknown")] ""))].

(** ** Further notions: failures inside the agents *)






(** * Properties *)

(** ** Dictionaries *)

Lemma dict_get_set_eq (k : string) (v : value) (d : dict) :
  dict_get k (dict_set k v d) = Some v.
Proof.
  induction d as [|[k' v'] r IH]; simpl.
  - now rewrite String.eqb_refl.
  - destruct (String.eqb k k') eqn:E; simpl; rewrite E; auto.
Qed.

Lemma dict_get_set_ne (k k' : string) (v : value) (d : dict) :
  k <> k' -> dict_get k (dict_set k' v d) = dict_get k d.
Proof.
  intros Hne. induction d as [|[k0 v0] r IH]; simpl.
  - destruct (String.eqb k k') eqn:E; auto.
    apply String.eqb_eq in E. contradiction.
  - destruct (String.eqb k' k0) eqn:E0; simpl.
    + apply String.eqb_eq in E0. subst k0.
      destruct (String.eqb k k') eqn:E; auto.
      apply String.eqb_eq in E. contradiction.
    + now rewrite IH.
Qed.

Lemma dict_has_set (k k' : string) (v : value) (d : dict) :
  dict_has k (dict_set k' v d) = String.eqb k k' || dict_has k d.
Proof.
  unfold dict_has. destruct (String.eqb k k') eqn:E.
  - apply String.eqb_eq in E. subst. now rewrite dict_get_set_eq.
  - apply String.eqb_neq in E. now rewrite dict_get_set_ne.
Qed.

Lemma get_truthy_set_ne (k k' : string) (v : value) (d : dict) :
  k <> k' -> get_truthy k (dict_set k' v d) = get_truthy k d.
Proof. intros. unfold get_truthy. now rewrite dict_get_set_ne. Qed.

Lemma get_truthy_subscript (k : string) (d : dict) :
  get_truthy k d = true -> exists v, subscript d k = Ok v /\ truthy v = true.
Proof.
  unfold get_truthy, subscript. destruct (dict_get k d); [eauto | discriminate].
Qed.

(** ** The safety check *)

Lemma perform_safety_checks_crisis cfg message s :
  is_crisis cfg message = true ->
  _perform_safety_checks cfg message s =
    (Ok (crisis_response (triggered_keywords cfg message)),
     set_safety_triggers (safety_triggers s + 1) s).
Proof.
  intros H. unfold _perform_safety_checks, is_crisis in *.
  destruct (triggered_keywords cfg message) as [|k l] eqn:E; [discriminate|].
  unfold bind, modify, ret; simpl TriageAgent.nonempty; cbv iota.
  now rewrite H.
Qed.

Lemma perform_safety_checks_loop cfg message s :
  is_crisis cfg message = false ->
  max_conversation_turns cfg <= turn_number s ->
  _perform_safety_checks cfg message s =
    (Ok loop_breaker_response,
     set_loop_breaker_active true (count_trigger cfg message s)).
Proof.
  intros H Hmax. unfold _perform_safety_checks, is_crisis, count_trigger in *.
  assert (Hle : (max_conversation_turns cfg <=? turn_number s)%nat = true)
    by now apply Nat.leb_le.
  destruct (triggered_keywords cfg message) as [|k l] eqn:E;
    unfold bind, modify, ret, gets; simpl TriageAgent.nonempty; cbv iota.
  - simpl. now rewrite Hle.
  - rewrite H. simpl. now rewrite Hle.
Qed.

Lemma perform_safety_checks_pass cfg message s :
  is_crisis cfg message = false ->
  turn_number s < max_conversation_turns cfg ->
  _perform_safety_checks cfg message s =
    (Ok [("blocked", VBool false)], count_trigger cfg message s).
Proof.
  intros H Hmax. unfold _perform_safety_checks, is_crisis, count_trigger in *.
  assert (Hle : (max_conversation_turns cfg <=? turn_number s)%nat = false)
    by now apply Nat.leb_gt.
  destruct (triggered_keywords cfg message) as [|k l] eqn:E;
    unfold bind, modify, ret, gets; simpl TriageAgent.nonempty; cbv iota.
  - simpl. now rewrite Hle.
  - rewrite H. simpl. now rewrite Hle.
Qed.

Lemma body_crisis cfg ev message s :
  is_crisis cfg message = true ->
  process_message_body cfg ev message s =
    (Raise (KeyError "blocked"), set_safety_triggers (safety_triggers s + 1) s).
Proof.
  intros H. unfold process_message_body, bind.
  now rewrite perform_safety_checks_crisis.
Qed.

Lemma body_loop cfg ev message s :
  is_crisis cfg message = false ->
  max_conversation_turns cfg <= turn_number s ->
  process_message_body cfg ev message s =
    (Raise (KeyError "blocked"),
     set_loop_breaker_active true (count_trigger cfg message s)).
Proof.
  intros H Hmax. unfold process_message_body, bind.
  now rewrite perform_safety_checks_loop.
Qed.

Lemma body_pass cfg ev message s :
  is_crisis cfg message = false ->
  turn_number s < max_conversation_turns cfg ->
  process_message_body cfg ev message s =
    run_turn cfg ev message (count_trigger cfg message s).
Proof.
  intros H Hmax. unfold process_message_body, bind.
  now rewrite perform_safety_checks_pass.
Qed.

(** A configured keyword that occurs in the lowercased message is among
    the triggered ones. *)
Lemma triggered_keyword_in cfg message (keyword : string) :
  In keyword (safety_keywords cfg) ->
  Text.contains (Text.lower keyword) (Text.lower message) = true ->
  Text.mem keyword (triggered_keywords cfg message) = true.
Proof.
  intros Hin Hc. unfold Text.mem, triggered_keywords.
  apply existsb_exists. exists keyword. split.
  - apply filter_In. auto.
  - apply String.eqb_refl.
Qed.

(** ** The safety gate inside [process_message] *)

(** C1 (code departs from the claim).  With ["suicide"] configured as a
    trigger phrase, a message whose lowercased text contains it does
    increment [safety_triggers] by exactly one, but the reply of
    [process_message] is not the blocked critical outcome: the crisis
    dictionary has no top-level ["blocked"] key, [safety_check["blocked"]]
    raises [KeyError], and the caller gets the technical-difficulties reply
    (agent type "system", urgency "unknown"). *)
Theorem suicide_message_reply cfg ev sid message (store : sessions) s :
  In "suicide" (safety_keywords cfg) ->
  store !! sid = Some s ->
  Text.contains "suicide" (Text.lower message) = true ->
  process_message cfg ev sid message store =
    (Ok (technical_difficulties (KeyError "blocked")),
     <[sid := set_safety_triggers (safety_triggers s + 1) s]> store).
Proof.
  intros Hin Hs Hc. unfold process_message. rewrite Hs.
  rewrite body_crisis; [reflexivity|].
  unfold is_crisis. apply orb_true_iff. left.
  now apply triggered_keyword_in.
Qed.

Lemma suicide_message_reply_witness :
  process_message Config quiet_env "s" "I am thinking about suicide"
    {["s" := new_session "s" 0 None]} =
    (Ok (technical_difficulties (KeyError "blocked")),
     <["s" := set_safety_triggers (safety_triggers (new_session "s" 0 None) + 1)
                (new_session "s" 0 None)]> {["s" := new_session "s" 0 None]}).
Proof.
  apply suicide_message_reply.
  - simpl. auto.
  - apply lookup_singleton_eq.
  - reflexivity.
Defined.

(** C3 (code departs from the claim).  Once [turn_number] has reached
    [max_conversation_turns], a message without safety trigger sets
    [loop_breaker_active] and leaves [turn_number] alone, but the reply is
    not the blocked high-urgency hand-off: that dictionary has no top-level
    ["blocked"] key either, and the caller gets the technical-difficulties
    reply. *)
Theorem loop_breaker_reply cfg ev sid message (store : sessions) s :
  store !! sid = Some s ->
  triggered_keywords cfg message = [] ->
  max_conversation_turns cfg <= turn_number s ->
  process_message cfg ev sid message store =
    (Ok (technical_difficulties (KeyError "blocked")),
     <[sid := set_loop_breaker_active true s]> store).
Proof.
  intros Hs Ht Hmax. unfold process_message. rewrite Hs.
  rewrite body_loop; auto.
  - unfold count_trigger. now rewrite Ht.
  - unfold is_crisis. now rewrite Ht.
Qed.

Lemma loop_breaker_reply_witness :
  let s50 := turns Config 50 "hello" (new_session "s" 0 None) in
  turn_number s50 = 50 /\
  process_message Config quiet_env "s" "hello" {["s" := s50]} =
    (Ok (technical_difficulties (KeyError "blocked")),
     <["s" := set_loop_breaker_active true s50]> {["s" := s50]}).
Proof.
  split.
  - vm_compute. reflexivity.
  - apply loop_breaker_reply.
    + apply lookup_singleton_eq.
    + reflexivity.
    + apply Nat.leb_le. vm_compute. reflexivity.
Defined.

(** With the configuration dictionary the shipped entry points pass, no
    keyword is configured: a message about suicide passes the safety check
    and nothing is counted. *)
Lemma development_dict_never_triggers message s :
  turn_number s < 50 ->
  _perform_safety_checks development_dict message s = (Ok [("blocked", VBool false)], s).
Proof. intros H. now apply perform_safety_checks_pass. Qed.

(** ** Session lifecycle *)

(** C8.  [process_message] and [end_session] raise the not-found error
    exactly when the id is not in [active_sessions]; otherwise both
    return, and [end_session] removes the id, so that a second
    [end_session] on it raises not-found. *)
Theorem not_found_exactly cfg ev sid message ended now ended' now' (store : sessions) :
  match store !! sid with
  | None =>
      process_message cfg ev sid message store = (Raise (not_found sid), store)
      /\ end_session sid ended now store = (Raise (not_found sid), store)
  | Some s =>
      (exists reply s',
          process_message cfg ev sid message store = (Ok reply, <[sid := s']> store))
      /\ (exists summary,
             end_session sid ended now store = (Ok summary, delete sid store)
             /\ st_total_turns summary = Some (turn_number s))
      /\ snd (end_session sid ended now store) !! sid = None
      /\ end_session sid ended' now' (snd (end_session sid ended now store)) =
           (Raise (not_found sid), delete sid store)
  end.
Proof.
  destruct (store !! sid) as [s|] eqn:Hs.
  - assert (Hend : exists summary,
               end_session sid ended now store = (Ok summary, delete sid store)
               /\ st_total_turns summary = Some (turn_number s)).
    { unfold end_session. rewrite Hs. eexists. split; reflexivity. }
    split; [|split; [exact Hend|]].
    + unfold process_message. rewrite Hs.
      destruct (process_message_body cfg ev message s) as [[reply|e] s']; eauto.
    + destruct Hend as [summary [Hend _]]. rewrite Hend. simpl. split.
      * apply lookup_delete_eq.
      * unfold end_session. now rewrite lookup_delete_eq.
  - unfold process_message, end_session. rewrite Hs. auto.
Qed.

(** ** What the agents return *)

Lemma to_dict_wf m name c u md ts : wf_slot (VDict (to_dict m name c u md ts)).
Proof. exists (to_dict m name c u md ts), m, (VStr name), md. auto. Qed.

Lemma error_response_wf name e : wf_slot (VDict (error_response name e)).
Proof. unfold wf_slot, error_response. repeat eexists. Qed.

Lemma empathy_result ev message ctx :
  agent_result "empathy" (escapes (EmpathyAgent.call ev))
    (EmpathyAgent.process_message ev message ctx).
Proof.
  unfold EmpathyAgent.process_message, EmpathyAgent.fallback, agent_result.
  destruct (escapes (EmpathyAgent.call ev)); [reflexivity|].
  destruct (fails_inside (EmpathyAgent.call ev)); split; auto; repeat eexists.
Qed.

Lemma triage_result ev message ctx :
  agent_result "triage" (escapes ev) (TriageAgent.process_message ev message ctx).
Proof.
  unfold TriageAgent.process_message, TriageAgent.fallback, agent_result.
  destruct (escapes ev); [reflexivity|].
  destruct (fails_inside ev); [split; auto; repeat eexists|].
  destruct (TriageAgent._assess_urgency message). split; auto; repeat eexists.
Qed.

Lemma guidance_result ev message ctx :
  agent_result "guidance" (escapes ev) (GuidanceAgent.process_message ev message ctx).
Proof.
  unfold GuidanceAgent.process_message, GuidanceAgent.fallback, agent_result.
  destruct (escapes ev); [reflexivity|].
  destruct (fails_inside ev); [split; auto; repeat eexists|].
  destruct (GuidanceAgent._determine_guidance_needed ctx); split; auto; repeat eexists.
Qed.

Lemma dispatch_result cfg ev message ctx :
  agent_result "dispatch" (escapes (DispatchAgent.call ev))
    (DispatchAgent.process_message cfg ev message ctx).
Proof.
  unfold DispatchAgent.process_message, DispatchAgent.fallback, agent_result.
  destruct (escapes (DispatchAgent.call ev)); [reflexivity|].
  destruct (fails_inside (DispatchAgent.call ev)); [split; auto; repeat eexists|].
  destruct (negb (DispatchAgent._ready_to_dispatch ctx)); [split; auto; repeat eexists|].
  destruct (DispatchAgent._prepare_dispatch_data ctx); [|split; auto; repeat eexists].
  destruct (DispatchAgent._send_to_dispatch cfg ev a); split; auto; repeat eexists.
Qed.

Lemma slot_wf name escaping task : agent_result name escaping task -> wf_slot (slot name task).
Proof.
  unfold agent_result, slot. destruct task as [d|e].
  - intros [_ (m & c & u & md & ts & ->)]. apply to_dict_wf.
  - intros _. apply error_response_wf.
Qed.

(** ** Fan-out and fan-in *)

(** The mapping [_process_through_agents] returns: one slot per selected
    agent, in the order empathy, triage, guidance, dispatch. *)
Lemma process_through_agents_slots cfg ev message s active_agents :
  _process_through_agents cfg ev message s active_agents =
    let ctx := _build_context s message in
    (if Text.mem "empathy" active_agents
     then [("empathy", slot "empathy" (EmpathyAgent.process_message (empathy_env ev) message ctx))]
     else [])
    ++ (if Text.mem "triage" active_agents
        then [("triage", slot "triage" (TriageAgent.process_message (triage_env ev) message ctx))]
        else [])
    ++ (if Text.mem "guidance" active_agents
        then [("guidance", slot "guidance" (GuidanceAgent.process_message (guidance_env ev) message ctx))]
        else [])
    ++ (if Text.mem "dispatch" active_agents
        then [("dispatch", slot "dispatch" (DispatchAgent.process_message cfg (dispatch_env ev) message ctx))]
        else []).
Proof.
  unfold _process_through_agents, agent_tasks, slot. cbv zeta.
  destruct (Text.mem "empathy" active_agents), (Text.mem "triage" active_agents),
    (Text.mem "guidance" active_agents), (Text.mem "dispatch" active_agents);
    cbn [app fold_left run_task];
    repeat match goal with
      | |- context [match ?t with Ok _ => _ | Raise _ => _ end] =>
          destruct t; cbn [dict_set String.eqb Ascii.eqb Bool.eqb]
      end;
    reflexivity.
Qed.

Lemma process_through_agents_wf cfg ev message s active_agents :
  Forall (fun kv => wf_slot (snd kv))
    (_process_through_agents cfg ev message s active_agents).
Proof.
  rewrite process_through_agents_slots. cbv zeta.
  repeat apply Forall_app_2;
    match goal with |- Forall _ (if ?b then _ else _) => destruct b end;
    repeat constructor; cbn [snd]; eapply slot_wf;
    eauto using empathy_result, triage_result, guidance_result, dispatch_result.
Qed.

(** ** Merge *)

Lemma dict_set_set (k : string) (v v' : value) (d : dict) :
  dict_set k v (dict_set k v' d) = dict_set k v d.
Proof.
  induction d as [|[k0 v0] r IH]; simpl.
  - now rewrite String.eqb_refl.
  - destruct (String.eqb k k0) eqn:E; simpl; rewrite E; [reflexivity|].
    now rewrite IH.
Qed.

Lemma dict_get_wf (rs : dict) (k : string) (v : value) :
  Forall (fun kv => wf_slot (snd kv)) rs -> dict_get k rs = Some v -> wf_slot v.
Proof.
  induction 1 as [|[k0 v0] r Hv _ IH]; simpl; [discriminate|].
  destruct (String.eqb k k0); [|exact IH].
  intros [= <-]. exact Hv.
Qed.

Lemma dict_set_wf (rs : dict) (k : string) (v : value) :
  Forall (fun kv => wf_slot (snd kv)) rs -> wf_slot v ->
  Forall (fun kv => wf_slot (snd kv)) (dict_set k v rs).
Proof.
  intros Hrs Hv. induction Hrs as [|[k0 v0] r Hv0 Hr IH]; simpl.
  - repeat constructor. exact Hv.
  - destruct (String.eqb k k0); constructor; auto.
Qed.

Lemma combined_metadata_ok (rs : dict) :
  Forall (fun kv => wf_slot (snd kv)) rs -> exists all_agents, combined_metadata rs = Ok all_agents.
Proof.
  unfold combined_metadata. generalize (@nil (string * value)) as acc.
  induction rs as [|[k v] r IH]; intros acc Hrs; simpl.
  - eauto.
  - inversion Hrs as [|? ? Hv Hr]; subst.
    simpl in Hv. destruct Hv as (d & m & t & md & -> & _). simpl. apply IH. exact Hr.
Qed.

Lemma primary_of_has (rs : dict) (first_key : string) :
  dict_has first_key rs = true -> dict_has (primary_of rs first_key) rs = true.
Proof.
  intros H. unfold primary_of.
  destruct (find _ priority_order) as [a|] eqn:E; [|exact H].
  apply find_some in E. tauto.
Qed.

Lemma primary_agent_has (rs : dict) :
  rs <> [] -> dict_has (primary_agent rs) rs = true.
Proof.
  destruct rs as [|[k0 v0] r]; [congruence|]. intros _.
  apply primary_of_has. unfold dict_has. simpl. now rewrite String.eqb_refl.
Qed.

(** The merge of well-formed slots returns, and how its result is built
    from the primary slot. *)
Lemma combine_wf (rs : dict) :
  rs <> [] ->
  Forall (fun kv => wf_slot (snd kv)) rs ->
  exists pd md all_agents,
    dict_get (primary_agent rs) rs = Some (VDict pd)
    /\ dict_get "metadata" pd = Some (VDict md)
    /\ let final :=
         dict_set "metadata" (VDict (dict_set "all_agents" (VDict all_agents) md))
           (if prepends rs then dict_set "message" (VStr (merged_message rs)) pd else pd) in
       _combine_agent_responses rs =
         Ok (final, dict_set (primary_agent rs) (VDict final) rs).
Proof.
  intros Hne Hwf.
  pose proof (primary_agent_has rs Hne) as Hhas.
  unfold merged_message, prepends, slot_message.
  destruct rs as [|[k0 v0] r] eqn:Hrs; [congruence|]. rewrite <- Hrs in *.
  assert (Hp : primary_agent rs = primary_of rs k0) by (rewrite Hrs; reflexivity).
  assert (Hc : _combine_agent_responses rs = combine_nonempty rs k0)
    by (rewrite Hrs; reflexivity).
  rewrite Hc, Hp in *. clear Hc Hp Hrs Hne.
  set (p := primary_of rs k0) in *.
  unfold dict_has in Hhas. destruct (dict_get p rs) as [pv|] eqn:Hpv; [|discriminate].
  destruct (dict_get_wf rs p pv Hwf Hpv) as (pd & pm & pt & md & -> & Hpm & Hpt & Hmd).
  exists pd, md.
  unfold combine_nonempty. fold p. unfold subscript at 1. rewrite Hpv. cbn [res_bind].
  destruct (negb (String.eqb p "empathy") && dict_has "empathy" rs) eqn:Hcond.
  - apply andb_true_iff in Hcond. destruct Hcond as [_ Hemp].
    unfold dict_has in Hemp.
    destruct (dict_get "empathy" rs) as [ev|] eqn:Hev; [|discriminate].
    destruct (dict_get_wf rs _ ev Hwf Hev) as (ed & em & et & emd & -> & Hem & _ & _).
    unfold subscript. rewrite Hev. cbn [res_bind container]. rewrite Hem.
    cbn [res_bind format_value container]. rewrite Hpm. cbn [res_bind format_value].
    set (pd' := dict_set "message" _ pd).
    assert (Hwf' : Forall (fun kv => wf_slot (snd kv)) (dict_set p (VDict pd') rs)).
    { apply dict_set_wf; auto. exists pd'. do 3 eexists. split; [reflexivity|].
      unfold pd'. rewrite dict_get_set_eq, !dict_get_set_ne by discriminate. eauto. }
    destruct (combined_metadata_ok _ Hwf') as [all_agents Hall].
    exists all_agents. rewrite Hall. cbn [res_bind container].
    unfold pd' at 1. rewrite dict_get_set_ne by discriminate. rewrite Hmd.
    cbn [res_bind container message_of]. rewrite dict_set_set, Hem, Hpm. auto.
  - assert (Hwf' : Forall (fun kv => wf_slot (snd kv)) (dict_set p (VDict pd) rs)).
    { apply dict_set_wf; auto. exists pd. eauto 10. }
    destruct (combined_metadata_ok _ Hwf') as [all_agents Hall].
    exists all_agents. cbn [res_bind]. rewrite Hall. cbn [res_bind container].
    unfold subscript. rewrite Hmd. cbn [res_bind container].
    rewrite dict_set_set. auto.
Qed.

(** ** State update after the merge *)

Lemma update_from_triage_same rs p pd final s :
  dict_get p rs = Some (VDict pd) ->
  merge_changed pd final ->
  update_from_triage (dict_set p (VDict final) rs) s = update_from_triage rs s.
Proof.
  intros Hpd [Hu (md & X & Hmd & Hmd')].
  unfold update_from_triage, bind, lift, subscript.
  destruct (String.eqb "triage" p) eqn:E.
  - apply String.eqb_eq in E. subst p. rewrite dict_get_set_eq, Hpd.
    cbn [receiver]. unfold metadata_of. rewrite Hu, Hmd, Hmd'. cbn [receiver].
    repeat rewrite get_truthy_set_ne by discriminate.
    repeat rewrite dict_get_set_ne by discriminate.
    reflexivity.
  - apply String.eqb_neq in E. now rewrite dict_get_set_ne.
Qed.

Lemma update_from_dispatch_same rs p pd final s :
  dict_get p rs = Some (VDict pd) ->
  merge_changed pd final ->
  update_from_dispatch (dict_set p (VDict final) rs) s = update_from_dispatch rs s.
Proof.
  intros Hpd [Hu (md & X & Hmd & Hmd')].
  unfold update_from_dispatch, bind, lift, subscript.
  destruct (String.eqb "dispatch" p) eqn:E.
  - apply String.eqb_eq in E. subst p. rewrite dict_get_set_eq, Hpd.
    cbn [receiver]. unfold metadata_of. rewrite Hmd, Hmd'. cbn [receiver].
    repeat rewrite get_truthy_set_ne by discriminate.
    reflexivity.
  - apply String.eqb_neq in E. now rewrite dict_get_set_ne.
Qed.

Lemma update_from_empathy_same rs p pd final s :
  dict_get p rs = Some (VDict pd) ->
  merge_changed pd final ->
  update_from_empathy (dict_set p (VDict final) rs) s = update_from_empathy rs s.
Proof.
  intros Hpd [Hu (md & X & Hmd & Hmd')].
  unfold update_from_empathy, bind, lift, subscript.
  destruct (String.eqb "empathy" p) eqn:E.
  - apply String.eqb_eq in E. subst p. rewrite dict_get_set_eq, Hpd.
    cbn [receiver]. unfold metadata_of. rewrite Hmd, Hmd'. cbn [receiver].
    repeat rewrite get_truthy_set_ne by discriminate.
    repeat rewrite dict_get_set_ne by discriminate.
    reflexivity.
  - apply String.eqb_neq in E. now rewrite dict_get_set_ne.
Qed.

Lemma dict_has_set_present (k p : string) (v : value) (rs : dict) :
  dict_has p rs = true -> dict_has k (dict_set p v rs) = dict_has k rs.
Proof.
  intros Hp. rewrite dict_has_set. destruct (String.eqb k p) eqn:E; [|reflexivity].
  apply String.eqb_eq in E. subst. now rewrite Hp.
Qed.

(** [_update_session_state] does the same on the mapping the merge changed
    as on the mapping the agents returned. *)
Lemma update_session_state_same rs p pd final s :
  dict_get p rs = Some (VDict pd) ->
  merge_changed pd final ->
  _update_session_state (dict_set p (VDict final) rs) s = _update_session_state rs s.
Proof.
  intros Hpd Hm.
  assert (Hp : dict_has p rs = true) by (unfold dict_has; now rewrite Hpd).
  unfold _update_session_state, bind.
  rewrite !dict_has_set_present by exact Hp.
  assert (H1 : forall s, (if dict_has "triage" rs
                          then update_from_triage (dict_set p (VDict final) rs)
                          else ret tt) s =
                         (if dict_has "triage" rs then update_from_triage rs else ret tt) s).
  { intros s0. destruct (dict_has "triage" rs); [|reflexivity].
    now apply update_from_triage_same with pd. }
  assert (H2 : forall s, (if dict_has "dispatch" rs
                          then update_from_dispatch (dict_set p (VDict final) rs)
                          else ret tt) s =
                         (if dict_has "dispatch" rs then update_from_dispatch rs else ret tt) s).
  { intros s0. destruct (dict_has "dispatch" rs); [|reflexivity].
    now apply update_from_dispatch_same with pd. }
  assert (H3 : forall s, (if dict_has "empathy" rs
                          then update_from_empathy (dict_set p (VDict final) rs)
                          else ret tt) s =
                         (if dict_has "empathy" rs then update_from_empathy rs else ret tt) s).
  { intros s0. destruct (dict_has "empathy" rs); [|reflexivity].
    now apply update_from_empathy_same with pd. }
  rewrite H1.
  match goal with |- match ?x with _ => _ end = _ => destruct x as [[[]|e] s1] end;
    [|reflexivity].
  rewrite H2.
  match goal with |- match ?x with _ => _ end = _ => destruct x as [[[]|e] s2] end;
    [|reflexivity].
  apply H3.
Qed.

(** ** One turn *)

(** Only the four agent names are ever selected, and at least one is. *)
Lemma select_agents_some s message :
  Text.mem "empathy" (select_agents s message)
  || Text.mem "triage" (select_agents s message)
  || Text.mem "guidance" (select_agents s message)
  || Text.mem "dispatch" (select_agents s message) = true.
Proof.
  unfold select_agents. cbv zeta.
  destruct (EmpathyAgent.should_activate _), (TriageAgent.should_activate _),
    (GuidanceAgent.should_activate _), (DispatchAgent.should_activate _);
    try reflexivity.
  simpl. destruct (Nat.eqb (turn_number s) 1); reflexivity.
Qed.

Lemma turn_responses_nonempty cfg ev message s : turn_responses cfg ev message s <> [].
Proof.
  unfold turn_responses. cbv zeta. rewrite process_through_agents_slots. cbv zeta.
  pose proof (select_agents_some (turn_opened ev message s) message) as H.
  destruct (Text.mem "empathy" _), (Text.mem "triage" _), (Text.mem "guidance" _),
    (Text.mem "dispatch" _); simpl in *; congruence.
Qed.

Lemma turn_responses_wf cfg ev message s :
  Forall (fun kv => wf_slot (snd kv)) (turn_responses cfg ev message s).
Proof. apply process_through_agents_wf. Qed.

(** What the reply of a turn is made of. *)
Lemma final_response_spec (rs : dict) :
  rs <> [] ->
  Forall (fun kv => wf_slot (snd kv)) rs ->
  exists pd,
    dict_get (primary_agent rs) rs = Some (VDict pd)
    /\ _combine_agent_responses rs =
         Ok (final_response rs, dict_set (primary_agent rs) (VDict (final_response rs)) rs)
    /\ dict_get "message" (final_response rs) = Some (VStr (merged_message rs))
    /\ (forall k, k <> "message" -> k <> "metadata" ->
                  dict_get k (final_response rs) = dict_get k pd)
    /\ merge_changed pd (final_response rs).
Proof.
  intros Hne Hwf.
  destruct (combine_wf rs Hne Hwf) as (pd & md & X & Hpd & Hmd & Hc). cbv zeta in Hc.
  exists pd. unfold final_response. rewrite Hc. split; [exact Hpd|]. split; [reflexivity|].
  assert (Hmsg : dict_get "message" pd = Some (VStr (slot_message rs (primary_agent rs)))).
  { destruct (dict_get_wf rs _ _ Hwf Hpd) as (d & m & t & md' & [= <-] & Hm & _).
    unfold slot_message. rewrite Hpd. simpl. now rewrite Hm. }
  split; [|split].
  - rewrite dict_get_set_ne by discriminate.
    destruct (prepends rs) eqn:E.
    + apply dict_get_set_eq.
    + unfold merged_message. now rewrite E.
  - intros k Hk1 Hk2. rewrite dict_get_set_ne by auto.
    destruct (prepends rs); [now rewrite dict_get_set_ne|reflexivity].
  - split.
    + rewrite dict_get_set_ne by discriminate.
      destruct (prepends rs); [now rewrite dict_get_set_ne|reflexivity].
    + exists md, (VDict X). split; [exact Hmd|]. apply dict_get_set_eq.
Qed.

Lemma update_last_snoc f (l : list turn_record) (x : turn_record) (s : session) :
  conversation_history s = l ++ [x] ->
  update_last f s = (Ok tt, set_conversation_history (l ++ [f x]) s).
Proof.
  intros H. unfold update_last. rewrite H, rev_unit, rev_involutive. reflexivity.
Qed.

(** [process_message] after the safety check, step by step: the turn is
    counted and recorded, the agents selected and run, their responses
    merged, the reply recorded, and the session updated from the
    responses. *)
Lemma run_turn_eq cfg ev message s :
  let rs := turn_responses cfg ev message s in
  let final := final_response rs in
  run_turn cfg ev message s =
    conclude final
      (_update_session_state rs
         (before_update ev message (field "message" final) (field "agent_type" final) s)).
Proof.
  cbv zeta.
  destruct (final_response_spec _ (turn_responses_nonempty cfg ev message s)
              (turn_responses_wf cfg ev message s))
    as (pd & Hpd & Hc & Hmsg & Hother & Hch).
  assert (Hty : exists t, dict_get "agent_type" (final_response (turn_responses cfg ev message s)) = Some t).
  { rewrite Hother by discriminate.
    destruct (dict_get_wf _ _ _ (turn_responses_wf cfg ev message s) Hpd)
      as (d & m & t & md' & [= <-] & _ & Ht & _). eauto. }
  destruct Hty as [t Ht].
  unfold run_turn, _determine_active_agents, bind, modify, gets, ret, lift.
  cbn [fst snd id].
  change (_process_through_agents cfg ev message _ _) with (turn_responses cfg ev message s).
  rewrite Hc. unfold subscript. rewrite Hmsg, Ht.
  erewrite update_last_snoc by reflexivity.
  erewrite update_last_snoc by reflexivity.
  rewrite update_session_state_same with (pd := pd) by assumption.
  unfold field. rewrite Hmsg, Ht. unfold conclude.
  reflexivity.
Qed.

(** ** Effects of the state update *)

Lemma updated_from_refl message tc rd s : updated_from message tc rd s s.
Proof. constructor; auto. Qed.

Lemma updated_from_trans message tc rd s1 s2 s3 :
  updated_from message tc rd s1 s2 -> updated_from message tc rd s2 s3 ->
  updated_from message tc rd s1 s3.
Proof.
  intros [] []. constructor; try congruence; try tauto.
  - destruct upd_urgency1 as [H|H]; [|tauto].
    rewrite H. exact upd_urgency0.
Qed.

Lemma textual_hashable (l : list value) :
  Forall textual l -> forallb hashable l = true.
Proof.
  induction 1 as [|v r [k ->] _ IH]; simpl; auto.
Qed.

Lemma dedup_values_textual (l : list value) :
  Forall textual l -> Forall textual (dedup_values l).
Proof.
  induction 1 as [|v r Hv _ IH]; simpl; constructor; auto.
  apply List.Forall_forall. intros x Hx. apply filter_In in Hx.
  destruct Hx as [Hx _]. rewrite List.Forall_forall in IH. auto.
Qed.

Lemma map_VStr_textual (l : list string) : Forall textual (map VStr l).
Proof. induction l; constructor; auto. now eexists. Qed.

(** The three shapes of the triage slot. *)
Lemma triage_slot_shape ev message ctx :
  match escapes ev with
  | Some e =>
      slot "triage" (TriageAgent.process_message ev message ctx) =
        VDict (error_response "triage" e)
  | None =>
      (exists e, slot "triage" (TriageAgent.process_message ev message ctx) =
                   VDict (TriageAgent.fallback e (created ev)))
      \/ exists m c rt qa,
          slot "triage" (TriageAgent.process_message ev message ctx) =
            VDict (to_dict m "triage" c
                     (VStr (fst (TriageAgent._assess_urgency message)))
                     [("emergency_type", VStr (snd (TriageAgent._assess_urgency message)));
                      ("critical_keywords",
                       VList (map VStr (TriageAgent._extract_critical_keywords message)));
                      ("triage_complete", VBool (TriageAgent._is_triage_complete ctx));
                      ("response_time", rt);
                      ("questions_asked", qa)]
                     (created ev))
  end.
Proof.
  unfold slot, TriageAgent.process_message.
  destruct (escapes ev); [reflexivity|].
  destruct (fails_inside ev); [left; eauto|].
  right. destruct (TriageAgent._assess_urgency message). simpl. eauto 10.
Qed.

(** A triage slot that is the error dictionary stops the update at its
    first assignment. *)
Lemma update_from_triage_error rs e s :
  dict_get "triage" rs = Some (VDict (error_response "triage" e)) ->
  update_from_triage rs s = (Raise (KeyError "urgency_level"), s).
Proof.
  intros H. unfold update_from_triage, bind, lift, subscript. rewrite H. reflexivity.
Qed.

Lemma update_from_triage_fallback rs e ts s :
  dict_get "triage" rs = Some (VDict (TriageAgent.fallback e ts)) ->
  update_from_triage rs s = (Ok tt, s).
Proof.
  intros H. unfold update_from_triage, bind, lift, subscript. rewrite H. reflexivity.
Qed.

Lemma update_from_triage_normal rs message tc rd m c u t kws rt qa ts s :
  dict_get "triage" rs =
    Some (VDict (to_dict m "triage" c (VStr u)
                   [("emergency_type", VStr t);
                    ("critical_keywords", VList (map VStr kws));
                    ("triage_complete", VBool tc);
                    ("response_time", rt);
                    ("questions_asked", qa)] ts)) ->
  u = fst (TriageAgent._assess_urgency message) ->
  (Forall textual (critical_keywords s) ->
   fst (update_from_triage rs s) = Ok tt)
  /\ updated_from message tc rd s (snd (update_from_triage rs s)).
Proof.
  intros H Hu. unfold update_from_triage, bind, lift, subscript. rewrite H.
  cbn [receiver to_dict dict_get metadata_of String.eqb Ascii.eqb Bool.eqb differs_from
         is_str get_truthy truthy].
  unfold modify, ret, gets.
  destruct (String.eqb u "unknown") eqn:Eu; cbn [negb fst snd];
    destruct (String.eqb t "") eqn:Et; cbn [negb fst snd];
    destruct kws as [|kw kws]; cbn [map iterate fst snd];
    destruct tc; cbn [fst snd];
    try (split; [reflexivity|]; constructor; cbn; auto;
         try (right; split; [congruence|]; rewrite <- Hu; now apply String.eqb_neq);
         fail).
  all: cbn [critical_keywords set_critical_keywords set_urgency_level set_emergency_type].
  all: set (all := critical_keywords _ ++ _).
  all: destruct (forallb hashable all) eqn:Eh; cbn [fst snd].
  all: split;
    [ intros Ht; try reflexivity;
      assert (Hall : forallb hashable all = true)
        by (apply textual_hashable; apply Forall_app_2;
            [exact Ht | apply (map_VStr_textual (kw :: kws))]);
      congruence
    | constructor; cbn; auto;
      try (right; split; [congruence|]; rewrite <- Hu; now apply String.eqb_neq);
      try (intros Ht; first [apply dedup_values_textual|idtac];
           apply Forall_app_2; [exact Ht | apply (map_VStr_textual (kw :: kws))]) ].
Qed.

Lemma dispatch_slot_shape cfg ev message ctx :
  exists d md,
    slot "dispatch" (DispatchAgent.process_message cfg ev message ctx) = VDict d
    /\ dict_get "metadata" d = Some (VDict md)
    /\ (get_truthy "dispatch_attempted" md = true ->
        DispatchAgent._ready_to_dispatch ctx = true)
    /\ (get_truthy "dispatch_successful" md = true ->
        DispatchAgent._ready_to_dispatch ctx = true).
Proof.
  unfold slot, DispatchAgent.process_message, DispatchAgent.fallback, error_response.
  destruct (escapes (DispatchAgent.call ev));
    [do 2 eexists; split; [reflexivity|]; split; [reflexivity|]; split; discriminate|].
  destruct (fails_inside (DispatchAgent.call ev));
    [do 2 eexists; split; [reflexivity|]; split; [reflexivity|]; split; discriminate|].
  destruct (DispatchAgent._ready_to_dispatch ctx); cbn [negb];
    [|do 2 eexists; split; [reflexivity|]; split; [reflexivity|]; split; discriminate].
  destruct (DispatchAgent._prepare_dispatch_data ctx);
    [|do 2 eexists; split; [reflexivity|]; split; [reflexivity|]; split; reflexivity].
  destruct (DispatchAgent._send_to_dispatch cfg ev a);
    do 2 eexists; (split; [reflexivity|]); (split; [reflexivity|]); split; reflexivity.
Qed.

Lemma update_from_dispatch_effect rs message tc rd d md s :
  dict_get "dispatch" rs = Some (VDict d) ->
  dict_get "metadata" d = Some (VDict md) ->
  (get_truthy "dispatch_attempted" md = true -> rd = true) ->
  (get_truthy "dispatch_successful" md = true -> rd = true) ->
  fst (update_from_dispatch rs s) = Ok tt
  /\ updated_from message tc rd s (snd (update_from_dispatch rs s)).
Proof.
  intros H Hmd Ha Hs. unfold update_from_dispatch, bind, lift, subscript. rewrite H.
  cbn [receiver]. unfold metadata_of. rewrite Hmd. cbn [receiver].
  unfold modify, ret.
  destruct (get_truthy "dispatch_attempted" md); destruct (get_truthy "dispatch_successful" md);
    cbn [fst snd]; (split; [reflexivity|]); constructor; cbn; auto.
Qed.

Lemma update_from_empathy_effect rs message tc rd v s :
  dict_get "empathy" rs = Some v ->
  wf_slot v ->
  fst (update_from_empathy rs s) = Ok tt
  /\ updated_from message tc rd s (snd (update_from_empathy rs s)).
Proof.
  intros H (d & m & t & md & -> & _ & _ & Hmd).
  assert (Hsub : subscript rs "empathy" = Ok (VDict d))
    by (unfold subscript; now rewrite H).
  unfold update_from_empathy, bind, lift. rewrite Hsub.
  cbn [receiver]. unfold metadata_of. rewrite Hmd. cbn [receiver].
  destruct (get_truthy "empathy_score" md) eqn:E.
  - destruct (get_truthy_subscript _ _ E) as (v & -> & _).
    unfold modify. cbn [fst snd]. split; [reflexivity|]. constructor; cbn; auto.
  - unfold ret. cbn [fst snd]. split; [reflexivity|]. apply updated_from_refl.
Qed.

(** The slots of a turn, by agent name. *)
Lemma turn_responses_get cfg ev message s :
  let rs := turn_responses cfg ev message s in
  let sel := selected ev message s in
  let ctx := turn_context ev message s in
  dict_get "empathy" rs =
    (if Text.mem "empathy" sel
     then Some (slot "empathy" (EmpathyAgent.process_message (empathy_env ev) message ctx))
     else None)
  /\ dict_get "triage" rs =
       (if Text.mem "triage" sel
        then Some (slot "triage" (TriageAgent.process_message (triage_env ev) message ctx))
        else None)
  /\ dict_get "guidance" rs =
       (if Text.mem "guidance" sel
        then Some (slot "guidance" (GuidanceAgent.process_message (guidance_env ev) message ctx))
        else None)
  /\ dict_get "dispatch" rs =
       (if Text.mem "dispatch" sel
        then Some (slot "dispatch"
                     (DispatchAgent.process_message cfg (dispatch_env ev) message ctx))
        else None).
Proof.
  cbv zeta. unfold turn_responses, selected, turn_context. cbv zeta.
  rewrite process_through_agents_slots. cbv zeta.
  destruct (Text.mem "empathy" _), (Text.mem "triage" _), (Text.mem "guidance" _),
    (Text.mem "dispatch" _); repeat split; reflexivity.
Qed.

Lemma triage_part cfg ev message s0 s :
  let rs := turn_responses cfg ev message s0 in
  let ctx := turn_context ev message s0 in
  let c := if dict_has "triage" rs then update_from_triage rs else ret tt in
  updated_from message (TriageAgent._is_triage_complete ctx)
    (DispatchAgent._ready_to_dispatch ctx) s (snd (c s))
  /\ (triage_fails ev message s0 = true -> c s = (Raise (KeyError "urgency_level"), s))
  /\ (triage_fails ev message s0 = false ->
      Forall textual (critical_keywords s) -> fst (c s) = Ok tt).
Proof.
  cbv zeta.
  destruct (turn_responses_get cfg ev message s0) as (_ & Ht & _ & _). cbv zeta in Ht.
  unfold triage_fails, dict_has. rewrite Ht.
  destruct (Text.mem "triage" (selected ev message s0)); cbn [andb].
  2: { split; [apply updated_from_refl|]. split; [discriminate|reflexivity]. }
  pose proof (triage_slot_shape (triage_env ev) message (turn_context ev message s0)) as Hs.
  destruct (escapes (triage_env ev)) as [e|].
  - rewrite Hs in Ht. rewrite (update_from_triage_error _ e s Ht).
    split; [apply updated_from_refl|]. split; [reflexivity|discriminate].
  - destruct Hs as [[e Hs]|(m & c & rt & qa & Hs)]; rewrite Hs in Ht.
    + rewrite (update_from_triage_fallback _ _ _ s Ht).
      split; [apply updated_from_refl|]. split; [discriminate|reflexivity].
    + destruct (update_from_triage_normal _ message
                  (TriageAgent._is_triage_complete (turn_context ev message s0))
                  (DispatchAgent._ready_to_dispatch (turn_context ev message s0))
                  _ _ _ _ _ _ _ _ s Ht eq_refl) as [Hok Heff].
      split; [exact Heff|]. split; [discriminate|]. intros _. exact Hok.
Qed.

Lemma dispatch_part cfg ev message s0 s :
  let rs := turn_responses cfg ev message s0 in
  let ctx := turn_context ev message s0 in
  let c := if dict_has "dispatch" rs then update_from_dispatch rs else ret tt in
  fst (c s) = Ok tt
  /\ updated_from message (TriageAgent._is_triage_complete ctx)
       (DispatchAgent._ready_to_dispatch ctx) s (snd (c s)).
Proof.
  cbv zeta.
  destruct (turn_responses_get cfg ev message s0) as (_ & _ & _ & Hd). cbv zeta in Hd.
  unfold dict_has. rewrite Hd.
  destruct (Text.mem "dispatch" (selected ev message s0)).
  2: { split; [reflexivity|apply updated_from_refl]. }
  destruct (dispatch_slot_shape cfg (dispatch_env ev) message (turn_context ev message s0))
    as (d & md & Hs & Hmd & Ha & Hb).
  rewrite Hs in Hd. eapply update_from_dispatch_effect; eauto.
Qed.

Lemma empathy_part cfg ev message s0 s :
  let rs := turn_responses cfg ev message s0 in
  let ctx := turn_context ev message s0 in
  let c := if dict_has "empathy" rs then update_from_empathy rs else ret tt in
  fst (c s) = Ok tt
  /\ updated_from message (TriageAgent._is_triage_complete ctx)
       (DispatchAgent._ready_to_dispatch ctx) s (snd (c s)).
Proof.
  cbv zeta. unfold dict_has.
  destruct (dict_get "empathy" (turn_responses cfg ev message s0)) as [v|] eqn:E.
  2: { split; [reflexivity|apply updated_from_refl]. }
  eapply update_from_empathy_effect; eauto.
  eapply dict_get_wf; [apply turn_responses_wf|exact E].
Qed.

(** The state update of a turn: what it may change, that a failed triage
    call stops it before it changes anything, and that nothing else stops
    it when the session's keywords are text. *)
Lemma update_turn cfg ev message s0 s :
  let rs := turn_responses cfg ev message s0 in
  let ctx := turn_context ev message s0 in
  updated_from message (TriageAgent._is_triage_complete ctx)
    (DispatchAgent._ready_to_dispatch ctx) s (snd (_update_session_state rs s))
  /\ (triage_fails ev message s0 = true ->
      _update_session_state rs s = (Raise (KeyError "urgency_level"), s))
  /\ (triage_fails ev message s0 = false ->
      Forall textual (critical_keywords s) ->
      fst (_update_session_state rs s) = Ok tt).
Proof.
  cbv zeta. unfold _update_session_state, bind.
  destruct (triage_part cfg ev message s0 s) as (Ht1 & Ht2 & Ht3). cbv zeta in *.
  destruct ((if dict_has "triage" (turn_responses cfg ev message s0)
             then update_from_triage (turn_responses cfg ev message s0) else ret tt) s)
    as [[[]|e] s1] eqn:E1.
  2: { split; [exact Ht1|]. split.
       - exact Ht2.
       - intros Hf Hk. specialize (Ht3 Hf Hk). simpl in Ht3. congruence. }
  destruct (dispatch_part cfg ev message s0 s1) as (Hd1 & Hd2). cbv zeta in *.
  destruct ((if dict_has "dispatch" (turn_responses cfg ev message s0)
             then update_from_dispatch (turn_responses cfg ev message s0) else ret tt) s1)
    as [[[]|e] s2] eqn:E2; [|simpl in Hd1; congruence].
  destruct (empathy_part cfg ev message s0 s2) as (He1 & He2). cbv zeta in *.
  destruct ((if dict_has "empathy" (turn_responses cfg ev message s0)
             then update_from_empathy (turn_responses cfg ev message s0) else ret tt) s2)
    as [[[]|e] s3] eqn:E3; [|simpl in He1; congruence].
  cbn [fst snd] in *. split.
  - eapply updated_from_trans; [exact Ht1|].
    eapply updated_from_trans; [exact Hd2|exact He2].
  - split; [|reflexivity]. intros Hf. specialize (Ht2 Hf). congruence.
Qed.

(** One turn that passed the safety check: the session before the state
    update has the turn counted and recorded; the update changes only the
    assessment; a failed triage call makes the turn raise before the update
    has changed anything; otherwise the turn returns the merged reply. *)
Lemma run_turn_spec cfg ev message s :
  let ctx := turn_context ev message s in
  updated_from message (TriageAgent._is_triage_complete ctx)
    (DispatchAgent._ready_to_dispatch ctx)
    (updating cfg ev message s) (snd (run_turn cfg ev message s))
  /\ (triage_fails ev message s = true ->
      run_turn cfg ev message s =
        (Raise (KeyError "urgency_level"), updating cfg ev message s))
  /\ (triage_fails ev message s = false ->
      Forall textual (critical_keywords s) ->
      fst (run_turn cfg ev message s) =
        Ok (final_response (turn_responses cfg ev message s))).
Proof.
  cbv zeta. rewrite run_turn_eq. cbv zeta. fold (updating cfg ev message s).
  destruct (update_turn cfg ev message s (updating cfg ev message s)) as (H1 & H2 & H3).
  cbv zeta in *. unfold conclude.
  destruct (_update_session_state _ (updating cfg ev message s)) as [[[]|e] s'];
    cbn [fst snd] in *.
  - split; [exact H1|]. split; [intros Hf; specialize (H2 Hf); congruence|reflexivity].
  - split; [exact H1|]. split.
    + intros Hf. specialize (H2 Hf). congruence.
    + intros Hf Hk. specialize (H3 Hf Hk). congruence.
Qed.

(** The three ways through the [try] body of [process_message]. *)
Lemma body_cases cfg ev message s :
  process_message_body cfg ev message s =
    if is_crisis cfg message
    then (Raise (KeyError "blocked"), set_safety_triggers (safety_triggers s + 1) s)
    else if (max_conversation_turns cfg <=? turn_number s)%nat
         then (Raise (KeyError "blocked"),
               set_loop_breaker_active true (count_trigger cfg message s))
         else run_turn cfg ev message (count_trigger cfg message s).
Proof.
  destruct (is_crisis cfg message) eqn:Ec; [now apply body_crisis|].
  destruct (max_conversation_turns cfg <=? turn_number s)%nat eqn:Em.
  - apply body_loop; auto. now apply Nat.leb_le.
  - apply body_pass; auto. now apply Nat.leb_gt.
Qed.

Lemma count_trigger_cases cfg message s :
  count_trigger cfg message s = s
  \/ count_trigger cfg message s = set_safety_triggers (safety_triggers s + 1) s.
Proof. unfold count_trigger. destruct (TriageAgent.nonempty _); auto. Qed.

(** [process_message] on a live session writes the session back as the
    body left it. *)
Lemma process_message_store cfg ev sid message (store : sessions) s :
  store !! sid = Some s ->
  snd (process_message cfg ev sid message store) =
    <[sid := snd (process_message_body cfg ev message s)]> store.
Proof.
  intros H. unfold process_message. rewrite H.
  destruct (process_message_body cfg ev message s) as [[r|e] s']; reflexivity.
Qed.

(** A property of sessions that new sessions have and the body of
    [process_message] keeps holds of every session in every reachable
    store. *)
Lemma reachable_sessions (P : session -> Prop) cfg :
  (forall sid now caller_info, P (new_session sid now caller_info)) ->
  (forall ev message s, P s -> P (snd (process_message_body cfg ev message s))) ->
  forall ops sid s, run cfg ops !! sid = Some s -> P s.
Proof.
  intros Hnew Hbody ops. unfold run.
  assert (Hgen : forall (store : sessions),
             (forall sid s, store !! sid = Some s -> P s) ->
             forall sid s, fold_left (step cfg) ops store !! sid = Some s -> P s).
  { induction ops as [|o ops IH]; intros store Hstore; [exact Hstore|].
    simpl. apply IH. intros sid s.
    destruct o as [sid' now info|ev sid' message|sid' now|sid' ended now]; simpl.
    - destruct (decide (sid = sid')) as [->|Hne].
      + rewrite lookup_insert_eq. intros [= <-]. apply Hnew.
      + rewrite lookup_insert_ne by congruence. apply Hstore.
    - destruct (store !! sid') as [s0|] eqn:E.
      + rewrite (process_message_store _ _ _ _ _ _ E).
        destruct (decide (sid = sid')) as [->|Hne].
        * rewrite lookup_insert_eq. intros [= <-]. apply Hbody. eapply Hstore; eauto.
        * rewrite lookup_insert_ne by congruence. apply Hstore.
      + unfold process_message. rewrite E. apply Hstore.
    - apply Hstore.
    - unfold end_session. destruct (store !! sid') as [s0|] eqn:E; simpl; [|apply Hstore].
      destruct (decide (sid = sid')) as [->|Hne].
      + rewrite lookup_delete_eq. discriminate.
      + rewrite lookup_delete_ne by congruence. apply Hstore. }
  apply Hgen. intros sid s. rewrite lookup_empty. discriminate.
Qed.

(** What the session looks like when the state update of a turn starts. *)
Lemma updating_frame cfg ev message s :
  let u := updating cfg ev message s in
  turn_number u = turn_number s + 1
  /\ (exists r, conversation_history u = conversation_history s ++ [r]
                /\ turn r = turn_number s + 1 /\ user_message r = message)
  /\ agent_activations u =
       agent_activations s ++ [(turn_number s + 1, selected ev message s)]
  /\ response_times u = response_times s ++ [processing_time ev]
  /\ questions_asked u = questions_asked s
  /\ urgency_level u = urgency_level s
  /\ emergency_type u = emergency_type s
  /\ critical_keywords u = critical_keywords s
  /\ triage_complete u = triage_complete s
  /\ dispatch_attempted u = dispatch_attempted s
  /\ dispatch_successful u = dispatch_successful s
  /\ safety_triggers u = safety_triggers s
  /\ loop_breaker_active u = loop_breaker_active s.
Proof.
  cbv zeta. unfold updating, before_update, selected, turn_opened. cbv zeta.
  split; [reflexivity|]. split; [eexists; repeat split|]. repeat split.
Qed.

(** ** Triage never completes, dispatch is never ready *)

Lemma untriaged_blocks_agents s message :
  untriaged s ->
  TriageAgent._is_triage_complete (_build_context s message) = false
  /\ DispatchAgent._ready_to_dispatch (_build_context s message) = false.
Proof.
  intros (Hq & Ht & _). split.
  - unfold TriageAgent._is_triage_complete. cbn [ctx_questions_asked _build_context].
    rewrite Hq. destruct (is_str _ _); reflexivity.
  - unfold DispatchAgent._ready_to_dispatch. cbn [ctx_triage_complete _build_context].
    rewrite Ht. apply andb_false_r.
Qed.

Lemma body_untriaged cfg ev message s :
  untriaged s -> untriaged (snd (process_message_body cfg ev message s)).
Proof.
  intros Hs. rewrite body_cases.
  assert (Hc : untriaged (count_trigger cfg message s))
    by (destruct (count_trigger_cases cfg message s) as [-> | ->]; exact Hs).
  destruct (is_crisis cfg message); [exact Hs|].
  destruct (max_conversation_turns cfg <=? turn_number s)%nat; [exact Hc|].
  set (s0 := count_trigger cfg message s) in *.
  destruct (run_turn_spec cfg ev message s0) as (Hu & _). cbv zeta in Hu.
  destruct (untriaged_blocks_agents (turn_opened ev message s0) message Hc) as (Htc & Hrd).
  unfold turn_context in Hu. rewrite Htc, Hrd in Hu.
  destruct Hc as (Hq & Ht & Ha & Hd). destruct Hu.
  destruct (updating_frame cfg ev message s0)
    as (_ & _ & _ & _ & Fq & _ & _ & _ & Ft & Fa & Fd & _). cbv zeta in *.
  repeat split.
  - congruence.
  - destruct (triage_complete (snd _)); auto.
    destruct upd_triage_complete0; congruence.
  - destruct (dispatch_attempted (snd _)); auto.
    destruct upd_dispatch_attempted0; congruence.
  - destruct (dispatch_successful (snd _)); auto.
    destruct upd_dispatch_successful0; congruence.
Qed.

(** C4.  In every session of every store reachable through the four public
    operations, [questions_asked] is empty and [triage_complete],
    [dispatch_attempted] and [dispatch_successful] are false; hence for
    every next message the triage agent does not find triage complete and
    the dispatch agent does not find the session ready to dispatch. *)
Theorem never_triaged_nor_dispatched cfg ops sid s :
  run cfg ops !! sid = Some s ->
  untriaged s
  /\ forall ev message,
       TriageAgent._is_triage_complete (turn_context ev message s) = false
       /\ DispatchAgent._ready_to_dispatch (turn_context ev message s) = false.
Proof.
  intros H.
  assert (Hs : untriaged s).
  { revert H. apply (reachable_sessions untriaged cfg).
    - intros. repeat split.
    - intros. now apply body_untriaged. }
  split; [exact Hs|]. intros ev message.
  apply untriaged_blocks_agents. exact Hs.
Qed.

Lemma never_triaged_nor_dispatched_witness :
  match run Config
          [StartSession "s" 0 (Some [("address", VStr "123 Main St")]);
           ProcessTurn quiet_env "s" "Someone is unconscious and not breathing!";
           GetStatus "s" 1;
           ProcessTurn quiet_env "s" "123 Main Street, apartment 2B"] !! "s" with
  | Some s =>
      turn_number s = 2
      /\ untriaged s
      /\ forall ev message,
           TriageAgent._is_triage_complete (turn_context ev message s) = false
           /\ DispatchAgent._ready_to_dispatch (turn_context ev message s) = false
  | None => False
  end.
Proof.
  destruct (run Config _ !! "s") as [s|] eqn:E.
  - split.
    + vm_compute in E. injection E as <-. reflexivity.
    + exact (never_triaged_nor_dispatched _ _ _ _ E).
  - vm_compute in E. discriminate E.
Defined.

(** ** Urgency level *)

Lemma assess_urgency_levels message :
  In (fst (TriageAgent._assess_urgency message)) ["critical"; "high"; "medium"; "unknown"].
Proof.
  unfold TriageAgent._assess_urgency. cbv zeta.
  repeat match goal with
    | |- context [if ?b then _ else _] => destruct b
    end; simpl; auto.
Qed.

Lemma body_serious cfg ev message s :
  serious (urgency_level s) ->
  serious (urgency_level (snd (process_message_body cfg ev message s))).
Proof.
  intros Hs. rewrite body_cases.
  assert (Hc : urgency_level (count_trigger cfg message s) = urgency_level s)
    by (destruct (count_trigger_cases cfg message s) as [-> | ->]; reflexivity).
  destruct (is_crisis cfg message); [exact Hs|].
  destruct (max_conversation_turns cfg <=? turn_number s)%nat;
    [cbn [snd]; change (serious (urgency_level (count_trigger cfg message s)));
     now rewrite Hc|].
  set (s0 := count_trigger cfg message s) in *.
  destruct (run_turn_spec cfg ev message s0) as ([] & _).
  destruct upd_urgency0 as [H|[H Hne]]; rewrite H.
  - change (serious (urgency_level s0)). now rewrite Hc.
  - pose proof (assess_urgency_levels message) as Hin. simpl in Hin. unfold serious.
    destruct Hin as [<-|[<-|[<-|[Hu|[]]]]]; auto. congruence.
Qed.

(** ** Activation of the empathy agent *)

(** The activation predicate of the empathy agent, as a function of the
    context it is given. *)
Lemma empathy_should_activate_cases ctx :
  EmpathyAgent.should_activate ctx =
    Nat.eqb (ctx_turn_number ctx) 0
    || Qltb (match ctx_sentiment_score ctx with Some x => x | None => 0%Q end) (-0.3)
    || existsb (fun keyword => Text.contains keyword (Text.lower (ctx_message ctx)))
         EmpathyAgent.support_keywords.
Proof.
  unfold EmpathyAgent.should_activate.
  destruct (Nat.eqb (ctx_turn_number ctx) 0); [reflexivity|].
  destruct (Qltb _ _); reflexivity.
Qed.

(** Inside [process_message] the turn number is at least one and the
    context has no sentiment score: only the keyword test is left. *)
Lemma empathy_in_turn ev message s :
  EmpathyAgent.should_activate (turn_context ev message s) =
    existsb (fun keyword => Text.contains keyword (Text.lower message))
      EmpathyAgent.support_keywords.
Proof.
  rewrite empathy_should_activate_cases.
  unfold turn_context, turn_opened.
  cbn [ctx_turn_number ctx_sentiment_score ctx_message _build_context
         turn_number set_conversation_history set_turn_number].
  replace (Nat.eqb (turn_number s + 1) 0) with false
    by (symmetry; apply Nat.eqb_neq; lia).
  reflexivity.
Qed.

(** C7 (code departs from the claim).  On the first [process_message] of a
    new session, with a message that passes the safety check and contains
    none of the support keywords, the empathy agent is not activated: the
    turn number is incremented before the context is built, so the test
    [turn_number == 0] fails, and only triage is selected and logged. *)
Theorem first_turn_selects_triage_only cfg ev sid now caller_info message :
  is_crisis cfg message = false ->
  0 < max_conversation_turns cfg ->
  existsb (fun keyword => Text.contains keyword (Text.lower message))
    EmpathyAgent.support_keywords = false ->
  let s := new_session sid now caller_info in
  EmpathyAgent.should_activate (turn_context ev message (count_trigger cfg message s)) = false
  /\ selected ev message (count_trigger cfg message s) = ["triage"]
  /\ agent_activations (snd (process_message_body cfg ev message s)) = [(1, ["triage"])].
Proof.
  intros Hc Hmax Hk s.
  assert (He : forall s0, EmpathyAgent.should_activate (turn_context ev message s0) = false)
    by (intros; now rewrite empathy_in_turn).
  assert (Hsel : selected ev message (count_trigger cfg message s) = ["triage"]).
  { unfold selected, select_agents. cbv zeta.
    fold (turn_context ev message (count_trigger cfg message s)). rewrite He.
    destruct (count_trigger_cases cfg message s) as [-> | ->]; reflexivity. }
  split; [apply He|]. split; [exact Hsel|].
  rewrite body_cases, Hc.
  replace (max_conversation_turns cfg <=? turn_number s)%nat with false
    by (symmetry; apply Nat.leb_gt; exact Hmax).
  destruct (run_turn_spec cfg ev message (count_trigger cfg message s)) as ([] & _).
  destruct (updating_frame cfg ev message (count_trigger cfg message s))
    as (_ & _ & Fa & _). cbv zeta in Fa.
  rewrite upd_activations0, Fa, Hsel.
  destruct (count_trigger_cases cfg message s) as [-> | ->]; reflexivity.
Qed.

Lemma first_turn_selects_triage_only_witness :
  let s := new_session "s" 0 (Some [("phone", VStr "123-456-7890")]) in
  let message := "Someone is unconscious and not breathing!" in
  EmpathyAgent.should_activate (turn_context quiet_env message (count_trigger Config message s))
    = false
  /\ selected quiet_env message (count_trigger Config message s) = ["triage"]
  /\ agent_activations (snd (process_message_body Config quiet_env message s))
     = [(1, ["triage"])].
Proof.
  apply first_turn_selects_triage_only.
  - reflexivity.
  - simpl. lia.
  - reflexivity.
Defined.

(** The first turn of the scenario "Someone is unconscious and not
    breathing!": triage sets the assessment, and the reply is the triage
    text alone, without support text in front. *)
Lemma first_reply_is_triage_alone :
  let run := process_message_body Config quiet_env
               "Someone is unconscious and not breathing!" (new_session "s" 0 None) in
  urgency_level (snd run) = VStr "critical"
  /\ emergency_type (snd run) = VStr "medical"
  /\ critical_keywords (snd run) = [VStr "unconscious"; VStr "not breathing"]
  /\ match fst run with
     | Ok reply =>
         dict_get "agent_type" reply = Some (VStr "triage")
         /\ dict_get "message" reply =
              Some (VStr "This is a critical emergency. Emergency responders are being dispatched immediately. Is there any severe bleeding?")
     | Raise _ => False
     end.
Proof. vm_compute. repeat split; reflexivity. Qed.

(** ** Failures inside [process_message] *)


(** ** Merge priority and the support prepend *)

Lemma primary_agent_by_priority (rs : dict) : primary_agent rs = by_priority rs.
Proof.
  unfold by_priority. destruct rs as [|[k0 v0] r]; [reflexivity|].
  unfold primary_agent, primary_of, priority_order. cbn [find first_key].
  repeat match goal with
    | |- context [if ?b then _ else _] => destruct b
    end; reflexivity.
Qed.

Lemma prefix_append (a b : string) : String.prefix a (a +:+ b) = true.
Proof.
  induction a as [|c a IH]; simpl; [now destruct b|].
  destruct (ascii_dec c c); [exact IH|contradiction].
Qed.

(** C5.  On a non-empty mapping of outcomes (each with a text message, an
    agent type and a metadata dictionary) the merge returns; the primary is
    the first of dispatch, guidance, triage, empathy that is present; the
    reply has the primary's fields, and its message is the support message,
    one space, the primary's message when the primary is not the support
    agent and a support outcome is present, and the primary's message
    otherwise.  In particular, for {support, triage} the reply starts with
    the support text, and for {support, dispatch, guidance} dispatch is
    primary with the support text prepended. *)
Theorem merge_priority_and_prepend (rs : dict) :
  rs <> [] ->
  Forall (fun kv => wf_slot (snd kv)) rs ->
  exists final rs' pd,
    _combine_agent_responses rs = Ok (final, rs')
    /\ primary_agent rs = by_priority rs
    /\ dict_get (by_priority rs) rs = Some (VDict pd)
    /\ (forall k, k <> "message" -> k <> "metadata" -> dict_get k final = dict_get k pd)
    /\ dict_get "message" final =
         Some (VStr (if negb (String.eqb (by_priority rs) "empathy") && dict_has "empathy" rs
                     then slot_message rs "empathy" +:+ " "
                            +:+ slot_message rs (by_priority rs)
                     else slot_message rs (by_priority rs)))
    /\ (dict_has "empathy" rs = true -> dict_has "triage" rs = true ->
        dict_has "guidance" rs = false -> dict_has "dispatch" rs = false ->
        dict_get "message" final =
          Some (VStr (slot_message rs "empathy" +:+ " " +:+ slot_message rs "triage"))
        /\ String.prefix (slot_message rs "empathy") (message_of (VDict final)) = true)
    /\ (dict_has "empathy" rs = true -> dict_has "dispatch" rs = true ->
        dict_has "guidance" rs = true ->
        by_priority rs = "dispatch"
        /\ dict_get "message" final =
             Some (VStr (slot_message rs "empathy" +:+ " " +:+ slot_message rs "dispatch"))).
Proof.
  intros Hne Hwf.
  destruct (final_response_spec rs Hne Hwf) as (pd & Hpd & Hc & Hmsg & Hother & _).
  exists (final_response rs), (dict_set (primary_agent rs) (VDict (final_response rs)) rs), pd.
  rewrite <- primary_agent_by_priority.
  assert (Hm : dict_get "message" (final_response rs) =
               Some (VStr (if negb (String.eqb (primary_agent rs) "empathy")
                              && dict_has "empathy" rs
                           then slot_message rs "empathy" +:+ " "
                                  +:+ slot_message rs (primary_agent rs)
                           else slot_message rs (primary_agent rs))))
    by exact Hmsg.
  repeat split; auto.
  - rewrite Hm, primary_agent_by_priority. unfold by_priority.
    rewrite H, H0, H1, H2. reflexivity.
  - simpl. rewrite Hm, primary_agent_by_priority. unfold by_priority.
    rewrite H, H0, H1, H2. cbn [String.eqb Ascii.eqb Bool.eqb negb andb].
    apply prefix_append.
  - rewrite primary_agent_by_priority. unfold by_priority. now rewrite H0.
  - rewrite Hm, primary_agent_by_priority. unfold by_priority.
    rewrite H, H0. reflexivity.
Qed.

Lemma merge_priority_and_prepend_witness :
  let rs := [("empathy", VDict (to_dict "You are not alone." "empathy" 0.9 (VStr "unknown") [] ""));
             ("guidance", VDict (to_dict "Apply pressure." "guidance" 0.95 (VStr "high") [] ""));
             ("dispatch", VDict (to_dict "Help is coming." "dispatch" 0.95 (VStr "high") [] ""))] in
  exists final rs',
    _combine_agent_responses rs = Ok (final, rs')
    /\ dict_get "agent_type" final = Some (VStr "dispatch")
    /\ dict_get "message" final = Some (VStr "You are not alone. Help is coming.").
Proof.
  cbv zeta.
  match goal with |- exists final rs', _combine_agent_responses ?rs = _ /\ _ =>
    destruct (merge_priority_and_prepend rs) as (final & rs' & pd & Hc & _ & Hpd & Hk & Hm & _)
  end.
  - discriminate.
  - repeat constructor; apply to_dict_wf.
  - exists final, rs'. split; [exact Hc|]. split.
    + rewrite Hk by discriminate. vm_compute in Hpd. injection Hpd as <-. reflexivity.
    + rewrite Hm. reflexivity.
Defined.

(** ** Failing agents *)

(** Fan-in isolation: whatever the other agents do, the slot of a selected
    agent holds that agent's own response, or the error dictionary when its
    call raised, and agents that were not selected have no slot. *)
Lemma process_through_agents_get cfg ev message s active_agents :
  let rs := _process_through_agents cfg ev message s active_agents in
  let ctx := _build_context s message in
  dict_get "empathy" rs =
    (if Text.mem "empathy" active_agents
     then Some (slot "empathy" (EmpathyAgent.process_message (empathy_env ev) message ctx))
     else None)
  /\ dict_get "triage" rs =
       (if Text.mem "triage" active_agents
        then Some (slot "triage" (TriageAgent.process_message (triage_env ev) message ctx))
        else None)
  /\ dict_get "guidance" rs =
       (if Text.mem "guidance" active_agents
        then Some (slot "guidance" (GuidanceAgent.process_message (guidance_env ev) message ctx))
        else None)
  /\ dict_get "dispatch" rs =
       (if Text.mem "dispatch" active_agents
        then Some (slot "dispatch"
                     (DispatchAgent.process_message cfg (dispatch_env ev) message ctx))
        else None).
Proof.
  cbv zeta. rewrite process_through_agents_slots. cbv zeta.
  destruct (Text.mem "empathy" _), (Text.mem "triage" _), (Text.mem "guidance" _),
    (Text.mem "dispatch" _); repeat split; reflexivity.
Qed.

Lemma process_message_reply cfg ev sid message (store : sessions) s reply :
  store !! sid = Some s ->
  fst (process_message_body cfg ev message s) = Ok reply ->
  fst (process_message cfg ev sid message store) = Ok reply.
Proof.
  intros Hs Hb. unfold process_message. rewrite Hs.
  destruct (process_message_body cfg ev message s) as [[r|e] s']; simpl in *; congruence.
Qed.

(** The handler of [_process_through_agents] taken alone.  No agent of
    this repository lets an exception out of its call (see [agents_catch]);
    were one to escape the triage agent's call, the fan-in would put the
    error dictionary into its slot, [_update_session_state] would raise
    [KeyError] on the missing ["urgency_level"] before applying anything,
    and [process_message] would answer with the technical-difficulties
    reply. *)
Lemma escaping_triage_aborts_turn cfg ev sid message (store : sessions) s :
  store !! sid = Some s ->
  is_crisis cfg message = false ->
  turn_number s < max_conversation_turns cfg ->
  triage_fails ev message (count_trigger cfg message s) = true ->
  let s0 := count_trigger cfg message s in
  (exists e, dict_get "triage" (turn_responses cfg ev message s0) =
               Some (VDict (error_response "triage" e)))
  /\ process_message cfg ev sid message store =
       (Ok (technical_difficulties (KeyError "urgency_level")),
        <[sid := updating cfg ev message s0]> store)
  /\ empathy_score (updating cfg ev message s0) = empathy_score s
  /\ urgency_level (updating cfg ev message s0) = urgency_level s.
Proof.
  intros Hs Hc Hmax Hf s0. split; [|split; [|split]].
  - destruct (turn_responses_get cfg ev message s0) as (_ & Ht & _). cbv zeta in Ht.
    unfold triage_fails in Hf. fold s0 in Hf. apply andb_true_iff in Hf.
    destruct Hf as [Hsel Hesc]. rewrite Hsel in Ht.
    pose proof (triage_slot_shape (triage_env ev) message (turn_context ev message s0)) as Hsh.
    destruct (escapes (triage_env ev)) as [e|]; [|discriminate].
    exists e. now rewrite Ht, Hsh.
  - unfold process_message. rewrite Hs, body_pass by assumption.
    destruct (run_turn_spec cfg ev message s0) as (_ & H & _).
    fold s0. now rewrite (H Hf).
  - subst s0. destruct (count_trigger_cases cfg message s) as [-> | ->]; reflexivity.
  - subst s0. destruct (count_trigger_cases cfg message s) as [-> | ->]; reflexivity.
Qed.

(** ** The error dictionary as reply *)

Lemma body_textual cfg ev message s :
  Forall textual (critical_keywords s) ->
  Forall textual (critical_keywords (snd (process_message_body cfg ev message s))).
Proof.
  intros Hs. rewrite body_cases.
  assert (Hc : critical_keywords (count_trigger cfg message s) = critical_keywords s)
    by (destruct (count_trigger_cases cfg message s) as [-> | ->]; reflexivity).
  destruct (is_crisis cfg message); [exact Hs|].
  destruct (max_conversation_turns cfg <=? turn_number s)%nat;
    [cbn [snd];
     change (Forall textual (critical_keywords (count_trigger cfg message s)));
     now rewrite Hc|].
  destruct (run_turn_spec cfg ev message (count_trigger cfg message s)) as ([] & _).
  apply upd_keywords0.
  change (Forall textual (critical_keywords (count_trigger cfg message s))).
  now rewrite Hc.
Qed.

(** In every reachable session the critical keywords are strings. *)
Lemma reachable_keywords_textual cfg ops sid s :
  run cfg ops !! sid = Some s -> Forall textual (critical_keywords s).
Proof.
  apply (reachable_sessions (fun s => Forall textual (critical_keywords s)) cfg).
  - intros. constructor.
  - intros. now apply body_textual.
Qed.


(** * Further properties *)

(** ** The ledger of a session *)

Lemma updating_record cfg ev message s :
  exists m t,
    conversation_history (updating cfg ev message s) =
      conversation_history s ++
        [set_agent_type t
           (set_agent_response m
              (new_turn_record (set_turn_number (turn_number s + 1) s) ev message))].
Proof. unfold updating, before_update. cbv zeta. do 2 eexists. reflexivity. Qed.

Lemma count_trigger_frame cfg message s :
  turn_number (count_trigger cfg message s) = turn_number s
  /\ conversation_history (count_trigger cfg message s) = conversation_history s
  /\ agent_activations (count_trigger cfg message s) = agent_activations s
  /\ response_times (count_trigger cfg message s) = response_times s
  /\ critical_keywords (count_trigger cfg message s) = critical_keywords s
  /\ urgency_level (count_trigger cfg message s) = urgency_level s
  /\ emergency_type (count_trigger cfg message s) = emergency_type s
  /\ questions_asked (count_trigger cfg message s) = questions_asked s
  /\ triage_complete (count_trigger cfg message s) = triage_complete s
  /\ loop_breaker_active (count_trigger cfg message s) = loop_breaker_active s.
Proof.
  destruct (count_trigger_cases cfg message s) as [-> | ->]; repeat split.
Qed.

(** The ledger fields after a turn that passed the safety check, whether
    the turn returned or raised. *)
Lemma run_turn_ledger cfg ev message s :
  let s' := snd (run_turn cfg ev message s) in
  turn_number s' = turn_number s + 1
  /\ (exists r, conversation_history s' = conversation_history s ++ [r]
                /\ turn r = turn_number s + 1 /\ user_message r = message
                /\ answered r)
  /\ agent_activations s' =
       agent_activations s ++ [(turn_number s + 1, selected ev message s)]
  /\ response_times s' = response_times s ++ [processing_time ev]
  /\ safety_triggers s' = safety_triggers s
  /\ loop_breaker_active s' = loop_breaker_active s.
Proof.
  cbv zeta.
  destruct (run_turn_spec cfg ev message s) as ([] & _).
  destruct (updating_frame cfg ev message s)
    as (Ft & _ & Fa & Fr & _ & _ & _ & _ & _ & _ & _ & Fs & Fl). cbv zeta in *.
  destruct (updating_record cfg ev message s) as (m & t & Fh).
  split; [congruence|]. split.
  { eexists. split; [rewrite upd_history0; exact Fh|].
    repeat split; try reflexivity; eexists; reflexivity. }
  repeat split; congruence.
Qed.

Lemma body_ledger cfg ev message s :
  ledger_agrees s -> ledger_agrees (snd (process_message_body cfg ev message s)).
Proof.
  intros Hs. rewrite body_cases.
  destruct (count_trigger_frame cfg message s) as (Ct & Ch & Ca & Cr & _).
  assert (Hc : ledger_agrees (count_trigger cfg message s))
    by (unfold ledger_agrees; now rewrite Ct, Ch, Ca, Cr).
  destruct (is_crisis cfg message); [exact Hs|].
  destruct (max_conversation_turns cfg <=? turn_number s)%nat; [exact Hc|].
  destruct (run_turn_ledger cfg ev message (count_trigger cfg message s))
    as (Lt & (r & Lh & Lr & _) & La & Lx & _). cbv zeta in *.
  destruct Hc as (H1 & H2 & H3). unfold ledger_agrees.
  rewrite Lt, Lh, La, Lx, !map_app, length_app, H1, H2, H3. cbn [map fst List.length].
  rewrite Lr. replace (turn_number (count_trigger cfg message s) + 1)
    with (S (turn_number (count_trigger cfg message s))) by lia.
  rewrite seq_S. repeat split; f_equal; simpl; f_equal; lia.
Qed.

Lemma reachable_ledger cfg ops sid s :
  run cfg ops !! sid = Some s -> ledger_agrees s.
Proof.
  apply (reachable_sessions ledger_agrees cfg).
  - intros. repeat split.
  - intros. now apply body_ledger.
Qed.

(** X1.  In every session of every reachable store the turn counter, the
    history, the activation log and the response times agree: the history
    records and the activation entries are numbered 1, 2, ..., [turn_number],
    and there is one response time per counted turn, also for turns whose
    state update raised. *)
Theorem ledger_of_reachable_sessions cfg ops sid s :
  run cfg ops !! sid = Some s ->
  map turn (conversation_history s) = seq 1 (turn_number s)
  /\ map fst (agent_activations s) = seq 1 (turn_number s)
  /\ List.length (response_times s) = turn_number s.
Proof.
  apply (reachable_sessions ledger_agrees cfg).
  - intros sid' now caller_info. repeat split.
  - intros ev message s0 Hs0. now apply body_ledger.
Qed.

Lemma ledger_of_reachable_sessions_witness :
  match run Config sample_ops !! "s" with
  | Some s =>
      turn_number s = 2
      /\ map turn (conversation_history s) = seq 1 (turn_number s)
      /\ map fst (agent_activations s) = seq 1 (turn_number s)
      /\ List.length (response_times s) = turn_number s
  | None => False
  end.
Proof.
  destruct (run Config sample_ops !! "s") as [s|] eqn:E.
  - split.
    + vm_compute in E. injection E as <-. reflexivity.
    + exact (ledger_of_reachable_sessions _ _ _ _ E).
  - vm_compute in E. discriminate E.
Defined.

Lemma body_within_limit cfg ev message s :
  within_limit cfg s -> within_limit cfg (snd (process_message_body cfg ev message s)).
Proof.
  unfold within_limit. intros Hs. rewrite body_cases.
  destruct (count_trigger_frame cfg message s) as (Ct & _).
  destruct (is_crisis cfg message); [exact Hs|].
  destruct (max_conversation_turns cfg <=? turn_number s)%nat eqn:E.
  - cbn [snd]. change (turn_number (count_trigger cfg message s) <= max_conversation_turns cfg).
    now rewrite Ct.
  - apply Nat.leb_gt in E.
    destruct (run_turn_ledger cfg ev message (count_trigger cfg message s)) as (Lt & _).
    cbv zeta in Lt. rewrite Lt, Ct. lia.
Qed.

(** X2.  [turn_number], and with it the length of the history, never
    exceeds [max_conversation_turns] in any reachable session: the counter
    only advances on a call that found it below the limit. *)
Theorem turn_number_bounded cfg ops sid s :
  run cfg ops !! sid = Some s ->
  turn_number s <= max_conversation_turns cfg
  /\ List.length (conversation_history s) <= max_conversation_turns cfg.
Proof.
  intros H.
  assert (Hb : within_limit cfg s).
  { revert H. apply (reachable_sessions (within_limit cfg) cfg).
    - intros. unfold within_limit. simpl. lia.
    - intros. now apply body_within_limit. }
  split; [exact Hb|].
  destruct (reachable_ledger _ _ _ _ H) as (Hh & _).
  apply (f_equal (@List.length nat)) in Hh. rewrite length_map, length_seq in Hh.
  rewrite Hh. exact Hb.
Qed.

Lemma turn_number_bounded_witness :
  let ops := [StartSession "s" 0 None;
              ProcessTurn quiet_env "s" "hello";
              ProcessTurn quiet_env "s" "are you there";
              ProcessTurn quiet_env "s" "please answer"] in
  match run one_turn_config ops !! "s" with
  | Some s =>
      turn_number s = 1
      /\ turn_number s <= max_conversation_turns one_turn_config
      /\ List.length (conversation_history s) <= max_conversation_turns one_turn_config
  | None => False
  end.
Proof.
  cbv zeta. destruct (run one_turn_config _ !! "s") as [s|] eqn:E.
  - split.
    + vm_compute in E. injection E as <-. reflexivity.
    + exact (turn_number_bounded _ _ _ _ E).
  - vm_compute in E. discriminate E.
Defined.

Lemma body_history cfg ev message s :
  conversation_history (snd (process_message_body cfg ev message s)) = conversation_history s
  \/ exists r,
      conversation_history (snd (process_message_body cfg ev message s)) =
        conversation_history s ++ [r]
      /\ turn r = turn_number s + 1 /\ user_message r = message /\ answered r.
Proof.
  rewrite body_cases.
  destruct (count_trigger_frame cfg message s) as (Ct & Ch & _).
  destruct (is_crisis cfg message); [left; reflexivity|].
  destruct (max_conversation_turns cfg <=? turn_number s)%nat; [left; exact Ch|].
  right.
  destruct (run_turn_ledger cfg ev message (count_trigger cfg message s))
    as (_ & (r & Lh & Lr & Lm & La) & _). cbv zeta in *.
  exists r. rewrite Lh, Ch, <- Ct. auto.
Qed.

(** X3.  The history is append-only: a [process_message] call on a live
    session leaves the stored history as it was (call stopped at the safety
    check) or appends exactly one record, which carries the caller's message,
    the next turn index and both response fields. *)
Theorem history_append_only cfg ev sid message (store : sessions) s :
  store !! sid = Some s ->
  exists s',
    snd (process_message cfg ev sid message store) !! sid = Some s'
    /\ (conversation_history s' = conversation_history s
        \/ exists r, conversation_history s' = conversation_history s ++ [r]
                     /\ turn r = turn_number s + 1
                     /\ user_message r = message
                     /\ answered r).
Proof.
  intros Hs. rewrite (process_message_store _ _ _ _ _ _ Hs), lookup_insert_eq.
  eexists. split; [reflexivity|]. apply body_history.
Qed.

Lemma history_append_only_witness :
  let s := new_session "s" 0 None in
  exists s',
    snd (process_message Config quiet_env "s" "There is a fire" {["s" := s]}) !! "s" = Some s'
    /\ (conversation_history s' = conversation_history s
        \/ exists r, conversation_history s' = conversation_history s ++ [r]
                     /\ turn r = turn_number s + 1
                     /\ user_message r = "There is a fire"
                     /\ answered r).
Proof.
  apply (history_append_only Config quiet_env "s" "There is a fire"
           {["s" := new_session "s" 0 None]} (new_session "s" 0 None)).
  apply lookup_singleton_eq.
Defined.

Lemma crisis_is_triggered cfg message :
  is_crisis cfg message = true ->
  TriageAgent.nonempty (triggered_keywords cfg message) = true.
Proof.
  unfold is_crisis. destruct (triggered_keywords cfg message); [discriminate|reflexivity].
Qed.

Lemma body_safety_triggers cfg ev message s :
  safety_triggers (snd (process_message_body cfg ev message s)) =
    safety_triggers s
    + (if TriageAgent.nonempty (triggered_keywords cfg message) then 1 else 0).
Proof.
  rewrite body_cases.
  assert (Hc : safety_triggers (count_trigger cfg message s) =
               safety_triggers s
               + (if TriageAgent.nonempty (triggered_keywords cfg message) then 1 else 0)).
  { unfold count_trigger. destruct (TriageAgent.nonempty _); simpl; lia. }
  destruct (is_crisis cfg message) eqn:Ec.
  - now rewrite (crisis_is_triggered _ _ Ec).
  - destruct (max_conversation_turns cfg <=? turn_number s)%nat; [exact Hc|].
    destruct (run_turn_ledger cfg ev message (count_trigger cfg message s))
      as (_ & _ & _ & _ & Ls & _). cbv zeta in Ls. now rewrite Ls.
Qed.

(** X4.  Every [process_message] call on a live session adds exactly one
    to [safety_triggers] when the lowercased message contains at least one
    configured safety keyword (whatever the keyword, and whether or not the
    call goes on to run the agents), and leaves the counter unchanged
    otherwise. *)
Theorem safety_triggers_count cfg ev sid message (store : sessions) s :
  store !! sid = Some s ->
  exists s',
    snd (process_message cfg ev sid message store) !! sid = Some s'
    /\ safety_triggers s' =
         safety_triggers s
         + (if existsb (fun keyword => Text.contains (Text.lower keyword) (Text.lower message))
                 (safety_keywords cfg)
            then 1 else 0).
Proof.
  intros Hs. rewrite (process_message_store _ _ _ _ _ _ Hs), lookup_insert_eq.
  eexists. split; [reflexivity|]. rewrite body_safety_triggers. f_equal.
  unfold triggered_keywords. induction (safety_keywords cfg) as [|k l IH]; [reflexivity|].
  simpl. destruct (Text.contains (Text.lower k) (Text.lower message)); [reflexivity|exact IH].
Qed.

Lemma safety_triggers_count_witness :
  let s := new_session "s" 0 None in
  exists s',
    snd (process_message Config quiet_env "s" "He took an OVERDOSE of pills" {["s" := s]})
      !! "s" = Some s'
    /\ safety_triggers s' = 1 /\ turn_number s' = 1.
Proof.
  cbv zeta.
  destruct (safety_triggers_count Config quiet_env "s" "He took an OVERDOSE of pills"
              {["s" := new_session "s" 0 None]} (new_session "s" 0 None))
    as (s' & Hs' & Hc).
  - apply lookup_singleton_eq.
  - exists s'. split; [exact Hs'|]. split; [exact Hc|].
    vm_compute in Hs'. injection Hs' as <-. reflexivity.
Defined.

(** ** The loop breaker *)

Lemma body_at_limit cfg ev message s :
  max_conversation_turns cfg <= turn_number s ->
  fst (process_message_body cfg ev message s) = Raise (KeyError "blocked")
  /\ turn_number (snd (process_message_body cfg ev message s)) = turn_number s
  /\ conversation_history (snd (process_message_body cfg ev message s))
     = conversation_history s.
Proof.
  intros Hmax. rewrite body_cases.
  destruct (count_trigger_frame cfg message s) as (Ct & Ch & _).
  destruct (is_crisis cfg message); [repeat split|].
  replace (max_conversation_turns cfg <=? turn_number s)%nat with true
    by (symmetry; now apply Nat.leb_le).
  repeat split; assumption.
Qed.

(** X5.  The loop breaker is final: once [turn_number] has reached
    [max_conversation_turns], every later [process_message] call on the
    session, whatever the message, is answered with the technical-difficulties
    reply, and neither the turn number nor the history changes any more. *)
Theorem loop_breaker_is_final cfg calls sid (store : sessions) s :
  store !! sid = Some s ->
  max_conversation_turns cfg <= turn_number s ->
  Forall (fun reply => reply = Ok (technical_difficulties (KeyError "blocked")))
    (replies cfg calls sid store)
  /\ exists s', process_turns cfg calls sid store !! sid = Some s'
                /\ turn_number s' = turn_number s
                /\ conversation_history s' = conversation_history s.
Proof.
  revert store s. unfold process_turns.
  induction calls as [|[ev message] calls IH]; intros store s Hs Hmax; simpl.
  - split; [constructor|eauto].
  - destruct (body_at_limit cfg ev message s Hmax) as (Hr & Ht & Hh).
    assert (Hp : process_message cfg ev sid message store =
                 (Ok (technical_difficulties (KeyError "blocked")),
                  <[sid := snd (process_message_body cfg ev message s)]> store)).
    { unfold process_message. rewrite Hs.
      destruct (process_message_body cfg ev message s) as [[r|e] s'];
        simpl in Hr; [discriminate|]. injection Hr as ->. reflexivity. }
    rewrite Hp. cbn [fst snd].
    destruct (IH (<[sid := snd (process_message_body cfg ev message s)]> store)
                (snd (process_message_body cfg ev message s)))
      as (Hall & s' & Hs' & Ht' & Hh').
    + apply lookup_insert_eq.
    + now rewrite Ht.
    + split; [constructor; auto|]. exists s'. repeat split; congruence.
Qed.

Lemma loop_breaker_is_final_witness :
  let s1 := turns one_turn_config 1 "hello" (new_session "s" 0 None) in
  let calls := [(quiet_env, "hello"); (quiet_env, "Someone is unconscious!");
                (quiet_env, "I am thinking about suicide")] in
  turn_number s1 = 1
  /\ Forall (fun reply => reply = Ok (technical_difficulties (KeyError "blocked")))
       (replies one_turn_config calls "s" {["s" := s1]})
  /\ exists s', process_turns one_turn_config calls "s" {["s" := s1]} !! "s" = Some s'
                /\ turn_number s' = turn_number s1
                /\ conversation_history s' = conversation_history s1.
Proof.
  cbv zeta. split; [reflexivity|].
  apply loop_breaker_is_final.
  - apply lookup_singleton_eq.
  - apply Nat.leb_le. vm_compute. reflexivity.
Defined.

(** ** Sessions in the store *)

(** X6.  Sessions are independent: an operation on one session id leaves
    every other id of the store exactly as it was. *)
Theorem other_sessions_untouched cfg (store : sessions) o sid :
  target o <> sid ->
  step cfg store o !! sid = store !! sid.
Proof.
  intros Hne. destruct o as [sid' now info|ev sid' message|sid' now|sid' ended now];
    simpl in *.
  - now apply lookup_insert_ne.
  - unfold process_message. destruct (store !! sid') as [s0|]; [|reflexivity].
    destruct (process_message_body cfg ev message s0) as [[r|e] s']; simpl;
      now apply lookup_insert_ne.
  - reflexivity.
  - unfold end_session. destruct (store !! sid') as [s0|]; [|reflexivity].
    simpl. now apply lookup_delete_ne.
Qed.

Lemma other_sessions_untouched_witness :
  let store := run Config [StartSession "a" 0 None; StartSession "b" 0 None] in
  step Config store (ProcessTurn quiet_env "a" "There is a fire") !! "b" = store !! "b"
  /\ store !! "b" = Some (new_session "b" 0 None).
Proof.
  cbv zeta. split.
  - apply other_sessions_untouched. simpl. discriminate.
  - vm_compute. reflexivity.
Defined.

(** X7.  Starting a session under an id that is not in the store and
    ending it straight away gives back the store as it was; the summary
    reports no turns, the two clock readings' difference as total duration and
    an unknown urgency. *)
Theorem start_then_end cfg sid now caller_info ended later (store : sessions) :
  store !! sid = None ->
  exists summary,
    end_session sid ended later (snd (start_session sid now caller_info store)) =
      (Ok summary, store)
    /\ st_total_turns summary = Some 0
    /\ st_total_duration summary = Some (ended - now)%Q
    /\ st_urgency_level summary = VStr "unknown"
    /\ st_avg_response_time summary = 0%Q
    /\ step cfg (step cfg store (StartSession sid now caller_info))
         (EndSession sid ended later) = store.
Proof.
  intros Hs. unfold start_session, end_session, step, start_session, end_session.
  cbn [snd]. rewrite lookup_insert_eq. cbn [snd].
  rewrite delete_insert_eq, delete_id by exact Hs.
  eexists. repeat split.
Qed.

Lemma start_then_end_witness :
  exists summary,
    end_session "s" 7 8 (snd (start_session "s" 5 None (∅ : sessions))) = (Ok summary, ∅)
    /\ st_total_turns summary = Some 0
    /\ st_total_duration summary = Some (7 - 5)%Q
    /\ st_urgency_level summary = VStr "unknown"
    /\ st_avg_response_time summary = 0%Q
    /\ step Config (step Config ∅ (StartSession "s" 5 None)) (EndSession "s" 7 8) = ∅.
Proof.
  apply (start_then_end Config "s" 5 None 7 8 ∅). apply lookup_empty.
Defined.

(** ** The triage assessment *)

Lemma existsb_filter_false {A} (f p : A -> bool) (l : list A) :
  existsb f l = false -> existsb f (List.filter p l) = false.
Proof.
  induction l as [|x l IH]; simpl; [auto|].
  intros H. apply orb_false_iff in H as [Hx Hl].
  destruct (p x); simpl; [rewrite Hx|]; auto.
Qed.

Lemma nonempty_filter {A} (p : A -> bool) (l : list A) :
  TriageAgent.nonempty (List.filter p l) = existsb p l.
Proof.
  induction l as [|x l IH]; simpl; [reflexivity|].
  destruct (p x); simpl; auto.
Qed.

Lemma nonempty_app {A} (l l' : list A) :
  TriageAgent.nonempty (l ++ l') = TriageAgent.nonempty l || TriageAgent.nonempty l'.
Proof. destruct l; reflexivity. Qed.

Lemma nonempty_true {A} (l : list A) : TriageAgent.nonempty l = true <-> l <> [].
Proof. destruct l; simpl; split; congruence. Qed.

(** The assessment as a function of which keyword lists the lowercased
    message meets: the type of a high-priority match is always "safety",
    because no keyword of [high_priority] is one of the four words the type
    test looks for, and the "fire"/"smoke" fallback is never reached, both
    words being critical safety keywords. *)
Lemma assess_urgency_eq message :
  TriageAgent._assess_urgency message =
    let hit kws := Text.any_in kws (Text.lower message) in
    if hit TriageAgent.critical_medical then ("critical", "medical")
    else if hit TriageAgent.critical_safety then ("critical", "safety")
    else if hit TriageAgent.high_priority then ("high", "safety")
    else if hit TriageAgent.medium_priority then ("medium", "medical")
    else if hit ["police"; "crime"; "theft"] then ("medium", "police")
    else ("unknown", "unknown").
Proof.
  unfold TriageAgent._assess_urgency, TriageAgent.found_in, Text.any_in. cbv zeta.
  rewrite !nonempty_filter.
  destruct (existsb _ TriageAgent.critical_medical); [reflexivity|].
  destruct (existsb _ TriageAgent.critical_safety) eqn:Es; [reflexivity|].
  destruct (existsb _ TriageAgent.high_priority).
  { now rewrite existsb_filter_false by reflexivity. }
  destruct (existsb _ TriageAgent.medium_priority); [reflexivity|].
  destruct (existsb _ ["police"; "crime"; "theft"]); [reflexivity|].
  unfold TriageAgent.critical_safety in Es. cbn [existsb] in *.
  apply orb_false_iff in Es as [-> Es]. apply orb_false_iff in Es as [-> _].
  reflexivity.
Qed.

(** X8.  The triage assessment has six outcomes only: it never rates a
    message "low", never types it "fire" (a message about fire or smoke is
    typed "safety"), and types every "high" message "safety", also one
    about severe pain or difficulty breathing. *)
Theorem assess_urgency_outcomes message :
  In (TriageAgent._assess_urgency message)
    [("critical", "medical"); ("critical", "safety"); ("high", "safety");
     ("medium", "medical"); ("medium", "police"); ("unknown", "unknown")].
Proof.
  rewrite assess_urgency_eq. cbv zeta.
  repeat match goal with
    | |- context [if ?b then _ else _] => destruct b
    end; simpl; auto 7.
Qed.

Lemma extract_critical_keywords_eq message :
  TriageAgent._extract_critical_keywords message =
    TriageAgent.found_in TriageAgent.critical_medical (Text.lower message)
    ++ TriageAgent.found_in TriageAgent.critical_safety (Text.lower message)
    ++ TriageAgent.found_in TriageAgent.high_priority (Text.lower message).
Proof.
  unfold TriageAgent._extract_critical_keywords, extract_keywords, TriageAgent.found_in.
  cbv zeta. rewrite <- !List.filter_app. apply List.filter_ext_in.
  intros kw Hin.
  assert (Hl : forallb (fun kw => String.eqb (Text.lower kw) kw)
                 (TriageAgent.critical_medical ++ TriageAgent.critical_safety
                    ++ TriageAgent.high_priority) = true) by (vm_compute; reflexivity).
  rewrite forallb_forall in Hl. specialize (Hl kw Hin).
  apply String.eqb_eq in Hl. now rewrite Hl.
Qed.

(** X9.  The triage agent reports critical keywords for a message exactly
    when it rates the message "critical" or "high". *)
Theorem keywords_iff_critical_or_high message :
  TriageAgent._extract_critical_keywords message <> []
  <-> fst (TriageAgent._assess_urgency message) = "critical"
      \/ fst (TriageAgent._assess_urgency message) = "high".
Proof.
  rewrite <- nonempty_true, extract_critical_keywords_eq, !nonempty_app.
  rewrite assess_urgency_eq. cbv zeta.
  unfold TriageAgent.found_in, Text.any_in. rewrite !nonempty_filter.
  destruct (existsb _ TriageAgent.critical_medical); [simpl; tauto|].
  destruct (existsb _ TriageAgent.critical_safety); [simpl; tauto|].
  destruct (existsb _ TriageAgent.high_priority); [simpl; tauto|].
  cbn [orb]. split; [discriminate|].
  repeat match goal with
    | |- context [if ?b then _ else _] => destruct b
    end; simpl; intros [H|H]; discriminate H.
Qed.

(** ** The guidance agent *)

Lemma table_get_in (table : list (string * string)) k v :
  GuidanceAgent.table_get table k = Some v -> In v (map snd table).
Proof.
  induction table as [|[k' v'] r IH]; simpl; [discriminate|].
  destruct (String.eqb k k'); [intros [= ->]; auto|auto].
Qed.

Lemma first_mapped_in kws protocol :
  GuidanceAgent.first_mapped kws = Ok (Some protocol) ->
  In protocol (map snd GuidanceAgent.keyword_mapping).
Proof.
  induction kws as [|v r IH]; [discriminate|].
  cbn [GuidanceAgent.first_mapped]. destruct v as [| | | |s| |]; try discriminate.
  destruct (GuidanceAgent.table_get GuidanceAgent.keyword_mapping (Text.lower s)) eqn:E;
    [|exact IH].
  intros [= ->]. eapply table_get_in; eauto.
Qed.

Lemma determine_guidance_needed_in ctx needed :
  GuidanceAgent._determine_guidance_needed ctx = Ok needed ->
  In needed ("unknown" :: map fst GuidanceAgent.guidance_protocols).
Proof.
  unfold GuidanceAgent._determine_guidance_needed. cbv zeta.
  destruct (GuidanceAgent.first_mapped _) as [[p|]|e] eqn:E; simpl; try discriminate.
  - intros [= <-]. apply first_mapped_in in E. simpl in E. simpl. tauto.
  - destruct (_ && _); intros [= <-]; simpl; auto.
Qed.

(** X10.  A response of the guidance agent is its fallback or carries, for
    the protocol name it chose ("unknown" or one of the nine protocols), the
    flag [guidance_provided]; the flag is true only for "bleeding",
    "seizure", "burn" and "fracture", the four protocols whose text happens
    to contain their own name: for the other five (resuscitation, choking,
    chest pain, stroke, allergic reaction) the instructions are given and
    the flag is false. *)
Theorem guidance_provided_only_by_name ev message ctx d :
  GuidanceAgent.process_message ev message ctx = Ok d ->
  (exists e, d = GuidanceAgent.fallback e (created ev))
  \/ exists needed,
       In needed ("unknown" :: map fst GuidanceAgent.guidance_protocols)
       /\ d = to_dict (GuidanceAgent._generate_guidance_response needed ctx) "guidance" 0.95
                (ctx_urgency_level ctx)
                [("guidance_needed", VStr needed);
                 ("guidance_provided",
                  VBool (Text.mem needed ["bleeding"; "seizure"; "burn"; "fracture"]));
                 ("response_time", VFloat (response_time ev))]
                (created ev).
Proof.
  unfold GuidanceAgent.process_message.
  destruct (escapes ev); [discriminate|].
  destruct (fails_inside ev); [intros [= <-]; eauto|].
  destruct (GuidanceAgent._determine_guidance_needed ctx) as [needed|e] eqn:E;
    [|intros [= <-]; eauto].
  intros [= <-]. right. exists needed.
  pose proof (determine_guidance_needed_in _ _ E) as Hin. split; [exact Hin|].
  do 2 f_equal. do 2 f_equal. f_equal. f_equal.
  unfold GuidanceAgent._generate_guidance_response. cbv zeta.
  simpl in Hin. destruct Hin as [<-|Hin].
  { change (GuidanceAgent.table_get GuidanceAgent.guidance_protocols "unknown")
      with (@None string).
    destruct (is_str (ctx_urgency_level ctx) "critical");
      [|destruct (is_str (ctx_urgency_level ctx) "high")]; vm_compute; reflexivity. }
  repeat (destruct Hin as [<-|Hin]; [vm_compute; reflexivity|]).
  destruct Hin.
Qed.

Lemma guidance_provided_only_by_name_witness :
  let ctx := _build_context
               (set_critical_keywords [VStr "choking"] (new_session "s" 0 None))
               "he is choking" in
  exists d,
    GuidanceAgent.process_message quiet_call "he is choking" ctx = Ok d
    /\ field "metadata" d =
         VDict [("guidance_needed", VStr "choking");
                ("guidance_provided", VBool false);
                ("response_time", VFloat 0)].
Proof.
  cbv zeta. eexists. split; [reflexivity|].
  destruct (guidance_provided_only_by_name quiet_call "he is choking"
              (_build_context
                 (set_critical_keywords [VStr "choking"] (new_session "s" 0 None))
                 "he is choking") _ eq_refl) as [[e He]|(needed & _ & Hd)].
  - vm_compute in He. discriminate He.
  - vm_compute in Hd. injection Hd as _ <- _. reflexivity.
Defined.

(** ** The dispatch agent *)

Lemma prepare_dispatch_data_ok ctx :
  (exists data, DispatchAgent._prepare_dispatch_data ctx = Ok data)
  <-> hashable (ctx_urgency_level ctx) = true /\ hashable (ctx_emergency_type ctx) = true.
Proof.
  unfold DispatchAgent._prepare_dispatch_data, DispatchAgent.mapping_get. cbv zeta.
  destruct (hashable (ctx_urgency_level ctx)); cbn [res_bind].
  - destruct (hashable (ctx_emergency_type ctx)); cbn [res_bind].
    + split; eauto.
    + split; [intros [data H]; discriminate H|intros [_ H]; discriminate H].
  - split; [intros [data H]; discriminate H|intros [H _]; discriminate H].
Qed.

(** X11.  The dispatch agent reports a successful dispatch exactly when
    its call meets no exception, the context is ready to dispatch, urgency
    level and emergency type can be used as dictionary keys, real dispatch
    is disabled and the mock dispatch does not fail.  In particular, with
    [REAL_DISPATCH_ENABLED] set no dispatch ever succeeds. *)
Theorem dispatch_succeeds_iff cfg ev message ctx :
  (exists d md,
      DispatchAgent.process_message cfg ev message ctx = Ok d
      /\ dict_get "metadata" d = Some (VDict md)
      /\ get_truthy "dispatch_successful" md = true)
  <-> escapes (DispatchAgent.call ev) = None
      /\ fails_inside (DispatchAgent.call ev) = None
      /\ DispatchAgent._ready_to_dispatch ctx = true
      /\ hashable (ctx_urgency_level ctx) = true
      /\ hashable (ctx_emergency_type ctx) = true
      /\ real_dispatch_enabled cfg = false
      /\ DispatchAgent.mock_fails ev = None.
Proof.
  pose proof (prepare_dispatch_data_ok ctx) as Hp.
  unfold DispatchAgent.process_message, DispatchAgent._send_to_dispatch,
    DispatchAgent._mock_dispatch, DispatchAgent.fallback.
  destruct (escapes (DispatchAgent.call ev)) as [e|].
  { split; [intros (d & md & H & _); discriminate H|intros (H & _); discriminate H]. }
  destruct (fails_inside (DispatchAgent.call ev)) as [e|].
  { split; [|intros (_ & H & _); discriminate H].
    intros (d & md & [= <-] & [= <-] & H). discriminate H. }
  destruct (DispatchAgent._ready_to_dispatch ctx); cbn [negb].
  2: { split; [|intros (_ & _ & H & _); discriminate H].
       intros (d & md & [= <-] & [= <-] & H). discriminate H. }
  destruct (DispatchAgent._prepare_dispatch_data ctx) as [data|e].
  2: { split.
       - intros (d & md & [= <-] & [= <-] & H). discriminate H.
       - intros (_ & _ & _ & H1 & H2 & _).
         destruct Hp as [_ Hp]. destruct (Hp (conj H1 H2)) as [data H]. discriminate H. }
  destruct Hp as [Hp _]. destruct (Hp (ex_intro _ data eq_refl)) as [H1 H2].
  destruct (real_dispatch_enabled cfg).
  { split; [|intros (_ & _ & _ & _ & _ & H & _); discriminate H].
    intros (d & md & [= <-] & [= <-] & H). discriminate H. }
  destruct (DispatchAgent.mock_fails ev) as [e|].
  { split; [|intros (_ & _ & _ & _ & _ & _ & H); discriminate H].
    intros (d & md & [= <-] & [= <-] & H). discriminate H. }
  split; [tauto|]. intros _. do 2 eexists. repeat split.
Qed.

Lemma pad4_shape n :
  (0 <= n < 10000)%Z ->
  String.length (DispatchAgent.pad4 n) = 4 /\ decimal (DispatchAgent.pad4 n) = true.
Proof.
  intros H.
  assert (Hall : forallb (fun k => Nat.eqb (String.length (DispatchAgent.pad4 (Z.of_nat k))) 4
                                   && decimal (DispatchAgent.pad4 (Z.of_nat k)))
                   (seq 0 (100 * 100)) = true) by (vm_compute; reflexivity).
  rewrite forallb_forall in Hall. specialize (Hall (Z.to_nat n)).
  rewrite Z2Nat.id in Hall by lia.
  apply andb_true_iff in Hall as [Hl Hd]; [|apply in_seq; lia].
  apply Nat.eqb_eq in Hl. auto.
Qed.

(** X12.  Whatever the hash of the session id, negative ones included, a
    mock dispatch that does not fail returns the service and priority of the
    dispatch data and a reference id of the form EMG-<date>-<four decimal
    digits>. *)
Theorem mock_reference_id ev data :
  DispatchAgent.mock_fails ev = None ->
  exists digits,
    DispatchAgent._mock_dispatch ev data =
      DispatchAgent.Dispatched (DispatchAgent.service_needed data)
        (DispatchAgent.priority data)
        ("EMG-" +:+ DispatchAgent.today ev +:+ "-" +:+ digits)
    /\ String.length digits = 4
    /\ decimal digits = true.
Proof.
  intros H. unfold DispatchAgent._mock_dispatch. rewrite H.
  eexists. split; [reflexivity|]. apply pad4_shape.
  apply Z.mod_pos_bound. lia.
Qed.

Lemma mock_reference_id_witness :
  let ev := {| DispatchAgent.call := quiet_call; DispatchAgent.today := "20240101";
               DispatchAgent.id_hash := (-7)%Z; DispatchAgent.mock_fails := None |} in
  let data := {| DispatchAgent.emergency_id := "s";
                 DispatchAgent.dd_emergency_type := VStr "medical";
                 DispatchAgent.dd_urgency_level := VStr "critical";
                 DispatchAgent.priority := "Priority 1";
                 DispatchAgent.service_needed := "EMS";
                 DispatchAgent.dd_address := VNone;
                 DispatchAgent.description := "" |} in
  DispatchAgent._mock_dispatch ev data =
    DispatchAgent.Dispatched "EMS" "Priority 1" "EMG-20240101-9993"
  /\ exists digits,
       DispatchAgent._mock_dispatch ev data =
         DispatchAgent.Dispatched (DispatchAgent.service_needed data)
           (DispatchAgent.priority data)
           ("EMG-" +:+ DispatchAgent.today ev +:+ "-" +:+ digits)
       /\ String.length digits = 4
       /\ decimal digits = true.
Proof.
  cbv zeta. split; [vm_compute; reflexivity|].
  apply mock_reference_id. reflexivity.
Defined.

(** ** The empathy agent *)

(** X13.  The empathy score lies above 0.38 and at most at 0.9 for every
    sentiment reading, so it is never zero: the orchestrator, which stores
    the score only if it is truthy, stores every score the agent
    computes. *)
Theorem empathy_score_bounds p :
  (0.38 < EmpathyAgent._calculate_empathy_score p)%Q
  /\ (EmpathyAgent._calculate_empathy_score p <= 0.9)%Q
  /\ truthy (VFloat (EmpathyAgent._calculate_empathy_score p)) = true.
Proof.
  assert (H : (0.38 < EmpathyAgent._calculate_empathy_score p)%Q
              /\ (EmpathyAgent._calculate_empathy_score p <= 0.9)%Q).
  { unfold EmpathyAgent._calculate_empathy_score, Qltb. cbv zeta.
    destruct (Qle_bool (EmpathyAgent.p_neg p) 0.5) eqn:E1; cbn [negb].
    - apply Qle_bool_iff in E1.
      destruct (Qle_bool (EmpathyAgent.p_neg p) 0.2) eqn:E2; cbn [negb].
      + split; lra.
      + assert (H : ~ (EmpathyAgent.p_neg p <= 0.2)%Q)
          by (rewrite <- Qle_bool_iff; congruence).
        split; [apply Q.min_glb_lt; lra|].
        eapply Qle_trans; [apply Q.le_min_l|lra].
    - assert (H : ~ (EmpathyAgent.p_neg p <= 0.5)%Q)
        by (rewrite <- Qle_bool_iff; congruence).
      split; [apply Q.min_glb_lt; lra|apply Q.le_min_l]. }
  split; [tauto|]. split; [tauto|].
  cbn [truthy]. destruct (Qeq_bool _ 0) eqn:E; [|reflexivity].
  apply Qeq_bool_iff in E. destruct H as [H _]. rewrite E in H. lra.
Qed.

(** ** How a turn changes the assessment *)

Lemma update_from_triage_exact rs m c u t kws tc rt qa ts s :
  dict_get "triage" rs =
    Some (VDict (to_dict m "triage" c (VStr u)
                   [("emergency_type", VStr t);
                    ("critical_keywords", VList (map VStr kws));
                    ("triage_complete", VBool tc);
                    ("response_time", rt);
                    ("questions_asked", qa)] ts)) ->
  Forall textual (critical_keywords s) ->
  assessment (snd (update_from_triage rs s)) =
    ((if String.eqb u "unknown" then urgency_level s else VStr u),
     (if String.eqb t "" then emergency_type s else VStr t),
     match kws with
     | [] => critical_keywords s
     | _ => dedup_values (critical_keywords s ++ map VStr kws)
     end).
Proof.
  intros H Ht. unfold update_from_triage, bind, lift, subscript. rewrite H.
  cbn [receiver to_dict dict_get metadata_of String.eqb Ascii.eqb Bool.eqb differs_from
         is_str get_truthy truthy].
  unfold modify, ret, gets.
  destruct (String.eqb u "unknown") eqn:Eu; cbn [negb fst snd];
    destruct (String.eqb t "") eqn:Et; cbn [negb fst snd];
    destruct kws as [|kw kws]; cbn [map iterate fst snd];
    destruct tc; cbn [fst snd]; try reflexivity.
  all: cbn [critical_keywords set_critical_keywords set_urgency_level set_emergency_type].
  all: replace (forallb hashable (critical_keywords s ++ VStr kw :: map VStr kws)) with true
         by (symmetry; apply textual_hashable; apply Forall_app_2;
             [exact Ht | apply (map_VStr_textual (kw :: kws))]).
  all: reflexivity.
Qed.

Lemma update_from_dispatch_assessment rs s :
  assessment (snd (update_from_dispatch rs s)) = assessment s.
Proof.
  unfold update_from_dispatch, bind, lift, modify, ret.
  destruct (subscript rs "dispatch") as [v|e]; [|reflexivity].
  destruct (receiver v) as [d|e]; [|reflexivity].
  destruct (receiver (metadata_of d)) as [md|e]; [|reflexivity].
  destruct (get_truthy "dispatch_attempted" md), (get_truthy "dispatch_successful" md);
    reflexivity.
Qed.

Lemma update_from_empathy_assessment rs s :
  assessment (snd (update_from_empathy rs s)) = assessment s.
Proof.
  unfold update_from_empathy, bind, lift, modify, ret.
  destruct (subscript rs "empathy") as [v|e]; [|reflexivity].
  destruct (receiver v) as [d|e]; [|reflexivity].
  destruct (receiver (metadata_of d)) as [md|e]; [|reflexivity].
  destruct (get_truthy "empathy_score" md); [|reflexivity].
  destruct (subscript md "empathy_score"); reflexivity.
Qed.

Lemma assess_urgency_type_nonempty message :
  String.eqb (snd (TriageAgent._assess_urgency message)) "" = false.
Proof.
  rewrite assess_urgency_eq. cbv zeta.
  repeat match goal with
    | |- context [if ?b then _ else _] => destruct b
    end; reflexivity.
Qed.

Lemma triage_slot_exact ev message ctx :
  escapes ev = None -> fails_inside ev = None ->
  exists m c rt qa,
    slot "triage" (TriageAgent.process_message ev message ctx) =
      VDict (to_dict m "triage" c
               (VStr (fst (TriageAgent._assess_urgency message)))
               [("emergency_type", VStr (snd (TriageAgent._assess_urgency message)));
                ("critical_keywords",
                 VList (map VStr (TriageAgent._extract_critical_keywords message)));
                ("triage_complete", VBool (TriageAgent._is_triage_complete ctx));
                ("response_time", rt);
                ("questions_asked", qa)]
               (created ev)).
Proof.
  intros H1 H2. unfold slot, TriageAgent.process_message. rewrite H1, H2.
  destruct (TriageAgent._assess_urgency message). simpl. eauto 10.
Qed.

(** The assessment after the triage part of the state update of a turn. *)
Lemma triage_part_assessment cfg ev message s0 s :
  Forall textual (critical_keywords s) ->
  let rs := turn_responses cfg ev message s0 in
  let c := if dict_has "triage" rs then update_from_triage rs else ret tt in
  assessment (snd (c s)) =
    if Text.mem "triage" (selected ev message s0) && triage_assesses ev
    then reassessed message s
    else assessment s.
Proof.
  intros Hk. cbv zeta.
  destruct (turn_responses_get cfg ev message s0) as (_ & Ht & _ & _). cbv zeta in Ht.
  unfold dict_has. rewrite Ht.
  destruct (Text.mem "triage" (selected ev message s0)); cbn [andb]; [|reflexivity].
  unfold triage_assesses.
  pose proof (triage_slot_shape (triage_env ev) message (turn_context ev message s0)) as Hs.
  destruct (escapes (triage_env ev)) as [e|] eqn:Ee.
  - rewrite Hs in Ht. now rewrite (update_from_triage_error _ e s Ht).
  - destruct (fails_inside (triage_env ev)) as [e|] eqn:Ef.
    + assert (Ht' : dict_get "triage" (turn_responses cfg ev message s0) =
                      Some (VDict (TriageAgent.fallback e (created (triage_env ev))))).
      { rewrite Ht. unfold slot, TriageAgent.process_message. now rewrite Ee, Ef. }
      now rewrite (update_from_triage_fallback _ _ _ s Ht').
    + destruct (triage_slot_exact (triage_env ev) message (turn_context ev message s0) Ee Ef)
        as (m & c & rt & qa & Hx).
      rewrite Hx in Ht.
      rewrite (update_from_triage_exact _ _ _ _ _ _ _ _ _ _ s Ht Hk).
      rewrite assess_urgency_type_nonempty. unfold reassessed.
      destruct (TriageAgent._extract_critical_keywords message); reflexivity.
Qed.

Lemma update_assessment cfg ev message s0 s :
  Forall textual (critical_keywords s) ->
  assessment (snd (_update_session_state (turn_responses cfg ev message s0) s)) =
    if Text.mem "triage" (selected ev message s0) && triage_assesses ev
    then reassessed message s
    else assessment s.
Proof.
  intros Hk. rewrite <- (triage_part_assessment cfg ev message s0 s Hk). cbv zeta.
  unfold _update_session_state, bind.
  destruct ((if dict_has "triage" (turn_responses cfg ev message s0)
             then update_from_triage (turn_responses cfg ev message s0) else ret tt) s)
    as [[[]|e] s1]; [|reflexivity].
  cbn [snd].
  destruct (dict_has "dispatch" (turn_responses cfg ev message s0)).
  - pose proof (update_from_dispatch_assessment (turn_responses cfg ev message s0) s1) as Hd.
    destruct (update_from_dispatch (turn_responses cfg ev message s0) s1) as [[[]|e] s2];
      cbn [snd] in *; [|exact Hd].
    rewrite <- Hd.
    destruct (dict_has "empathy" (turn_responses cfg ev message s0));
      [apply update_from_empathy_assessment|reflexivity].
  - unfold ret at 1.
    destruct (dict_has "empathy" (turn_responses cfg ev message s0));
      [apply update_from_empathy_assessment|reflexivity].
Qed.

Lemma selected_count_trigger cfg ev message s :
  selected ev message (count_trigger cfg message s) = selected ev message s.
Proof. destruct (count_trigger_cases cfg message s) as [-> | ->]; reflexivity. Qed.

Lemma run_turn_assessment cfg ev message s :
  Forall textual (critical_keywords s) ->
  assessment (snd (run_turn cfg ev message s)) =
    if Text.mem "triage" (selected ev message s) && triage_assesses ev
    then reassessed message s
    else assessment s.
Proof.
  intros Hk. rewrite run_turn_eq. cbv zeta.
  fold (updating cfg ev message s).
  assert (Hsnd : forall final u, snd (conclude final u) = snd u)
    by (intros final [[[]|e] s']; reflexivity).
  rewrite Hsnd.
  destruct (updating_frame cfg ev message s)
    as (_ & _ & _ & _ & _ & Fu & Fe & Fk & _). cbv zeta in *.
  rewrite update_assessment by (now rewrite Fk).
  unfold reassessed, assessment. now rewrite Fu, Fe, Fk.
Qed.

(** The assessment after the [try] body of [process_message]. *)
Lemma body_assessment cfg ev message s :
  Forall textual (critical_keywords s) ->
  assessment (snd (process_message_body cfg ev message s)) =
    if negb (is_crisis cfg message)
       && (turn_number s <? max_conversation_turns cfg)%nat
       && Text.mem "triage" (selected ev message s) && triage_assesses ev
    then reassessed message s
    else assessment s.
Proof.
  intros Hk. rewrite body_cases.
  destruct (count_trigger_frame cfg message s) as (_ & _ & _ & _ & Ck & Cu & Ce & _).
  destruct (is_crisis cfg message); [reflexivity|]. cbn [negb andb].
  rewrite Nat.ltb_antisym.
  destruct (max_conversation_turns cfg <=? turn_number s)%nat; cbn [negb andb snd].
  - unfold assessment.
    change (urgency_level (set_loop_breaker_active true (count_trigger cfg message s)))
      with (urgency_level (count_trigger cfg message s)).
    change (emergency_type (set_loop_breaker_active true (count_trigger cfg message s)))
      with (emergency_type (count_trigger cfg message s)).
    change (critical_keywords (set_loop_breaker_active true (count_trigger cfg message s)))
      with (critical_keywords (count_trigger cfg message s)).
    now rewrite Cu, Ce, Ck.
  - rewrite run_turn_assessment by (now rewrite Ck).
    rewrite selected_count_trigger.
    unfold reassessed, assessment. now rewrite Cu, Ce, Ck.
Qed.

Lemma dedup_values_in (l : list value) v :
  Forall textual l -> In v (dedup_values l) <-> In v l.
Proof.
  induction l as [|x l IH]; [reflexivity|].
  intros Hl. inversion Hl as [|? ? [k ->] Hl']; subst. cbn [dedup_values].
  specialize (IH Hl'). simpl. rewrite filter_In, IH.
  split; [tauto|]. intros [H|H]; [auto|].
  destruct (hashable_eqb (VStr k) v) eqn:E; [|right; auto].
  left. rewrite List.Forall_forall in Hl'. destruct (Hl' v H) as [k' ->].
  simpl in E. apply String.eqb_eq in E. congruence.
Qed.

Lemma dedup_values_nodup (l : list value) :
  Forall textual l -> List.NoDup (dedup_values l).
Proof.
  induction l as [|x l IH]; [constructor|].
  intros Hl. inversion Hl as [|? ? [k ->] Hl']; subst. cbn [dedup_values].
  constructor.
  - rewrite filter_In. intros [_ H]. unfold hashable_eqb in H. cbn [as_number] in H.
    rewrite String.eqb_refl in H. discriminate H.
  - apply List.NoDup_filter. auto.
Qed.

Lemma reachable_untriaged cfg ops sid s :
  run cfg ops !! sid = Some s -> untriaged s.
Proof.
  apply (reachable_sessions untriaged cfg).
  - intros. repeat split.
  - intros. now apply body_untriaged.
Qed.

(** A session that never completed triage has the triage agent selected
    in every turn. *)
Lemma untriaged_selects_triage ev message s :
  untriaged s -> Text.mem "triage" (selected ev message s) = true.
Proof.
  intros Hs.
  assert (Hu : untriaged (turn_opened ev message s)) by exact Hs.
  destruct (untriaged_blocks_agents _ message Hu) as [Ht _].
  unfold selected, select_agents. cbv zeta.
  unfold TriageAgent.should_activate. rewrite Ht. cbn [negb].
  destruct (EmpathyAgent.should_activate _), (GuidanceAgent.should_activate _),
    (DispatchAgent.should_activate _); reflexivity.
Qed.

(** X14.  A turn of a reachable session that passes the safety check and
    in which the triage agent answers takes the agent's assessment over as
    follows: the urgency level is replaced unless the message is rated
    "unknown"; the emergency type is always replaced, also by "unknown";
    the critical keywords of the message are added to those of the
    session, none is lost. *)
Theorem turn_reassesses cfg ops ev sid message s :
  run cfg ops !! sid = Some s ->
  is_crisis cfg message = false ->
  turn_number s < max_conversation_turns cfg ->
  triage_assesses ev = true ->
  exists s',
    snd (process_message cfg ev sid message (run cfg ops)) !! sid = Some s'
    /\ urgency_level s' =
         (if String.eqb (fst (TriageAgent._assess_urgency message)) "unknown"
          then urgency_level s
          else VStr (fst (TriageAgent._assess_urgency message)))
    /\ emergency_type s' = VStr (snd (TriageAgent._assess_urgency message))
    /\ forall v, In v (critical_keywords s')
                 <-> In v (critical_keywords s)
                     \/ exists k, v = VStr k
                                  /\ In k (TriageAgent._extract_critical_keywords message).
Proof.
  intros Hs Hc Hn Ha.
  rewrite (process_message_store _ _ _ _ _ _ Hs), lookup_insert_eq.
  eexists. split; [reflexivity|].
  pose proof (reachable_keywords_textual _ _ _ _ Hs) as Hk.
  pose proof (body_assessment cfg ev message s Hk) as Hb.
  rewrite Hc, Ha, (untriaged_selects_triage ev message s (reachable_untriaged _ _ _ _ Hs))
    in Hb.
  replace (turn_number s <? max_conversation_turns cfg)%nat with true in Hb
    by (symmetry; now apply Nat.ltb_lt).
  cbn [negb andb] in Hb. unfold assessment, reassessed in Hb.
  injection Hb as Hu He Hkw. split; [exact Hu|]. split; [exact He|].
  intros v. rewrite Hkw.
  destruct (TriageAgent._extract_critical_keywords message) as [|kw kws] eqn:Ex.
  - split; [auto|]. intros [H|(k & _ & [])]. exact H.
  - rewrite dedup_values_in
      by (apply Forall_app_2; [exact Hk|apply (map_VStr_textual (kw :: kws))]).
    rewrite in_app_iff. change (VStr kw :: map VStr kws) with (map VStr (kw :: kws)).
    rewrite in_map_iff.
    split; (intros [H|(k & H1 & H2)]; [left; exact H|right; exists k; auto]).
Qed.

Lemma turn_reassesses_witness :
  exists s',
    snd (process_message Config quiet_env "s" "ok thank you" (run Config thanks_ops))
      !! "s" = Some s'
    /\ urgency_level s' = VStr "critical"
    /\ emergency_type s' = VStr "unknown"
    /\ critical_keywords s' = [VStr "unconscious"].
Proof.
  assert (Hs : exists s, run Config thanks_ops !! "s" = Some s
                         /\ urgency_level s = VStr "critical"
                         /\ emergency_type s = VStr "medical")
    by (eexists; split; [vm_compute; reflexivity|split; reflexivity]).
  destruct Hs as (s & Hs & Hu & He).
  destruct (turn_reassesses Config thanks_ops quiet_env "s" "ok thank you" s Hs)
    as (s' & Hs' & Hu' & He' & _).
  - reflexivity.
  - apply Nat.ltb_lt. vm_compute in Hs. injection Hs as <-. reflexivity.
  - reflexivity.
  - exists s'. split; [exact Hs'|]. split; [rewrite Hu'; exact Hu|]. split; [exact He'|].
    vm_compute in Hs'. injection Hs' as <-. reflexivity.
Defined.

Lemma body_known_levels cfg ev message s :
  Forall textual (critical_keywords s) ->
  known_levels s -> known_levels (snd (process_message_body cfg ev message s)).
Proof.
  intros Hk [Hu He].
  pose proof (body_assessment cfg ev message s Hk) as Hb.
  destruct (_ && _) in Hb; unfold assessment, reassessed in Hb;
    injection Hb as Hu' He' _; unfold known_levels; rewrite Hu', He'; [|auto].
  rewrite assess_urgency_eq. cbv zeta.
  repeat match goal with
    | |- context [if ?b then _ else _] => destruct b
    end; cbn [fst snd String.eqb Ascii.eqb Bool.eqb]; split; simpl; auto 6.
Qed.

(** X15.  In every session of every reachable store the urgency level is
    "unknown", "critical", "high" or "medium" and the emergency type is
    "unknown", "medical", "safety" or "police": no session is ever rated
    "low" or typed "fire". *)
Theorem levels_of_reachable_sessions cfg ops sid s :
  run cfg ops !! sid = Some s ->
  In (urgency_level s) (map VStr ["unknown"; "critical"; "high"; "medium"])
  /\ In (emergency_type s) (map VStr ["unknown"; "medical"; "safety"; "police"]).
Proof.
  intros Hs.
  apply (reachable_sessions
           (fun s => Forall textual (critical_keywords s) /\ known_levels s) cfg)
    with (ops := ops) (sid := sid); [| |exact Hs].
  - intros. split; [constructor|]. split; simpl; auto.
  - intros ev message s0 [Hk Hl]. split; [now apply body_textual|].
    now apply body_known_levels.
Qed.

Lemma levels_of_reachable_sessions_witness :
  match run Config [StartSession "s" 0 None;
                    ProcessTurn quiet_env "s" "There is a fire in my kitchen"] !! "s" with
  | Some s =>
      emergency_type s = VStr "safety"
      /\ In (urgency_level s) (map VStr ["unknown"; "critical"; "high"; "medium"])
      /\ In (emergency_type s) (map VStr ["unknown"; "medical"; "safety"; "police"])
  | None => False
  end.
Proof.
  destruct (run Config _ !! "s") as [s|] eqn:E.
  - split.
    + vm_compute in E. injection E as <-. reflexivity.
    + exact (levels_of_reachable_sessions _ _ _ _ E).
  - vm_compute in E. discriminate E.
Defined.

Lemma extract_critical_keywords_in message k :
  In k (TriageAgent._extract_critical_keywords message) ->
  In k (TriageAgent.critical_medical ++ TriageAgent.critical_safety
          ++ TriageAgent.high_priority).
Proof.
  unfold TriageAgent._extract_critical_keywords, extract_keywords. cbv zeta.
  rewrite filter_In. tauto.
Qed.

Lemma body_keywords cfg ev message s :
  List.NoDup (critical_keywords s) /\ Forall triage_keyword (critical_keywords s) ->
  List.NoDup (critical_keywords (snd (process_message_body cfg ev message s)))
  /\ Forall triage_keyword (critical_keywords (snd (process_message_body cfg ev message s))).
Proof.
  intros [Hn Hf].
  assert (Hk : Forall textual (critical_keywords s)).
  { eapply List.Forall_impl; [|exact Hf]. intros v (k & -> & _). now exists k. }
  pose proof (body_assessment cfg ev message s Hk) as Hb.
  destruct (_ && _) in Hb; unfold assessment, reassessed in Hb;
    injection Hb as _ _ Hkw; rewrite Hkw; [|auto].
  destruct (TriageAgent._extract_critical_keywords message) as [|kw kws] eqn:Ex; [auto|].
  assert (Ht : Forall textual (critical_keywords s ++ map VStr (kw :: kws)))
    by (apply Forall_app_2; [exact Hk|apply map_VStr_textual]).
  split; [now apply dedup_values_nodup|].
  apply List.Forall_forall. intros v Hv.
  apply (proj1 (dedup_values_in _ v Ht)) in Hv.
  apply in_app_iff in Hv as [Hv|Hv].
  - rewrite List.Forall_forall in Hf. auto.
  - apply in_map_iff in Hv as (k & <- & Hin). exists k. split; [reflexivity|].
    apply (extract_critical_keywords_in message). now rewrite Ex.
Qed.

(** X16.  In every session of every reachable store the critical keywords
    are pairwise distinct strings, each one a keyword of the triage agent's
    critical-medical, critical-safety or high-priority list. *)
Theorem keywords_of_reachable_sessions cfg ops sid s :
  run cfg ops !! sid = Some s ->
  List.NoDup (critical_keywords s)
  /\ Forall (fun v => exists k, v = VStr k
                                /\ In k (TriageAgent.critical_medical
                                           ++ TriageAgent.critical_safety
                                           ++ TriageAgent.high_priority))
       (critical_keywords s).
Proof.
  apply (reachable_sessions
           (fun s => List.NoDup (critical_keywords s)
                     /\ Forall triage_keyword (critical_keywords s)) cfg).
  - intros. split; constructor.
  - intros. now apply body_keywords.
Qed.

Lemma keywords_of_reachable_sessions_witness :
  match run Config [StartSession "s" 0 None;
                    ProcessTurn quiet_env "s" "He is unconscious, there is smoke";
                    ProcessTurn quiet_env "s" "Still unconscious and now choking"] !! "s" with
  | Some s =>
      List.length (critical_keywords s) = 3
      /\ List.NoDup (critical_keywords s)
      /\ Forall (fun v => exists k, v = VStr k
                                    /\ In k (TriageAgent.critical_medical
                                               ++ TriageAgent.critical_safety
                                               ++ TriageAgent.high_priority))
           (critical_keywords s)
  | None => False
  end.
Proof.
  destruct (run Config _ !! "s") as [s|] eqn:E.
  - split.
    + vm_compute in E. injection E as <-. reflexivity.
    + exact (keywords_of_reachable_sessions _ _ _ _ E).
  - vm_compute in E. discriminate E.
Defined.

(** ** The agents of a turn *)

Lemma selected_untriaged ev message s :
  untriaged s ->
  selected ev message s =
    (if Text.any_in EmpathyAgent.support_keywords (Text.lower message)
     then ["empathy"] else [])
    ++ ["triage"]
    ++ (if is_str (urgency_level s) "critical" || is_str (urgency_level s) "high"
           || existsb (fun keyword => existsb (fun v => is_str v keyword) (critical_keywords s))
                GuidanceAgent.guidance_keywords
        then ["guidance"] else [])
    ++ (if is_str (urgency_level s) "critical" then ["dispatch"] else []).
Proof.
  intros Hs.
  assert (Hu : untriaged (turn_opened ev message s)) by exact Hs.
  destruct (untriaged_blocks_agents _ message Hu) as [Ht Hd].
  pose proof (empathy_in_turn ev message s) as He. unfold turn_context in He.
  unfold selected, select_agents. cbv zeta.
  rewrite He. unfold TriageAgent.should_activate, DispatchAgent.should_activate.
  rewrite Ht, Hd. cbn [negb].
  unfold GuidanceAgent.should_activate. cbv zeta.
  change (ctx_urgency_level (_build_context (turn_opened ev message s) message))
    with (urgency_level s).
  change (ctx_critical_keywords (_build_context (turn_opened ev message s) message))
    with (critical_keywords s).
  unfold Text.any_in.
  destruct (existsb _ EmpathyAgent.support_keywords); cbn [app];
    destruct (is_str (urgency_level s) "critical"); cbn [orb app]; try reflexivity;
    destruct (is_str (urgency_level s) "high"); cbn [orb app]; try reflexivity;
    destruct (existsb _ GuidanceAgent.guidance_keywords); reflexivity.
Qed.

(** X17.  The agents of a turn of a reachable session, as logged in
    [agent_activations]: triage in every turn; empathy exactly when the
    message contains a support keyword; dispatch exactly when the session
    was "critical" before the turn; guidance when it was "critical" or
    "high" or holds a guidance keyword.  The message of the turn itself
    counts for empathy only: what triage finds in it is used for the next
    turn, and the default rule is never needed. *)
Theorem agents_of_a_turn cfg ops ev sid message s :
  run cfg ops !! sid = Some s ->
  is_crisis cfg message = false ->
  turn_number s < max_conversation_turns cfg ->
  exists s',
    snd (process_message cfg ev sid message (run cfg ops)) !! sid = Some s'
    /\ agent_activations s' =
         agent_activations s
         ++ [(turn_number s + 1,
              (if Text.any_in EmpathyAgent.support_keywords (Text.lower message)
               then ["empathy"] else [])
              ++ ["triage"]
              ++ (if is_str (urgency_level s) "critical"
                     || is_str (urgency_level s) "high"
                     || existsb (fun keyword =>
                                   existsb (fun v => is_str v keyword) (critical_keywords s))
                          GuidanceAgent.guidance_keywords
                  then ["guidance"] else [])
              ++ (if is_str (urgency_level s) "critical" then ["dispatch"] else []))].
Proof.
  intros Hs Hc Hn.
  rewrite (process_message_store _ _ _ _ _ _ Hs), lookup_insert_eq.
  eexists. split; [reflexivity|].
  rewrite body_cases, Hc.
  replace (max_conversation_turns cfg <=? turn_number s)%nat with false
    by (symmetry; apply Nat.leb_gt; exact Hn).
  destruct (run_turn_ledger cfg ev message (count_trigger cfg message s))
    as (_ & _ & La & _). cbv zeta in La. rewrite La.
  destruct (count_trigger_frame cfg message s) as (Ct & _ & Ca & _).
  rewrite Ct, Ca, selected_count_trigger.
  now rewrite (selected_untriaged ev message s (reachable_untriaged _ _ _ _ Hs)).
Qed.

Lemma agents_of_a_turn_witness :
  exists s',
    snd (process_message Config quiet_env "s" "I am scared, please hurry"
           (run Config thanks_ops)) !! "s" = Some s'
    /\ agent_activations s' =
         [(1, ["triage"]); (2, ["empathy"; "triage"; "guidance"; "dispatch"])].
Proof.
  assert (Hs : exists s, run Config thanks_ops !! "s" = Some s)
    by (eexists; vm_compute; reflexivity).
  destruct Hs as (s & Hs).
  destruct (agents_of_a_turn Config thanks_ops quiet_env "s" "I am scared, please hurry" s Hs)
    as (s' & Hs' & Ha).
  - reflexivity.
  - apply Nat.ltb_lt. vm_compute in Hs. injection Hs as <-. reflexivity.
  - exists s'. split; [exact Hs'|].
    vm_compute in Hs'. injection Hs' as <-. reflexivity.
Defined.

(** ** Replies *)

Lemma calculate_confidence_bounds ctx :
  (0 <= TriageAgent._calculate_confidence ctx <= 1)%Q.
Proof.
  unfold TriageAgent._calculate_confidence. cbv zeta.
  set (n := inject_Z (Z.of_nat (List.length (ctx_questions_asked ctx)))).
  assert (Hn : (0 <= n)%Q).
  { unfold n. change 0%Q with (inject_Z 0). rewrite <- Zle_Qle. lia. }
  assert (Hq : (0 <= Qmin (n * 0.15) 0.6)%Q) by (apply Q.min_glb; lra).
  split; [|eapply Qle_trans; [apply Q.le_min_r|lra]].
  apply Q.min_glb; [|lra].
  destruct (negb (is_str (ctx_urgency_level ctx) "unknown")); lra.
Qed.

Lemma to_dict_sound m name c u md ts :
  (0 <= c <= 1)%Q -> sound_slot name (VDict (to_dict m name c u md ts)).
Proof. intros H. exists (to_dict m name c u md ts), c. auto. Qed.

Lemma error_response_sound name e : sound_slot name (VDict (error_response name e)).
Proof.
  exists (error_response name e), 0.1%Q. repeat split; try reflexivity; lra.
Qed.

Lemma empathy_slot_sound ev message ctx :
  sound_slot "empathy" (slot "empathy" (EmpathyAgent.process_message ev message ctx)).
Proof.
  unfold slot, EmpathyAgent.process_message, EmpathyAgent.fallback.
  destruct (escapes (EmpathyAgent.call ev)); [apply error_response_sound|].
  destruct (fails_inside (EmpathyAgent.call ev)); apply to_dict_sound; lra.
Qed.

Lemma triage_slot_sound ev message ctx :
  sound_slot "triage" (slot "triage" (TriageAgent.process_message ev message ctx)).
Proof.
  unfold slot, TriageAgent.process_message, TriageAgent.fallback.
  destruct (escapes ev); [apply error_response_sound|].
  destruct (fails_inside ev); [apply to_dict_sound; lra|].
  destruct (TriageAgent._assess_urgency message).
  apply to_dict_sound. apply calculate_confidence_bounds.
Qed.

Lemma guidance_slot_sound ev message ctx :
  sound_slot "guidance" (slot "guidance" (GuidanceAgent.process_message ev message ctx)).
Proof.
  unfold slot, GuidanceAgent.process_message, GuidanceAgent.fallback.
  destruct (escapes ev); [apply error_response_sound|].
  destruct (fails_inside ev); [apply to_dict_sound; lra|].
  destruct (GuidanceAgent._determine_guidance_needed ctx); apply to_dict_sound; lra.
Qed.

Lemma dispatch_slot_sound cfg ev message ctx :
  sound_slot "dispatch" (slot "dispatch" (DispatchAgent.process_message cfg ev message ctx)).
Proof.
  unfold slot, DispatchAgent.process_message, DispatchAgent.fallback.
  destruct (escapes (DispatchAgent.call ev)); [apply error_response_sound|].
  destruct (fails_inside (DispatchAgent.call ev)); [apply to_dict_sound; lra|].
  destruct (negb (DispatchAgent._ready_to_dispatch ctx)); [apply to_dict_sound; lra|].
  destruct (DispatchAgent._prepare_dispatch_data ctx); [|apply to_dict_sound; lra].
  destruct (DispatchAgent._send_to_dispatch cfg ev a); apply to_dict_sound; lra.
Qed.

(** The slot of the primary agent of a turn. *)
Lemma primary_slot_sound cfg ev message s :
  let rs := turn_responses cfg ev message s in
  exists v, dict_get (primary_agent rs) rs = Some v
            /\ sound_slot (primary_agent rs) v
            /\ In (primary_agent rs) ["dispatch"; "guidance"; "triage"; "empathy"].
Proof.
  cbv zeta. rewrite primary_agent_by_priority. unfold by_priority, dict_has.
  destruct (turn_responses_get cfg ev message s) as (He & Ht & Hg & Hd). cbv zeta in *.
  pose proof (select_agents_some (turn_opened ev message s) message) as Hsome.
  fold (selected ev message s) in Hsome.
  destruct (Text.mem "dispatch" (selected ev message s)).
  { rewrite Hd. cbn iota. rewrite Hd. eexists. split; [reflexivity|].
    split; [apply dispatch_slot_sound|simpl; auto]. }
  destruct (Text.mem "guidance" (selected ev message s)).
  { rewrite Hd, Hg. cbn iota. rewrite Hg. eexists. split; [reflexivity|].
    split; [apply guidance_slot_sound|simpl; auto]. }
  destruct (Text.mem "triage" (selected ev message s)).
  { rewrite Hd, Hg, Ht. cbn iota. rewrite Ht. eexists. split; [reflexivity|].
    split; [apply triage_slot_sound|simpl; auto]. }
  destruct (Text.mem "empathy" (selected ev message s)).
  { rewrite Hd, Hg, Ht, He. cbn iota. rewrite He. eexists. split; [reflexivity|].
    split; [apply empathy_slot_sound|simpl; auto]. }
  discriminate Hsome.
Qed.

Lemma final_response_sound cfg ev message s :
  sound_reply (final_response (turn_responses cfg ev message s)).
Proof.
  destruct (final_response_spec _ (turn_responses_nonempty cfg ev message s)
              (turn_responses_wf cfg ev message s))
    as (pd & Hpd & _ & Hmsg & Hother & _).
  destruct (primary_slot_sound cfg ev message s) as (v & Hv & (d & c & -> & Ha & Hc & Hb) & Hin).
  cbv zeta in *. rewrite Hpd in Hv. injection Hv as ->.
  split; [eauto|]. split.
  - eexists. rewrite Hother by discriminate. split; [exact Ha|]. simpl in *. tauto.
  - exists c. rewrite Hother by discriminate. auto.
Qed.

Lemma technical_difficulties_sound e : sound_reply (technical_difficulties e).
Proof.
  split; [eexists; reflexivity|]. split.
  - exists "system". split; [reflexivity|simpl; auto].
  - exists 0.1%Q. split; [reflexivity|lra].
Qed.

(** X18.  [process_message] on a live session never raises: whatever the
    session, the message and the behaviour of the agents, it returns a
    reply with a text message, a confidence between 0 and 1, and an agent
    type that is "system" or the name of one of the four agents, never
    "safety". *)
Theorem replies_are_sound cfg ev sid message (store : sessions) s :
  store !! sid = Some s ->
  exists reply,
    fst (process_message cfg ev sid message store) = Ok reply
    /\ (exists m, dict_get "message" reply = Some (VStr m))
    /\ (exists a, dict_get "agent_type" reply = Some (VStr a)
                  /\ In a ["system"; "dispatch"; "guidance"; "triage"; "empathy"])
    /\ (exists c, dict_get "confidence" reply = Some (VFloat c) /\ (0 <= c <= 1)%Q).
Proof.
  intros Hs. unfold process_message. rewrite Hs.
  pose proof (body_cases cfg ev message s) as Hb.
  destruct (process_message_body cfg ev message s) as [[reply|e] s'] eqn:E; cbn [fst].
  2: { eexists. split; [reflexivity|]. apply technical_difficulties_sound. }
  exists reply. split; [reflexivity|].
  destruct (is_crisis cfg message); [discriminate Hb|].
  destruct (max_conversation_turns cfg <=? turn_number s)%nat; [discriminate Hb|].
  rewrite run_turn_eq in Hb. cbv zeta in Hb. unfold conclude in Hb.
  destruct (_update_session_state _ _) as [[[]|e] s''] in Hb; [|discriminate Hb].
  injection Hb as -> _. apply final_response_sound.
Qed.

Lemma replies_are_sound_witness :
  exists reply,
    fst (process_message Config (triage_raises (OtherException "boom")) "s"
           "There is a fire" {["s" := new_session "s" 0 None]}) = Ok reply
    /\ (exists m, dict_get "message" reply = Some (VStr m))
    /\ (exists a, dict_get "agent_type" reply = Some (VStr a)
                  /\ In a ["system"; "dispatch"; "guidance"; "triage"; "empathy"])
    /\ (exists c, dict_get "confidence" reply = Some (VFloat c) /\ (0 <= c <= 1)%Q).
Proof.
  apply (replies_are_sound Config (triage_raises (OtherException "boom")) "s"
           "There is a fire" {["s" := new_session "s" 0 None]} (new_session "s" 0 None)).
  apply lookup_singleton_eq.
Defined.

(** ** What [process_message] leaves alone *)

Lemma count_trigger_fixed cfg message s :
  let c := count_trigger cfg message s in
  session_id c = session_id s /\ start_time c = start_time s /\ end_time c = end_time s
  /\ (caller_phone c, latitude c, longitude c, address c) =
     (caller_phone s, latitude s, longitude s, address s)
  /\ dispatch_attempted c = dispatch_attempted s
  /\ dispatch_successful c = dispatch_successful s.
Proof.
  cbv zeta. destruct (count_trigger_cases cfg message s) as [-> | ->]; repeat split.
Qed.

Lemma updating_fixed cfg ev message s :
  let u := updating cfg ev message s in
  session_id u = session_id s /\ start_time u = start_time s /\ end_time u = end_time s
  /\ (caller_phone u, latitude u, longitude u, address u) =
     (caller_phone s, latitude s, longitude s, address s).
Proof. cbv zeta. unfold updating, before_update. cbv zeta. repeat split. Qed.

Lemma body_fixed cfg ev message s :
  let s' := snd (process_message_body cfg ev message s) in
  session_id s' = session_id s /\ start_time s' = start_time s /\ end_time s' = end_time s
  /\ (caller_phone s', latitude s', longitude s', address s') =
     (caller_phone s, latitude s, longitude s, address s)
  /\ questions_asked s' = questions_asked s
  /\ (triage_complete s = true -> triage_complete s' = true)
  /\ (dispatch_attempted s = true -> dispatch_attempted s' = true)
  /\ (dispatch_successful s = true -> dispatch_successful s' = true).
Proof.
  cbv zeta. rewrite body_cases.
  destruct (count_trigger_frame cfg message s)
    as (_ & _ & _ & _ & _ & _ & _ & Cq & Ct & _).
  destruct (count_trigger_fixed cfg message s) as (Ci & Cs & Ce & Cc & Ca & Cd).
  cbv zeta in *.
  destruct (is_crisis cfg message); [repeat split; auto|].
  destruct (max_conversation_turns cfg <=? turn_number s)%nat;
    [cbn [snd session_id start_time end_time caller_phone latitude longitude address
            questions_asked triage_complete dispatch_attempted dispatch_successful
            set_loop_breaker_active];
     repeat split; auto; congruence|].
  destruct (run_turn_spec cfg ev message (count_trigger cfg message s)) as ([] & _).
  destruct (updating_frame cfg ev message (count_trigger cfg message s))
    as (_ & _ & _ & _ & Fq & _ & _ & _ & Ft & Fa & Fd & _).
  destruct (updating_fixed cfg ev message (count_trigger cfg message s))
    as (Ui & Us & Ue & Uc).
  cbv zeta in *. destruct upd_flags_kept0 as (K1 & K2 & K3).
  split; [congruence|]. split; [congruence|]. split; [congruence|].
  split; [congruence|]. split; [congruence|].
  split; [intros H; apply K1; congruence|].
  split; [intros H; apply K2; congruence|intros H; apply K3; congruence].
Qed.

(** X19.  [process_message] never changes the identity of a session or
    what the caller gave at the start (id, start and end time, phone,
    coordinates, address), never records a question as asked, and never
    takes back [triage_complete], [dispatch_attempted] or
    [dispatch_successful] once they are set. *)
Theorem process_message_keeps_caller_data cfg ev sid message (store : sessions) s :
  store !! sid = Some s ->
  exists s',
    snd (process_message cfg ev sid message store) !! sid = Some s'
    /\ session_id s' = session_id s
    /\ start_time s' = start_time s
    /\ end_time s' = end_time s
    /\ (caller_phone s', latitude s', longitude s', address s') =
       (caller_phone s, latitude s, longitude s, address s)
    /\ questions_asked s' = questions_asked s
    /\ (triage_complete s = true -> triage_complete s' = true)
    /\ (dispatch_attempted s = true -> dispatch_attempted s' = true)
    /\ (dispatch_successful s = true -> dispatch_successful s' = true).
Proof.
  intros Hs. rewrite (process_message_store _ _ _ _ _ _ Hs), lookup_insert_eq.
  eexists. split; [reflexivity|]. apply body_fixed.
Qed.

Lemma process_message_keeps_caller_data_witness :
  exists s',
    snd (process_message Config quiet_env "s" "thank you"
           {["s" := dispatched_session]}) !! "s" = Some s'
    /\ address s' = VStr "12 Main Street"
    /\ triage_complete s' = true
    /\ dispatch_attempted s' = true
    /\ dispatch_successful s' = true.
Proof.
  destruct (process_message_keeps_caller_data Config quiet_env "s" "thank you"
              {["s" := dispatched_session]} dispatched_session)
    as (s' & Hs' & _ & _ & _ & Hc & _ & Kt & Ka & Kd).
  - apply lookup_singleton_eq.
  - exists s'. split; [exact Hs'|]. injection Hc as _ _ _ ->.
    split; [reflexivity|]. split; [apply Kt; reflexivity|].
    split; [apply Ka; reflexivity|apply Kd; reflexivity].
Defined.

(** ** The configuration the entry points pass *)

(** X20.  With the dictionary [backend/main.py] hands to the orchestrator,
    in which no safety keyword is configured, no session ever counts a
    safety trigger, and every message, one about suicide included, is
    processed as an ordinary turn as long as the turn limit is not
    reached. *)
Theorem shipped_configuration_counts_nothing ops sid s :
  run development_dict ops !! sid = Some s ->
  safety_triggers s = 0
  /\ forall ev message,
       turn_number s < 50 ->
       turn_number (snd (process_message_body development_dict ev message s)) =
         turn_number s + 1.
Proof.
  intros Hs. split.
  - revert Hs. apply (reachable_sessions (fun s => safety_triggers s = 0) development_dict).
    + reflexivity.
    + intros ev message s0 H0. rewrite body_safety_triggers. rewrite H0. reflexivity.
  - intros ev message Hn. rewrite body_cases.
    change (is_crisis development_dict message) with false. cbn iota.
    change (max_conversation_turns development_dict) with 50.
    replace (50 <=? turn_number s)%nat with false by (symmetry; apply Nat.leb_gt; exact Hn).
    destruct (run_turn_ledger development_dict ev message
                (count_trigger development_dict message s)) as (Lt & _).
    cbv zeta in Lt. rewrite Lt. reflexivity.
Qed.

Lemma shipped_configuration_counts_nothing_witness :
  match run development_dict
          [StartSession "s" 0 None;
           ProcessTurn quiet_env "s" "I am thinking about suicide"] !! "s" with
  | Some s =>
      turn_number s = 1
      /\ safety_triggers s = 0
      /\ forall ev message,
           turn_number s < 50 ->
           turn_number (snd (process_message_body development_dict ev message s)) =
             turn_number s + 1
  | None => False
  end.
Proof.
  destruct (run development_dict _ !! "s") as [s|] eqn:E.
  - split.
    + vm_compute in E. injection E as <-. reflexivity.
    + exact (shipped_configuration_counts_nothing _ _ _ E).
  - vm_compute in E. discriminate E.
Defined.

(** ** Shared agent code *)

(** X21.  The urgency score lies between 0 and 1 for every keyword list
    and every sentiment value, and four or more keywords give the score 1
    whatever the sentiment. *)
Theorem urgency_score_bounds keywords sentiment_score :
  (0 <= calculate_urgency_score keywords sentiment_score <= 1)%Q
  /\ (4 <= List.length keywords ->
      (calculate_urgency_score keywords sentiment_score == 1)%Q).
Proof.
  unfold calculate_urgency_score. cbv zeta.
  set (n := inject_Z (Z.of_nat (List.length keywords))).
  assert (Hn : (0 <= n)%Q).
  { unfold n. change 0%Q with (inject_Z 0). rewrite <- Zle_Qle. lia. }
  pose proof (Qabs_nonneg sentiment_score) as Ha.
  split; [split|].
  - apply Q.min_glb; lra.
  - eapply Qle_trans; [apply Q.le_min_r|lra].
  - intros H4.
    assert (Hn4 : (4 <= n)%Q).
    { unfold n. change 4%Q with (inject_Z 4). rewrite <- Zle_Qle. lia. }
    rewrite Q.min_r by lra. lra.
Qed.

Lemma urgency_score_bounds_witness :
  (0 <= calculate_urgency_score ["fire"; "smoke"; "gun"; "weapon"] (-0.5) <= 1)%Q
  /\ (calculate_urgency_score ["fire"; "smoke"; "gun"; "weapon"] (-0.5) == 1)%Q.
Proof.
  destruct (urgency_score_bounds ["fire"; "smoke"; "gun"; "weapon"] (-0.5)) as [Hb H4].
  split; [exact Hb|]. apply H4. simpl. lia.
Defined.

Lemma keywords_iff_critical_or_high_witness :
  TriageAgent._extract_critical_keywords "He is NOT BREATHING" <> []
  /\ fst (TriageAgent._assess_urgency "I have a fever") = "medium"
  /\ TriageAgent._extract_critical_keywords "I have a fever" = [].
Proof.
  split.
  - apply (proj2 (keywords_iff_critical_or_high "He is NOT BREATHING")).
    left. reflexivity.
  - split; reflexivity.
Defined.

Lemma dispatch_succeeds_iff_witness :
  let ctx := _build_context
               (set_urgency_level (VStr "critical")
                  (set_emergency_type (VStr "medical") dispatched_session))
               "please hurry" in
  (exists d md,
      DispatchAgent.process_message Config (dispatch_env quiet_env) "please hurry" ctx = Ok d
      /\ dict_get "metadata" d = Some (VDict md)
      /\ get_truthy "dispatch_successful" md = true)
  /\ ~ (exists d md,
          DispatchAgent.process_message
            {| safety_keywords := []; max_conversation_turns := 50;
               real_dispatch_enabled := true |}
            (dispatch_env quiet_env) "please hurry" ctx = Ok d
          /\ dict_get "metadata" d = Some (VDict md)
          /\ get_truthy "dispatch_successful" md = true).
Proof.
  cbv zeta. split.
  - apply (proj2 (dispatch_succeeds_iff Config (dispatch_env quiet_env) "please hurry" _)).
    repeat split.
  - intros H.
    apply (proj1 (dispatch_succeeds_iff _ (dispatch_env quiet_env) "please hurry" _)) in H.
    destruct H as (_ & _ & _ & _ & _ & H & _). discriminate H.
Defined.

(** ** A critical session *)

Lemma append_assoc (a b c : string) : (a +:+ b) +:+ c = a +:+ b +:+ c.
Proof.
  induction a as [|x a IH]; [reflexivity|].
  change (String x ((a +:+ b) +:+ c) = String x (a +:+ b +:+ c)). now rewrite IH.
Qed.

(** X22.  In a turn of a reachable session that is "critical", if the
    calls of the triage and dispatch agents meet no exception, the reply has
    agent type "dispatch" and confidence 0.3, and its message is exactly the
    dispatch agent's "still gathering information" answer, preceded by the
    message of the support agent and one space when the message of the
    caller contains a support keyword, and by nothing otherwise: the
    instructions of the guidance agent, which also runs in such a turn, and
    the question of the triage agent are not part of the message. *)
Theorem critical_turn_reply cfg ops ev sid message s :
  run cfg ops !! sid = Some s ->
  urgency_level s = VStr "critical" ->
  is_crisis cfg message = false ->
  turn_number s < max_conversation_turns cfg ->
  escapes (triage_env ev) = None ->
  escapes (DispatchAgent.call (dispatch_env ev)) = None ->
  fails_inside (DispatchAgent.call (dispatch_env ev)) = None ->
  exists reply,
    fst (process_message cfg ev sid message (run cfg ops)) = Ok reply
    /\ dict_get "agent_type" reply = Some (VStr "dispatch")
    /\ dict_get "confidence" reply = Some (VFloat 0.3)
    /\ dict_get "message" reply =
         Some (VStr
           ((if Text.any_in EmpathyAgent.support_keywords (Text.lower message)
             then message_of
                    (slot "empathy"
                       (EmpathyAgent.process_message (empathy_env ev) message
                          (turn_context ev message s))) +:+ " "
             else "") +:+
            "Still gathering information before dispatch. Please continue providing details."))
    /\ (escapes (EmpathyAgent.call (empathy_env ev)) = None ->
        fails_inside (EmpathyAgent.call (empathy_env ev)) = None ->
        message_of
          (slot "empathy"
             (EmpathyAgent.process_message (empathy_env ev) message
                (turn_context ev message s))) =
          EmpathyAgent._generate_empathic_response
            (EmpathyAgent.pick (empathy_env ev)) message
            (EmpathyAgent._classify_emotional_state (EmpathyAgent.scores (empathy_env ev)))
            (EmpathyAgent.p_compound (EmpathyAgent.scores (empathy_env ev)))
            (turn_context ev message s)).
Proof.
  intros Hs Hu Hc Hn Ete Ede Edf.
  pose proof (reachable_untriaged _ _ _ _ Hs) as Hun.
  pose proof (reachable_keywords_textual _ _ _ _ Hs) as Hk.
  set (s0 := count_trigger cfg message s).
  destruct (count_trigger_frame cfg message s)
    as (_ & _ & _ & _ & Ck & Cu & _ & Cq & Ct & _). fold s0 in Ck, Cu, Cq, Ct.
  destruct (count_trigger_fixed cfg message s) as (_ & _ & _ & _ & Ca & Cd).
  cbv zeta in Ca, Cd. fold s0 in Ca, Cd.
  assert (Hun0 : untriaged s0).
  { destruct Hun as (Q & T & A & D). repeat split; congruence. }
  assert (Hsel : selected ev message s0 =
                 (if Text.any_in EmpathyAgent.support_keywords (Text.lower message)
                  then ["empathy"] else [])
                 ++ ["triage"; "guidance"; "dispatch"]).
  { rewrite (selected_untriaged ev message s0 Hun0), Cu, Hu. reflexivity. }
  assert (Hfail : triage_fails ev message s0 = false).
  { unfold triage_fails. rewrite Ete. apply andb_false_r. }
  destruct (run_turn_spec cfg ev message s0) as (_ & _ & Hok). cbv zeta in Hok.
  specialize (Hok Hfail). rewrite Ck in Hok. specialize (Hok Hk).
  set (rs := turn_responses cfg ev message s0) in *.
  destruct (turn_responses_get cfg ev message s0) as (He & _ & _ & Hd).
  cbv zeta in He, Hd. fold rs in He, Hd. rewrite Hsel in He, Hd.
  assert (Hmd : Text.mem "dispatch"
                  ((if Text.any_in EmpathyAgent.support_keywords (Text.lower message)
                    then ["empathy"] else []) ++ ["triage"; "guidance"; "dispatch"]) = true)
    by (destruct (Text.any_in _ _); reflexivity).
  assert (Hme : Text.mem "empathy"
                  ((if Text.any_in EmpathyAgent.support_keywords (Text.lower message)
                    then ["empathy"] else []) ++ ["triage"; "guidance"; "dispatch"])
                = Text.any_in EmpathyAgent.support_keywords (Text.lower message))
    by (destruct (Text.any_in _ _); reflexivity).
  rewrite Hmd in Hd. rewrite Hme in He. clear Hmd Hme.
  destruct (untriaged_blocks_agents (turn_opened ev message s0) message Hun0) as [_ Hnr].
  fold (turn_context ev message s0) in Hnr.
  assert (Hslot : dict_get "dispatch" rs =
            Some (VDict (to_dict
              "Still gathering information before dispatch. Please continue providing details."
              "dispatch" 0.3 (ctx_urgency_level (turn_context ev message s0))
              [("dispatch_attempted", VBool false);
               ("reason", VStr "Insufficient information")]
              (created (DispatchAgent.call (dispatch_env ev)))))).
  { rewrite Hd. unfold slot, DispatchAgent.process_message. now rewrite Ede, Edf, Hnr. }
  assert (Hprim : primary_agent rs = "dispatch").
  { rewrite primary_agent_by_priority. unfold by_priority, dict_has. now rewrite Hslot. }
  destruct (final_response_spec rs (turn_responses_nonempty cfg ev message s0)
              (turn_responses_wf cfg ev message s0))
    as (pd & Hpd & _ & Hmsg & Hother & _).
  rewrite Hprim, Hslot in Hpd. injection Hpd as <-.
  assert (Hctx : turn_context ev message s0 = turn_context ev message s)
    by (unfold s0; destruct (count_trigger_cases cfg message s) as [-> | ->]; reflexivity).
  exists (final_response rs).
  split.
  { apply (process_message_reply _ _ _ _ _ _ _ Hs).
    rewrite body_cases, Hc.
    replace (max_conversation_turns cfg <=? turn_number s)%nat with false
      by (symmetry; apply Nat.leb_gt; exact Hn).
    exact Hok. }
  split; [now rewrite Hother by discriminate|].
  split; [now rewrite Hother by discriminate|].
  split.
  - rewrite Hmsg. unfold merged_message, prepends. rewrite Hprim. cbn [String.eqb negb andb].
    assert (Hsm : slot_message rs "dispatch" =
      "Still gathering information before dispatch. Please continue providing details.")
      by (unfold slot_message; rewrite Hslot; reflexivity).
    rewrite Hsm. unfold dict_has, slot_message. rewrite He, Hctx.
    destruct (Text.any_in _ _); cbn iota; [now rewrite append_assoc|reflexivity].
  - intros Ee Ef. unfold slot, EmpathyAgent.process_message. rewrite Ee, Ef. reflexivity.
Qed.

Lemma critical_turn_reply_witness :
  exists reply,
    fst (process_message Config quiet_env "s" "I am scared, he is still unconscious"
           (run Config thanks_ops)) = Ok reply
    /\ dict_get "agent_type" reply = Some (VStr "dispatch")
    /\ dict_get "confidence" reply = Some (VFloat 0.3)
    /\ dict_get "message" reply =
         Some (VStr
           "Help is on the way. It's okay to feel scared. Still gathering information before dispatch. Please continue providing details.").
Proof.
  assert (Hs : exists s, run Config thanks_ops !! "s" = Some s
                         /\ urgency_level s = VStr "critical"
                         /\ (turn_number s <? max_conversation_turns Config)%nat = true)
    by (eexists; split; [vm_compute; reflexivity|split; reflexivity]).
  destruct Hs as (s & Hs & Hu & Hn). apply Nat.ltb_lt in Hn.
  destruct (critical_turn_reply Config thanks_ops quiet_env "s"
              "I am scared, he is still unconscious" s
              Hs Hu eq_refl Hn eq_refl eq_refl eq_refl)
    as (reply & Hr & Ha & Hc & Hm & _).
  exists reply. split; [exact Hr|]. split; [exact Ha|]. split; [exact Hc|].
  rewrite Hm. vm_compute in Hs. injection Hs as <-. vm_compute. reflexivity.
Defined.

(** ** Metadata of the merged reply *)

Lemma length_append (a b : string) :
  String.length (a +:+ b) = String.length a + String.length b.
Proof.
  induction a as [|x a IH]; [reflexivity|].
  change (S (String.length (a +:+ b)) = S (String.length a + String.length b)).
  now rewrite IH.
Qed.

Lemma append_cancel_r (a b c : string) : a +:+ c = b +:+ c -> a = b.
Proof.
  revert b. induction a as [|x a IH]; intros [|y b] H.
  - reflexivity.
  - apply (f_equal String.length) in H. rewrite !length_append in H.
    cbn [String.length] in H. lia.
  - apply (f_equal String.length) in H. rewrite !length_append in H.
    cbn [String.length] in H. lia.
  - change (String x (a +:+ c) = String y (b +:+ c)) in H.
    injection H as -> H. f_equal. auto.
Qed.

Lemma dict_get_in (k : string) (v : value) (d : dict) :
  dict_get k d = Some v -> In (k, v) d.
Proof.
  induction d as [|[k' v'] r IH]; simpl; [discriminate|].
  destruct (String.eqb k k') eqn:E.
  - apply String.eqb_eq in E. subst. intros [= ->]. auto.
  - auto.
Qed.

Lemma dict_set_keys (k : string) (v : value) (d : dict) :
  dict_has k d = true -> map fst (dict_set k v d) = map fst d.
Proof.
  unfold dict_has. induction d as [|[k' v'] r IH]; simpl; [discriminate|].
  destruct (String.eqb k k') eqn:E; simpl.
  - apply String.eqb_eq in E. now subst.
  - intros H. now rewrite IH.
Qed.

(** The loop that fills [combined_metadata], on a mapping: every agent's
    metadata under its own key. *)
Lemma fold_add_metadata (rs : dict) (acc : dict) :
  Forall (fun kv => wf_slot (snd kv)) rs ->
  List.NoDup (map fst rs) ->
  exists all_agents,
    fold_left add_metadata rs (Ok acc) = Ok all_agents
    /\ (forall k d, In (k, VDict d) rs ->
                    dict_get (k +:+ "_metadata") all_agents = Some (metadata_of d))
    /\ (forall key, (forall k, In k (map fst rs) -> key <> k +:+ "_metadata") ->
                    dict_get key all_agents = dict_get key acc).
Proof.
  revert acc. induction rs as [|[k0 v0] r IH]; intros acc Hwf Hnd.
  - exists acc. split; [reflexivity|]. split; [intros k d []|reflexivity].
  - inversion Hwf as [|? ? Hv Hr]; subst. inversion Hnd as [|? ? Hnin Hnd']; subst.
    simpl in Hv. destruct Hv as (d0 & m & t & md & -> & _ & _ & _).
    cbn [fold_left add_metadata res_bind receiver].
    destruct (IH (dict_set (k0 +:+ "_metadata") (metadata_of d0) acc) Hr Hnd')
      as (all_agents & Hall & Hin & Hout).
    exists all_agents. split; [exact Hall|]. split.
    + intros k d [[= <- <-]|H]; [|now apply Hin].
      rewrite Hout; [apply dict_get_set_eq|].
      intros k Hk Heq. apply append_cancel_r in Heq. subst. contradiction.
    + intros key Hkey. rewrite Hout.
      * apply dict_get_set_ne. apply Hkey. simpl. auto.
      * intros k Hk. apply Hkey. simpl. auto.
Qed.

(** X23.  The merge of a mapping of agent outcomes keeps the metadata: the
    reply carries the primary agent's own metadata entries and, under
    "all_agents", for every other agent of the mapping the entry
    "<agent>_metadata" with that agent's metadata. *)
Theorem merge_keeps_metadata (rs : dict) :
  rs <> [] ->
  Forall (fun kv => wf_slot (snd kv)) rs ->
  List.NoDup (map fst rs) ->
  exists final rs' pd md md' all_agents,
    _combine_agent_responses rs = Ok (final, rs')
    /\ dict_get (primary_agent rs) rs = Some (VDict pd)
    /\ dict_get "metadata" pd = Some (VDict md)
    /\ dict_get "metadata" final = Some (VDict md')
    /\ (forall k, k <> "all_agents" -> dict_get k md' = dict_get k md)
    /\ dict_get "all_agents" md' = Some (VDict all_agents)
    /\ forall agent d,
         dict_get agent rs = Some (VDict d) ->
         agent <> primary_agent rs ->
         dict_get (agent +:+ "_metadata") all_agents = Some (metadata_of d).
Proof.
  intros Hne Hwf Hnd.
  pose proof (primary_agent_has rs Hne) as Hhas.
  assert (Hkeys : forall v, map fst (dict_set (primary_agent rs) v rs) = map fst rs)
    by (intros v; now apply dict_set_keys).
  destruct rs as [|[k0 v0] r] eqn:Hrs; [congruence|]. rewrite <- Hrs in *.
  assert (Hp : primary_agent rs = primary_of rs k0) by (rewrite Hrs; reflexivity).
  assert (Hc : _combine_agent_responses rs = combine_nonempty rs k0)
    by (rewrite Hrs; reflexivity).
  rewrite Hc, Hp in *. clear Hc Hp Hrs Hne.
  set (p := primary_of rs k0) in *.
  unfold dict_has in Hhas. destruct (dict_get p rs) as [pv|] eqn:Hpv; [|discriminate].
  destruct (dict_get_wf rs p pv Hwf Hpv) as (pd & pm & pt & md & -> & Hpm & Hpt & Hmd).
  assert (Hgen : forall pd',
             dict_get "metadata" pd' = Some (VDict md) ->
             wf_slot (VDict pd') ->
             exists final rs' md' all_agents,
               res_bind (combined_metadata (dict_set p (VDict pd') rs)) (fun all_agents =>
               res_bind (container (VDict pd')) (fun primary_response =>
               res_bind (subscript primary_response "metadata") (fun metadata_value =>
               res_bind (container metadata_value) (fun metadata =>
               let primary_response :=
                 dict_set "metadata"
                   (VDict (dict_set "all_agents" (VDict all_agents) metadata))
                   primary_response in
               Ok (primary_response,
                   dict_set p (VDict primary_response)
                     (dict_set p (VDict pd') rs)))))) = Ok (final, rs')
               /\ dict_get "metadata" final = Some (VDict md')
               /\ (forall k, k <> "all_agents" -> dict_get k md' = dict_get k md)
               /\ dict_get "all_agents" md' = Some (VDict all_agents)
               /\ forall agent d,
                    dict_get agent rs = Some (VDict d) ->
                    agent <> p ->
                    dict_get (agent +:+ "_metadata") all_agents = Some (metadata_of d)).
  { intros pd' Hmd' Hwf'.
    destruct (fold_add_metadata (dict_set p (VDict pd') rs) [])
      as (all_agents & Hall & Hin & _).
    { apply dict_set_wf; auto. }
    { now rewrite Hkeys. }
    unfold combined_metadata. rewrite Hall. cbn [res_bind container].
    unfold subscript. rewrite Hmd'. cbn [res_bind container].
    do 4 eexists. split; [reflexivity|].
    split; [apply dict_get_set_eq|].
    split; [intros k Hk; now apply dict_get_set_ne|].
    split; [apply dict_get_set_eq|].
    intros agent d Hd Hap. apply Hin. apply dict_get_in.
    now rewrite dict_get_set_ne. }
  unfold combine_nonempty. fold p. unfold subscript at 1. rewrite Hpv. cbn [res_bind].
  destruct (negb (String.eqb p "empathy") && dict_has "empathy" rs) eqn:Hcond.
  - apply andb_true_iff in Hcond. destruct Hcond as [_ Hemp].
    unfold dict_has in Hemp.
    destruct (dict_get "empathy" rs) as [ev|] eqn:Hev; [|discriminate].
    destruct (dict_get_wf rs _ ev Hwf Hev) as (ed & em & et & emd & -> & Hem & _ & _).
    unfold subscript. rewrite Hev. cbn [res_bind container]. rewrite Hem.
    cbn [res_bind format_value container]. rewrite Hpm. cbn [res_bind format_value].
    set (pd' := dict_set "message" _ pd).
    destruct (Hgen pd') as (final & rs' & md' & all_agents & H1 & H2 & H3 & H4 & H5).
    { unfold pd'. now rewrite dict_get_set_ne by discriminate. }
    { exists pd'. do 3 eexists. split; [reflexivity|].
      unfold pd'. rewrite dict_get_set_eq, !dict_get_set_ne by discriminate. eauto. }
    exists final, rs', pd, md, md', all_agents. split; [exact H1|]. auto 10.
  - destruct (Hgen pd Hmd) as (final & rs' & md' & all_agents & H1 & H2 & H3 & H4 & H5).
    { exists pd. eauto 10. }
    exists final, rs', pd, md, md', all_agents. split; [exact H1|]. auto 10.
Qed.

Lemma merge_keeps_metadata_witness :
  exists final rs' md' all_agents,
    _combine_agent_responses sample_outcomes = Ok (final, rs')
    /\ dict_get "metadata" final = Some (VDict md')
    /\ dict_get "emergency_type" md' = Some (VStr "unknown")
    /\ dict_get "all_agents" md' = Some (VDict all_agents)
    /\ dict_get "empathy_metadata" all_agents = Some (VDict [("empathy_score", VFloat 0.5)]).
Proof.
  destruct (merge_keeps_metadata sample_outcomes)
    as (final & rs' & pd & md & md' & all_agents & Hc & Hpd & Hmd & Hf & Hk & Ha & Hall).
  - discriminate.
  - repeat constructor; apply to_dict_wf.
  - repeat constructor; simpl; intuition discriminate.
  - exists final, rs', md', all_agents.
    split; [exact Hc|]. split; [exact Hf|]. split.
    + rewrite Hk by discriminate. injection Hpd as <-. injection Hmd as <-. reflexivity.
    + split; [exact Ha|].
      apply (Hall "empathy" _ eq_refl). discriminate.
Defined.

(** ** Empathic responses *)

Lemma choice_in i (l : list string) : l <> [] -> In (EmpathyAgent.choice i l) l.
Proof.
  intros Hl. unfold EmpathyAgent.choice. apply nth_In.
  apply Nat.mod_upper_bound. destruct l; [congruence|discriminate].
Qed.

(** X24.  An empathic response is one of the agent's template phrases
    (a calming one at first contact and for a distressed caller, a
    validating one for an anxious caller, a reassuring one otherwise),
    followed by at most one of three fixed sentences about the message and
    at most the breathing instruction. *)
Theorem empathic_response_shape i message emotional_state sentiment_score ctx :
  exists phrase addition breathing,
    EmpathyAgent._generate_empathic_response i message emotional_state sentiment_score ctx
      = phrase +:+ addition +:+ breathing
    /\ In phrase
         (if Nat.eqb (ctx_turn_number ctx) 0
             || Text.mem emotional_state ["highly_distressed"; "distressed"]
          then EmpathyAgent.calming_phrases
          else if String.eqb emotional_state "anxious"
               then EmpathyAgent.validation_phrases
               else EmpathyAgent.reassurance_phrases)
    /\ In addition
         [""; " I know you're in pain right now."; " It's okay to feel scared.";
          " Help is definitely coming."]
    /\ In breathing [""; " Try to take slow, deep breaths with me."].
Proof.
  unfold EmpathyAgent._generate_empathic_response. cbv zeta.
  set (base := if Nat.eqb (ctx_turn_number ctx) 0 then _ else _).
  assert (Hbase : In base
            (if Nat.eqb (ctx_turn_number ctx) 0
                || Text.mem emotional_state ["highly_distressed"; "distressed"]
             then EmpathyAgent.calming_phrases
             else if String.eqb emotional_state "anxious"
                  then EmpathyAgent.validation_phrases
                  else EmpathyAgent.reassurance_phrases)).
  { unfold base. destruct (Nat.eqb (ctx_turn_number ctx) 0); cbn [orb];
      [apply choice_in; discriminate|].
    destruct (Text.mem emotional_state _); [apply choice_in; discriminate|].
    destruct (String.eqb emotional_state "anxious"); apply choice_in; discriminate. }
  assert (Hnil : forall a : string, a = a +:+ "").
  { induction a as [|x a IH]; [reflexivity|].
    change (String x a = String x (a +:+ "")). now rewrite <- IH. }
  exists base.
  destruct (Text.contains "pain" (Text.lower message));
    [|destruct (Text.contains "scared" (Text.lower message)
                || Text.contains "afraid" (Text.lower message));
      [|destruct (Text.contains "help" (Text.lower message))]];
    destruct (String.eqb emotional_state "highly_distressed"
              && Qltb sentiment_score (-0.6));
    match goal with
    | |- context [(base +:+ ?a) +:+ ?b] =>
        exists a, b; split; [apply append_assoc|]
    | |- context [base +:+ " Try to take slow, deep breaths with me." = _] =>
        exists "", " Try to take slow, deep breaths with me."; split; [reflexivity|]
    | |- context [base +:+ ?a = _] =>
        exists a, ""; split; [reflexivity|]
    | |- _ =>
        exists "", ""; split; [apply Hnil|]
    end;
    (split; [exact Hbase|]); split; simpl; auto 10.
Qed.

Lemma empathic_response_shape_example :
  EmpathyAgent._generate_empathic_response 3 "I am so scared" "anxious" (-0.4)
    (_build_context (turns Config 1 "hello" (new_session "s" 0 None)) "I am so scared")
  = "Anyone would feel scared in this situation. It's okay to feel scared.".
Proof. vm_compute. reflexivity. Qed.

(** * Failures inside a call *)

(** ** What the agents of the repository let out *)







(** ** Urgency of a critical session *)

Lemma process_turns_serious cfg calls sid (store : sessions) s :
  store !! sid = Some s ->
  serious (urgency_level s) ->
  exists s', process_turns cfg calls sid store !! sid = Some s'
             /\ serious (urgency_level s').
Proof.
  revert store s. unfold process_turns.
  induction calls as [|[ev message] calls IH]; intros store s Hs Hser; simpl.
  - eauto.
  - rewrite (process_message_store _ _ _ _ _ _ Hs).
    eapply IH; [apply lookup_insert_eq|]. now apply body_serious.
Qed.

(** C6 as amended.  A session of a reachable store whose urgency level is
    "critical" keeps, through every sequence of [process_message] calls, an
    urgency level that is "critical", "high" or "medium": it never becomes
    "low" or "unknown".  It does become "high" or "medium": a turn that
    passes the safety check and in which the triage agent assesses the
    message as "high" or as "medium" leaves the session with that level. *)
Theorem critical_urgency_after_turns cfg ops sid s :
  run cfg ops !! sid = Some s ->
  urgency_level s = VStr "critical" ->
  (forall calls,
      exists s', process_turns cfg calls sid (run cfg ops) !! sid = Some s'
                 /\ (urgency_level s' = VStr "critical"
                     \/ urgency_level s' = VStr "high"
                     \/ urgency_level s' = VStr "medium"))
  /\ (forall ev message,
         is_crisis cfg message = false ->
         turn_number s < max_conversation_turns cfg ->
         triage_assesses ev = true ->
         fst (TriageAgent._assess_urgency message) = "high"
         \/ fst (TriageAgent._assess_urgency message) = "medium" ->
         exists s',
           snd (process_message cfg ev sid message (run cfg ops)) !! sid = Some s'
           /\ urgency_level s' = VStr (fst (TriageAgent._assess_urgency message))).
Proof.
  intros Hs Hu. split.
  - intros calls. apply (process_turns_serious cfg calls sid _ s Hs). left. exact Hu.
  - intros ev message Hc Hn Ha Hlevel.
    rewrite (process_message_store _ _ _ _ _ _ Hs), lookup_insert_eq.
    eexists. split; [reflexivity|].
    pose proof (body_assessment cfg ev message s (reachable_keywords_textual _ _ _ _ Hs))
      as Hb.
    rewrite Hc, Ha, (untriaged_selects_triage ev message s (reachable_untriaged _ _ _ _ Hs))
      in Hb.
    replace (turn_number s <? max_conversation_turns cfg)%nat with true in Hb
      by (symmetry; now apply Nat.ltb_lt).
    cbn [negb andb] in Hb. unfold assessment, reassessed in Hb.
    injection Hb as Hu' _ _. rewrite Hu'.
    destruct Hlevel as [-> | ->]; reflexivity.
Qed.

Lemma critical_urgency_after_turns_witness :
  let ops := [StartSession "s" 0 None;
              ProcessTurn quiet_env "s" "Someone is unconscious and not breathing!"] in
  match run Config ops !! "s" with
  | Some s =>
      urgency_level s = VStr "critical"
      /\ (exists s',
             process_turns Config [(quiet_env, "I had a car accident"); (quiet_env, "thank you")]
               "s" (run Config ops) !! "s" = Some s'
             /\ (urgency_level s' = VStr "critical"
                 \/ urgency_level s' = VStr "high"
                 \/ urgency_level s' = VStr "medium"))
      /\ (exists s',
             snd (process_message Config quiet_env "s" "I had a car accident"
                    (run Config ops)) !! "s" = Some s'
             /\ urgency_level s' = VStr "high")
      /\ (exists s',
             snd (process_message Config quiet_env "s" "Now I have a fever too"
                    (run Config ops)) !! "s" = Some s'
             /\ urgency_level s' = VStr "medium")
  | None => False
  end.
Proof.
  cbv zeta. destruct (run Config _ !! "s") as [s|] eqn:E.
  - assert (Hu : urgency_level s = VStr "critical")
      by (vm_compute in E; injection E as <-; reflexivity).
    assert (Hn : turn_number s < max_conversation_turns Config)
      by (apply Nat.ltb_lt; vm_compute in E; injection E as <-; reflexivity).
    destruct (critical_urgency_after_turns Config _ "s" s E Hu) as [HA HB].
    split; [exact Hu|]. split; [apply HA|]. split.
    + apply (HB quiet_env "I had a car accident" eq_refl Hn eq_refl). left. reflexivity.
    + apply (HB quiet_env "Now I have a fever too" eq_refl Hn eq_refl). right. reflexivity.
  - vm_compute in E. discriminate E.
Defined.

(** C6, counterexample.  After a first message assessed as critical, a
    message assessed as high lowers the session's urgency level from
    "critical" to "high", and one assessed as medium lowers it to
    "medium". *)
Lemma critical_regresses :
  let store0 : sessions := {["s" := new_session "s" 0 None]} in
  let store1 := snd (process_message Config quiet_env "s"
                       "Someone is unconscious and not breathing!" store0) in
  let store2 := snd (process_message Config quiet_env "s" "I had a car accident" store1) in
  let store3 := snd (process_message Config quiet_env "s" "Now I have a fever too" store1) in
  (urgency_level <$> store1 !! "s") = Some (VStr "critical")
  /\ (urgency_level <$> store2 !! "s") = Some (VStr "high")
  /\ (urgency_level <$> store3 !! "s") = Some (VStr "medium").
Proof. vm_compute. repeat split; reflexivity. Qed.

(** ** A failing agent *)






(** ** The urgency level of a reply *)




